(** * OptiVerify backend: payment reconciliation, credit ledger and access tokens

    A shallow embedding of the payment controller
    (createCheckoutSession's siblings [handleWebhook], [syncPaymentStatus]),
    of the credit-consuming endpoints ([unlockRequest], [processMatching])
    and of the token service ([generateToken], [verifyToken]), followed by
    the properties of the specification that concern them.

    Conventions of the embedding.
    - A MongoDB collection is a list of documents in insertion order;
      [findOne] is the first document that satisfies the filter.
    - A Mongoose document fetched by a handler is a value; [save] writes it
      back under its [_id] (or appends it when the [_id] is new).  Writes to
      the document store succeed; schema validation is not modelled.
    - JavaScript strings are [string]s of one-byte characters; case folding
      and trimming are the ASCII ones.  [undefined]/[null] is [None], and a
      value is truthy when it is [Some] non-empty string (or non-zero number).
    - Dates are kept as their calendar fields (UTC).
    - The payment provider, the AI matcher and the clock are inputs of the
      handlers. *)

From Stdlib Require Import ZArith List String Ascii Bool Lia.
From Stdlib Require Import DecimalString DecimalZ DecimalFacts DecimalPos DecimalN.
Import ListNotations.
Local Open Scope Z_scope.
Local Open Scope string_scope.

(** ** JavaScript strings *)

Module JsString.

Definition lowerChar (c : ascii) : ascii :=
  let n := nat_of_ascii c in
  if andb (Nat.leb 65 n) (Nat.leb n 90) then ascii_of_nat (n + 32) else c.

(** [String.prototype.toLowerCase] on ASCII text. *)
Fixpoint toLowerCase (s : string) : string :=
  match s with
  | EmptyString => EmptyString
  | String c r => String (lowerChar c) (toLowerCase r)
  end.

(** White space and line terminators below U+0080. *)
Definition isSpace (c : ascii) : bool :=
  let n := nat_of_ascii c in
  orb (andb (Nat.leb 9 n) (Nat.leb n 13)) (Nat.eqb n 32).

Fixpoint trimStart (s : string) : string :=
  match s with
  | EmptyString => EmptyString
  | String c r => if isSpace c then trimStart r else s
  end.

(** Drops trailing white space: a suffix made of spaces only vanishes. *)
Fixpoint trimEnd (s : string) : string :=
  match s with
  | EmptyString => EmptyString
  | String c r =>
      match trimEnd r with
      | EmptyString => if isSpace c then EmptyString else String c EmptyString
      | r' => String c r'
      end
  end.

(** [String.prototype.trim]. *)
Definition trim (s : string) : string := trimEnd (trimStart s).

(** [s.includes(c)] for a one-character needle. *)
Fixpoint includesChar (c : ascii) (s : string) : bool :=
  match s with
  | EmptyString => false
  | String d r => if Ascii.eqb c d then true else includesChar c r
  end.

(** [s.split(c)[0]]: the text before the first occurrence of [c]. *)
Fixpoint beforeChar (c : ascii) (s : string) : string :=
  match s with
  | EmptyString => EmptyString
  | String d r => if Ascii.eqb c d then EmptyString else String d (beforeChar c r)
  end.

(** Truthiness of an optional string: [undefined], [null] and the empty
    string are falsy. *)
Definition truthy (o : option string) : bool :=
  match o with
  | Some s => negb (String.eqb s EmptyString)
  | None => false
  end.

(** [a || b] on optional strings. *)
Definition orElse (a b : option string) : option string :=
  if truthy a then a else b.

Definition optEqb (a b : option string) : bool :=
  match a, b with
  | Some x, Some y => String.eqb x y
  | None, None => true
  | _, _ => false
  end.

Definition isDigit (c : ascii) : bool :=
  let n := nat_of_ascii c in andb (Nat.leb 48 n) (Nat.leb n 57).

Definition digitVal (c : ascii) : Z := Z.of_nat (nat_of_ascii c) - 48.

(** Value of a hexadecimal digit, if it is one. *)
Definition hexVal (c : ascii) : option Z :=
  let n := nat_of_ascii c in
  if andb (Nat.leb 48 n) (Nat.leb n 57) then Some (Z.of_nat n - 48)
  else if andb (Nat.leb 97 n) (Nat.leb n 102) then Some (Z.of_nat n - 87)
  else if andb (Nat.leb 65 n) (Nat.leb n 70) then Some (Z.of_nat n - 55)
  else None.

(** Longest prefix of decimal digits, accumulated left to right; the flag
    tells whether a digit was read. *)
Fixpoint decPrefix (s : string) (acc : Z) (seen : bool) : Z * bool :=
  match s with
  | String c r => if isDigit c then decPrefix r (10 * acc + digitVal c) true
                  else (acc, seen)
  | EmptyString => (acc, seen)
  end.

Fixpoint hexPrefix (s : string) (acc : Z) (seen : bool) : Z * bool :=
  match s with
  | String c r => match hexVal c with
                  | Some v => hexPrefix r (16 * acc + v) true
                  | None => (acc, seen)
                  end
  | EmptyString => (acc, seen)
  end.

(** [parseInt(s)] without a radix: leading white space, an optional sign,
    an optional [0x]/[0X] prefix, then the longest run of digits.  [None]
    is [NaN]. *)
Definition parseInt (s : string) : option Z :=
  let t := trimStart s in
  let '(sign, body) :=
    match t with
    | String "-" r => (-1, r)
    | String "+" r => (1, r)
    | _ => (1, t)
    end in
  let '(v, seen) :=
    match body with
    | String "0" (String "x" r) => hexPrefix r 0 false
    | String "0" (String "X" r) => hexPrefix r 0 false
    | _ => decPrefix body 0 false
    end in
  if seen then Some (sign * v) else None.

End JsString.

(** ** JavaScript dates, by their calendar fields *)

Module JsDate.

(** A time value seen through [getFullYear], [getMonth] (0..11), [getDate]
    (1..31) and the milliseconds elapsed within the day. *)
Record t := mk { year : Z; month : Z; date : Z; msOfDay : Z }.

Definition isLeap (y : Z) : bool :=
  andb (Z.eqb (y mod 4) 0) (orb (negb (Z.eqb (y mod 100) 0)) (Z.eqb (y mod 400) 0)).

Definition daysInMonth (y m : Z) : Z :=
  if Z.eqb m 1 then (if isLeap y then 29 else 28)
  else if orb (orb (Z.eqb m 3) (Z.eqb m 5)) (orb (Z.eqb m 8) (Z.eqb m 10)) then 30
  else 31.

(** Day [d] counted from the first of month [m] of year [y]; a day past the
    end of the month runs over into the following months. *)
Fixpoint rollDays (fuel : nat) (y m d ms : Z) : t :=
  match fuel with
  | O => mk y m d ms
  | S k =>
      if Z.leb d (daysInMonth y m) then mk y m d ms
      else if Z.eqb m 11 then rollDays k (y + 1) 0 (d - daysInMonth y m) ms
      else rollDays k y (m + 1) (d - daysInMonth y m) ms
  end.

(** ECMAScript [MakeDay(year, month, date)] joined with the time within the
    day, for [date >= 1]: the month is first brought into 0..11, carrying
    into the year. *)
Definition makeDate (y m d ms : Z) : t :=
  rollDays (Z.to_nat d) (y + m / 12) (m mod 12) d ms.

Definition getMonth (x : t) : Z := month x.
Definition getFullYear (x : t) : Z := year x.

(** [x.setMonth(m)] *)
Definition setMonth (x : t) (m : Z) : t := makeDate (year x) m (date x) (msOfDay x).

(** [x.setFullYear(y)] *)
Definition setFullYear (x : t) (y : Z) : t := makeDate y (month x) (date x) (msOfDay x).

(** [a > b] on time values. *)
Definition gtb (a b : t) : bool :=
  match Z.compare (year a) (year b) with
  | Gt => true | Lt => false
  | Eq => match Z.compare (month a) (month b) with
          | Gt => true | Lt => false
          | Eq => match Z.compare (date a) (date b) with
                  | Gt => true | Lt => false
                  | Eq => Z.gtb (msOfDay a) (msOfDay b)
                  end
          end
  end.

(** A well-formed calendar reading. *)
Definition valid (x : t) : Prop :=
  0 <= month x <= 11 /\ 1 <= date x <= daysInMonth (year x) (month x)
  /\ 0 <= msOfDay x < 86400000.

End JsDate.

(** ** Documents of the store *)

Inductive PaymentStatus := Pending | Succeeded | Failed | Canceled.
Inductive ReportStatus := ReportPending | ReportCompleted | ReportPaid | ReportUnlocked.
Inductive SubscriptionStatus := SubNone | SubActive | SubExpired | SubCanceled.
Inductive TransactionType := Deducted | Added | Expired.
Inductive Reason :=
  MatchGeneration | UnlockRequest | SubscriptionAllocation | TopUp | Rollover.

Definition PaymentStatus_eqb (a b : PaymentStatus) : bool :=
  match a, b with
  | Pending, Pending | Succeeded, Succeeded | Failed, Failed | Canceled, Canceled => true
  | _, _ => false
  end.

Definition ReportStatus_eqb (a b : ReportStatus) : bool :=
  match a, b with
  | ReportPending, ReportPending | ReportCompleted, ReportCompleted
  | ReportPaid, ReportPaid | ReportUnlocked, ReportUnlocked => true
  | _, _ => false
  end.

Definition SubscriptionStatus_eqb (a b : SubscriptionStatus) : bool :=
  match a, b with
  | SubNone, SubNone | SubActive, SubActive
  | SubExpired, SubExpired | SubCanceled, SubCanceled => true
  | _, _ => false
  end.

(** models/common/User.js *)
Module User.
Record t := mk {
  _id : nat;
  email : string;
  isVerified : bool;
  subscriptionStatus : SubscriptionStatus;
  subscriptionPlan : option string;
  subscriptionExpiresAt : option JsDate.t;
  stripeCustomerId : option string;
  stripeSubscriptionId : option string;
  matchCredits : Z }.

(** [new User({ email, isVerified })]: the schema defaults fill the rest. *)
Definition create (id : nat) (e : string) (verified : bool) : t :=
  mk id e verified SubNone None None None None 0.

Definition set_isVerified (v : bool) (u : t) : t :=
  mk (_id u) (email u) v (subscriptionStatus u) (subscriptionPlan u)
     (subscriptionExpiresAt u) (stripeCustomerId u) (stripeSubscriptionId u)
     (matchCredits u).
Definition set_subscriptionStatus (v : SubscriptionStatus) (u : t) : t :=
  mk (_id u) (email u) (isVerified u) v (subscriptionPlan u)
     (subscriptionExpiresAt u) (stripeCustomerId u) (stripeSubscriptionId u)
     (matchCredits u).
Definition set_subscriptionPlan (v : option string) (u : t) : t :=
  mk (_id u) (email u) (isVerified u) (subscriptionStatus u) v
     (subscriptionExpiresAt u) (stripeCustomerId u) (stripeSubscriptionId u)
     (matchCredits u).
Definition set_subscriptionExpiresAt (v : option JsDate.t) (u : t) : t :=
  mk (_id u) (email u) (isVerified u) (subscriptionStatus u) (subscriptionPlan u)
     v (stripeCustomerId u) (stripeSubscriptionId u) (matchCredits u).
Definition set_stripeCustomerId (v : option string) (u : t) : t :=
  mk (_id u) (email u) (isVerified u) (subscriptionStatus u) (subscriptionPlan u)
     (subscriptionExpiresAt u) v (stripeSubscriptionId u) (matchCredits u).
Definition set_stripeSubscriptionId (v : option string) (u : t) : t :=
  mk (_id u) (email u) (isVerified u) (subscriptionStatus u) (subscriptionPlan u)
     (subscriptionExpiresAt u) (stripeCustomerId u) v (matchCredits u).
Definition set_matchCredits (v : Z) (u : t) : t :=
  mk (_id u) (email u) (isVerified u) (subscriptionStatus u) (subscriptionPlan u)
     (subscriptionExpiresAt u) (stripeCustomerId u) (stripeSubscriptionId u) v.
End User.

(** models/customer/Payment.js.  [amount] is kept in cents: the source
    stores dollars, [amount_total / 100]. *)
Module Payment.
Record t := mk {
  _id : nat;
  requestId : option string;
  matchReportId : option nat;
  email : string;
  stripePaymentIntentId : option string;
  stripeSessionId : option string;
  stripeCustomerId : option string;
  stripeSubscriptionId : option string;
  amount : Z;
  planType : string;
  status : PaymentStatus;
  paidAt : option JsDate.t;
  createdAt : JsDate.t }.

Definition set_stripePaymentIntentId (v : option string) (p : t) : t :=
  mk (_id p) (requestId p) (matchReportId p) (email p) v (stripeSessionId p)
     (stripeCustomerId p) (stripeSubscriptionId p) (amount p) (planType p)
     (status p) (paidAt p) (createdAt p).
Definition set_stripeCustomerId (v : option string) (p : t) : t :=
  mk (_id p) (requestId p) (matchReportId p) (email p) (stripePaymentIntentId p)
     (stripeSessionId p) v (stripeSubscriptionId p) (amount p) (planType p)
     (status p) (paidAt p) (createdAt p).
Definition set_stripeSubscriptionId (v : option string) (p : t) : t :=
  mk (_id p) (requestId p) (matchReportId p) (email p) (stripePaymentIntentId p)
     (stripeSessionId p) (stripeCustomerId p) v (amount p) (planType p)
     (status p) (paidAt p) (createdAt p).
Definition set_matchReportId (v : option nat) (p : t) : t :=
  mk (_id p) (requestId p) v (email p) (stripePaymentIntentId p)
     (stripeSessionId p) (stripeCustomerId p) (stripeSubscriptionId p) (amount p)
     (planType p) (status p) (paidAt p) (createdAt p).
Definition set_status (v : PaymentStatus) (p : t) : t :=
  mk (_id p) (requestId p) (matchReportId p) (email p) (stripePaymentIntentId p)
     (stripeSessionId p) (stripeCustomerId p) (stripeSubscriptionId p) (amount p)
     (planType p) v (paidAt p) (createdAt p).
Definition set_paidAt (v : option JsDate.t) (p : t) : t :=
  mk (_id p) (requestId p) (matchReportId p) (email p) (stripePaymentIntentId p)
     (stripeSessionId p) (stripeCustomerId p) (stripeSubscriptionId p) (amount p)
     (planType p) (status p) v (createdAt p).
End Payment.

(** The parts of a match report that the matcher fills in. *)
Record ReportContent := mkContent {
  summary : string;
  category : string;
  matchedCount : Z;
  matchScore : Z;
  suppliers : list (nat * Z) }.

(** models/customer/MatchReport.js *)
Module MatchReport.
Record t := mk {
  _id : nat;
  requestId : string;
  email : option string;
  status : ReportStatus;
  content : ReportContent;
  generatedAt : option JsDate.t;
  paymentId : option nat;
  unlockedAt : option JsDate.t }.

Definition set_status (v : ReportStatus) (r : t) : t :=
  mk (_id r) (requestId r) (email r) v (content r) (generatedAt r) (paymentId r)
     (unlockedAt r).
Definition set_content (v : ReportContent) (g : option JsDate.t) (r : t) : t :=
  mk (_id r) (requestId r) (email r) (status r) v g (paymentId r) (unlockedAt r).
Definition set_paymentId (v : option nat) (r : t) : t :=
  mk (_id r) (requestId r) (email r) (status r) (content r) (generatedAt r) v
     (unlockedAt r).
Definition set_unlockedAt (v : option JsDate.t) (r : t) : t :=
  mk (_id r) (requestId r) (email r) (status r) (content r) (generatedAt r)
     (paymentId r) v.
End MatchReport.

(** models/customer/BuyerRequest.js; [_id] is the request id carried around
    as a string. *)
Module BuyerRequest.
Record t := mk {
  _id : string;
  email : string;
  description : string;
  category : string;
  status : string }.

Definition set_status (v : string) (b : t) : t :=
  mk (_id b) (email b) (description b) (category b) v.
End BuyerRequest.

(** models/customer/ManagedService.js, the fields the webhook touches. *)
Module ManagedService.
Record t := mk {
  _id : string;
  email : string;
  userId : option nat;
  status : string;
  stage : string;
  serviceFeeAmount : Z;
  serviceFeeStatus : string;
  serviceFeePaymentId : option string;
  serviceFeePaidAt : option JsDate.t;
  savingsFeeAmount : Z;
  savingsFeeStatus : string;
  savingsFeePaymentId : option string;
  savingsFeePaidAt : option JsDate.t }.
End ManagedService.

(** models/customer/CreditTransaction.js *)
Module CreditTransaction.
Record t := mk {
  userId : nat;
  requestId : option string;
  matchReportId : option nat;
  email : string;
  creditsUsed : Z;
  creditsBefore : Z;
  creditsAfter : Z;
  transactionType : TransactionType;
  reason : Reason }.
End CreditTransaction.

(** models/admin/Plan.js *)
Module Plan.
Record t := mk {
  planType : string;
  isActive : bool;
  credits : Z;
  maxRolloverCredits : Z }.
End Plan.

(** The document store. [nextId] is the source of fresh [_id]s. *)
Record Store := mkStore {
  users : list User.t;
  payments : list Payment.t;
  matchReports : list MatchReport.t;
  buyerRequests : list BuyerRequest.t;
  managedServices : list ManagedService.t;
  creditTransactions : list CreditTransaction.t;
  plans : list Plan.t;
  nextId : nat }.

(** ** The payment provider, as the handlers see it *)

Module Session.
Record Metadata := mkMeta {
  type : option string;
  paymentType : option string;
  requestId : option string;
  planType : option string;
  email : option string;
  quantity : option string;
  verificationToken : option string }.

(** A checkout session; [amount_total] is in cents. *)
Record t := mk {
  id : option string;
  metadata : Metadata;
  client_reference_id : option string;
  customer_email : option string;
  amount_total : Z;
  payment_intent : option string;
  customer : option string;
  subscription : option string;
  payment_status : string }.
End Session.

Record Invoice := mkInvoice {
  invoice_subscription : option string;
  invoice_customer_email : option string;
  invoice_payment_intent : option string }.

(** The Stripe client. A call that throws answers [None]. *)
Record StripeApi := mkStripe {
  subscriptions_retrieve : string -> option (option string); (* latest_invoice *)
  invoices_retrieve : string -> option Invoice;
  paymentIntents_retrieve : string -> option string;         (* status *)
  sessions_retrieve : string -> option Session.t;
  sessions_list : option (list Session.t) }.

(** Events delivered to the webhook. *)
Inductive Event :=
| CheckoutSessionCompleted (session : Session.t)
| PaymentIntentSucceeded
| InvoicePaymentSucceeded (invoice : Invoice)
| OtherEvent.

(** ** Store access *)

Section Upsert.
Context {A : Type} (same : A -> A -> bool).

(** [doc.save()]: replace the stored document with the same [_id], or
    insert the document at the end of the collection. *)
Fixpoint upsert (d : A) (l : list A) : list A :=
  match l with
  | [] => [d]
  | x :: r => if same x d then d :: r else x :: upsert d r
  end.
End Upsert.

Definition sameUser (a b : User.t) : bool := Nat.eqb (User._id a) (User._id b).
Definition samePayment (a b : Payment.t) : bool := Nat.eqb (Payment._id a) (Payment._id b).
Definition sameReport (a b : MatchReport.t) : bool :=
  Nat.eqb (MatchReport._id a) (MatchReport._id b).
Definition sameRequest (a b : BuyerRequest.t) : bool :=
  String.eqb (BuyerRequest._id a) (BuyerRequest._id b).
Definition sameManaged (a b : ManagedService.t) : bool :=
  String.eqb (ManagedService._id a) (ManagedService._id b).

Definition saveUser (u : User.t) (s : Store) : Store :=
  mkStore (upsert sameUser u (users s)) (payments s) (matchReports s)
          (buyerRequests s) (managedServices s) (creditTransactions s) (plans s)
          (nextId s).
Definition savePayment (p : Payment.t) (s : Store) : Store :=
  mkStore (users s) (upsert samePayment p (payments s)) (matchReports s)
          (buyerRequests s) (managedServices s) (creditTransactions s) (plans s)
          (nextId s).
Definition saveReport (r : MatchReport.t) (s : Store) : Store :=
  mkStore (users s) (payments s) (upsert sameReport r (matchReports s))
          (buyerRequests s) (managedServices s) (creditTransactions s) (plans s)
          (nextId s).
Definition saveRequest (b : BuyerRequest.t) (s : Store) : Store :=
  mkStore (users s) (payments s) (matchReports s)
          (upsert sameRequest b (buyerRequests s)) (managedServices s)
          (creditTransactions s) (plans s) (nextId s).
Definition saveManaged (m : ManagedService.t) (s : Store) : Store :=
  mkStore (users s) (payments s) (matchReports s) (buyerRequests s)
          (upsert sameManaged m (managedServices s)) (creditTransactions s)
          (plans s) (nextId s).

(** [CreditTransaction.create(...)]: the ledger only grows. *)
Definition createTransaction (c : CreditTransaction.t) (s : Store) : Store :=
  mkStore (users s) (payments s) (matchReports s) (buyerRequests s)
          (managedServices s) (creditTransactions s ++ [c]) (plans s) (nextId s).

(** A fresh [_id] for [new Model(...)]. *)
Definition freshId (s : Store) : nat * Store :=
  (nextId s,
   mkStore (users s) (payments s) (matchReports s) (buyerRequests s)
           (managedServices s) (creditTransactions s) (plans s) (S (nextId s))).

Definition findUserByEmail (e : string) (s : Store) : option User.t :=
  find (fun u => String.eqb (User.email u) e) (users s).
Definition findUserById (i : nat) (s : Store) : option User.t :=
  find (fun u => Nat.eqb (User._id u) i) (users s).
Definition findUserBySubscription (sub : option string) (s : Store) : option User.t :=
  find (fun u => JsString.optEqb (User.stripeSubscriptionId u) sub) (users s).
Definition findReportByRequest (rid : string) (s : Store) : option MatchReport.t :=
  find (fun r => String.eqb (MatchReport.requestId r) rid) (matchReports s).
Definition findReportById (i : option nat) (s : Store) : option MatchReport.t :=
  match i with
  | Some n => find (fun r => Nat.eqb (MatchReport._id r) n) (matchReports s)
  | None => None
  end.
Definition findRequestById (rid : string) (s : Store) : option BuyerRequest.t :=
  find (fun b => String.eqb (BuyerRequest._id b) rid) (buyerRequests s).
Definition findManagedById (i : option string) (s : Store) : option ManagedService.t :=
  match i with
  | Some m => find (fun x => String.eqb (ManagedService._id x) m) (managedServices s)
  | None => None
  end.

(** ** Entitlement rules (paymentController.js, lines 35-104) *)

Definition isSubscriptionPlan (planType : string) : bool :=
  existsb (String.eqb planType)
    ["starter_monthly"; "starter_annual"; "professional_monthly"; "professional_annual"].

(** "starter_monthly" -> "starter" *)
Definition dbPlanType (planType : string) : string :=
  if JsString.includesChar "_" planType then JsString.beforeChar "_" planType
  else planType.

Definition findActivePlan (planType : string) (s : Store) : option Plan.t :=
  find (fun p => andb (String.eqb (Plan.planType p) (dbPlanType planType)) (Plan.isActive p))
       (plans s).

Definition getCreditsForPlan (planType : string) (s : Store) : Z :=
  match findActivePlan planType s with
  | Some plan => Plan.credits plan
  | None =>
      if orb (String.eqb planType "starter_monthly") (String.eqb planType "starter_annual")
      then 5
      else if orb (String.eqb planType "professional_monthly")
                  (String.eqb planType "professional_annual")
      then 15
      else 0
  end.

Definition getMaxRolloverCredits (planType : string) (s : Store) : Z :=
  match findActivePlan planType s with
  | Some plan => Plan.maxRolloverCredits plan
  | None =>
      if orb (String.eqb planType "professional_monthly")
             (String.eqb planType "professional_annual")
      then 3
      else 0
  end.

(** The balance after a subscription allocation (lines 1517-1524, and the
    same text in the sync handlers). *)
Definition creditsAfterAllocation (creditsForPlan maxRollover currentCredits : Z) : Z :=
  if andb (Z.ltb 0 maxRollover) (Z.ltb 0 currentCredits)
  then creditsForPlan + Z.min currentCredits maxRollover
  else creditsForPlan.

(** The expiry written after a subscription allocation (lines 1543-1559):
    other plan types leave the stored value alone. *)
Definition subscriptionExpiry (planType : string) (now : JsDate.t)
    (previous : option JsDate.t) : option JsDate.t :=
  if orb (String.eqb planType "starter_monthly") (String.eqb planType "professional_monthly")
  then Some (JsDate.setMonth now (JsDate.getMonth now + 1))
  else if orb (String.eqb planType "starter_annual")
              (String.eqb planType "professional_annual")
  then Some (JsDate.setFullYear now (JsDate.getFullYear now + 1))
  else previous.

(** The subscription block of the handlers, up to the final [save]: activate
    the plan on [user], allocate the credits with roll-over, write the ledger
    entry and set the expiry (lines 1506-1559). *)
Definition allocateSubscription (planType : string) (customer subscription : option string)
    (now : JsDate.t) (user : User.t) (s : Store) : User.t * Store :=
  let user := User.set_subscriptionStatus SubActive user in
  let user := User.set_subscriptionPlan (Some planType) user in
  let user := User.set_stripeCustomerId customer user in
  let user := User.set_stripeSubscriptionId subscription user in
  let creditsForPlan := getCreditsForPlan planType s in
  let maxRollover := getMaxRolloverCredits planType s in
  let currentCredits := User.matchCredits user in
  let creditsBefore := currentCredits in
  let user :=
    User.set_matchCredits (creditsAfterAllocation creditsForPlan maxRollover currentCredits)
                          user in
  let s := createTransaction
             (CreditTransaction.mk (User._id user) None None (User.email user)
                (User.matchCredits user - creditsBefore) creditsBefore
                (User.matchCredits user) Added SubscriptionAllocation) s in
  let user :=
    User.set_subscriptionExpiresAt
      (subscriptionExpiry planType now (User.subscriptionExpiresAt user)) user in
  (user, s).

(** ** The credit blocks shared by the webhook and the sync handlers *)

(** The AI matcher, for one buyer request: the generated report, or [None]
    when no supplier qualifies or a call to the matcher throws (the
    handlers catch that and go on). *)
Definition Matcher := BuyerRequest.t -> option ReportContent.

Definition findOrNewUser (email : string) (s : Store) : User.t * Store :=
  match findUserByEmail email s with
  | Some u => (u, s)
  | None => let '(i, s) := freshId s in (User.create i email false, s)
  end.

(** [quantityFromMetadata || Math.floor(payment.amount / 10)], with the
    amount in cents. *)
Definition creditsToAdd (quantity : option string) (amount : Z) : Z :=
  let quantityFromMetadata :=
    match quantity with
    | Some q => if JsString.truthy quantity then JsString.parseInt q else None
    | None => None
    end in
  match quantityFromMetadata with
  | Some n => if Z.eqb n 0 then amount / 1000 else n
  | None => amount / 1000
  end.

(** [x || null] on an optional string. *)
Definition orNull (x : option string) : option string :=
  if JsString.truthy x then x else None.

(** Lines 1138-1157: add the purchased credits and log them. *)
Definition addTopUpCredits (payment : Payment.t) (credits : Z) (user : User.t)
    (s : Store) : User.t * Store :=
  let creditsBefore := User.matchCredits user in
  let user := User.set_matchCredits (creditsBefore + credits) user in
  let s := saveUser user s in
  let s := createTransaction
             (CreditTransaction.mk (User._id user) (orNull (Payment.requestId payment))
                (Payment.matchReportId payment) (User.email user) credits creditsBefore
                (User.matchCredits user) Added TopUp) s in
  (user, s).

(** Lines 1181-1202: the report of the request, created pending if absent. *)
Definition findOrCreateReport (rid : string) (buyerRequest : BuyerRequest.t)
    (s : Store) : MatchReport.t * Store :=
  match findReportByRequest rid s with
  | Some r => (r, s)
  | None =>
      let '(i, s) := freshId s in
      let r := MatchReport.mk i rid (Some (BuyerRequest.email buyerRequest))
                 ReportPending
                 (mkContent (BuyerRequest.description buyerRequest)
                            (BuyerRequest.category buyerRequest) 0 0 [])
                 None None None in
      (r, saveReport r s)
  end.

(** Lines 1204-1231: one credit pays for the unlock, if there is one. *)
Definition deductUnlockCredit (rid : option string) (report : MatchReport.t)
    (user : User.t) (s : Store) : User.t * Store :=
  if Z.ltb 0 (User.matchCredits user) then
    let creditsBefore := User.matchCredits user in
    let user := User.set_matchCredits (User.matchCredits user - 1) user in
    let s := saveUser user s in
    let s := createTransaction
               (CreditTransaction.mk (User._id user) rid (Some (MatchReport._id report))
                  (User.email user) 1 creditsBefore (User.matchCredits user)
                  Deducted UnlockRequest) s in
    (user, s)
  else (user, s).

(** Lines 1233-1237. *)
Definition unlockReport (paymentId : nat) (now : JsDate.t) (report : MatchReport.t)
    : MatchReport.t :=
  MatchReport.set_unlockedAt (Some now)
    (MatchReport.set_paymentId (Some paymentId)
       (MatchReport.set_status ReportUnlocked report)).

(** [user.subscriptionStatus === "active" &&
     (!user.subscriptionExpiresAt || new Date(user.subscriptionExpiresAt) > new Date())] *)
Definition hasActivePlan (now : JsDate.t) (user : User.t) : bool :=
  andb (SubscriptionStatus_eqb (User.subscriptionStatus user) SubActive)
       (match User.subscriptionExpiresAt user with
        | None => true
        | Some e => JsDate.gtb e now
        end).

(** Lines 1242-1413: a verified subscriber with credits left gets the
    match generated at once, for one more credit. *)
Definition autoGenerateMatch (matcher : Matcher) (now : JsDate.t) (rid : option string)
    (buyerRequest : BuyerRequest.t) (report : MatchReport.t) (user : User.t)
    (s : Store) : User.t * Store :=
  if andb (andb (User.isVerified user) (hasActivePlan now user))
          (Z.ltb 0 (User.matchCredits user))
  then
    match matcher buyerRequest with
    | Some generated =>
        let creditsBeforeMatch := User.matchCredits user in
        let user := User.set_matchCredits (User.matchCredits user - 1) user in
        let s := saveUser user s in
        let s := createTransaction
                   (CreditTransaction.mk (User._id user) rid
                      (Some (MatchReport._id report)) (User.email user) 1
                      creditsBeforeMatch (User.matchCredits user)
                      Deducted MatchGeneration) s in
        let report := MatchReport.set_content generated (Some now)
                        (MatchReport.set_status ReportCompleted report) in
        let s := saveReport report s in
        let s := saveRequest (BuyerRequest.set_status "processing" buyerRequest) s in
        (user, s)
    | None => (user, s)
    end
  else (user, s).

(** [payment.requestId && payment.requestId.toString() !== "general"] *)
Definition tiedToRequest (payment : Payment.t) : option string :=
  match Payment.requestId payment with
  | Some rid =>
      if andb (JsString.truthy (Some rid)) (negb (String.eqb rid "general"))
      then Some rid else None
  | None => None
  end.

(** Lines 1102-1415: the extra_credit branch of the webhook, up to the
    confirmation e-mail.  The sync handler has the same text at lines
    1764-2079, where it also records the report on the payment (lines
    1890-1894): [linkReport] tells the two apart. *)
Definition processTopUp (linkReport : bool) (matcher : Matcher) (now : JsDate.t)
    (quantity : option string) (payment : Payment.t) (s : Store) : Payment.t * Store :=
  let userEmail := JsString.trim (JsString.toLowerCase (Payment.email payment)) in
  let '(user, s) := findOrNewUser userEmail s in
  let credits := creditsToAdd quantity (Payment.amount payment) in
  let '(user, s) := addTopUpCredits payment credits user s in
  match tiedToRequest payment with
  | Some rid =>
      match findRequestById rid s with
      | None => (payment, s)
      | Some buyerRequest =>
          let '(report, s) := findOrCreateReport rid buyerRequest s in
          let '(user, s) := deductUnlockCredit (Payment.requestId payment) report user s in
          let report := unlockReport (Payment._id payment) now report in
          let s := saveReport report s in
          let '(payment, s) :=
            match linkReport, Payment.matchReportId payment with
            | true, None =>
                let payment :=
                  Payment.set_matchReportId (Some (MatchReport._id report)) payment in
                (payment, savePayment payment s)
            | _, _ => (payment, s)
            end in
          (payment,
           snd (autoGenerateMatch matcher now (Payment.requestId payment)
                  buyerRequest report user s))
      end
  | None => (payment, s)
  end.

(** ** handleWebhook (paymentController.js, lines 660-1660) *)

(** [res.status(code).json({ received, error | warning })] or
    [res.status(code).send(text)]. *)
Inductive WebhookResponse :=
| Json (httpStatus : nat) (received : bool) (detail : option string)
| Text (httpStatus : nat) (body : string).

(** [res.json({ received: true })] *)
Definition ack : WebhookResponse := Json 200 true None.

(** One disjunct of the [$or] filter of lines 885-906. *)
Inductive PaymentFilter :=
| ByRequestId (rid : string)   (* { requestId: rid } *)
| GeneralTopUp.                (* { requestId: null, planType: "extra_credit" } *)

Definition filterFor (rid : string) : PaymentFilter :=
  if String.eqb rid "general" then GeneralTopUp else ByRequestId rid.

Definition satisfies (p : Payment.t) (f : PaymentFilter) : bool :=
  match f with
  | ByRequestId rid => JsString.optEqb (Payment.requestId p) (Some rid)
  | GeneralTopUp =>
      andb (JsString.optEqb (Payment.requestId p) None)
           (String.eqb (Payment.planType p) "extra_credit")
  end.

Definition searchConditions (session : Session.t) : list PaymentFilter :=
  (match Session.requestId (Session.metadata session) with
   | Some rid => if JsString.truthy (Some rid) then [filterFor rid] else []
   | None => []
   end) ++
  (match Session.client_reference_id session with
   | Some rid => if JsString.truthy (Some rid) then [filterFor rid] else []
   | None => []
   end).

(** Lines 869-915: by [stripeSessionId] first, then by request id. *)
Definition findPayment (session : Session.t) (s : Store) : option Payment.t :=
  let bySession :=
    if JsString.truthy (Session.id session)
    then find (fun p => JsString.optEqb (Payment.stripeSessionId p) (Session.id session))
              (payments s)
    else None in
  match bySession with
  | Some p => Some p
  | None =>
      match searchConditions session with
      | [] => None
      | conds => find (fun p => existsb (satisfies p) conds) (payments s)
      end
  end.

(** The payment intent of the latest invoice of a subscription (lines
    986-1005 and 1059-1081); a missing client or a failing call leaves the
    caller's value alone. *)
Definition invoicePaymentIntent (stripe : option StripeApi) (subscription : string)
    : option string :=
  match stripe with
  | None => None
  | Some api =>
      match subscriptions_retrieve api subscription with
      | Some (Some latest_invoice) =>
          if JsString.truthy (Some latest_invoice) then
            match invoices_retrieve api latest_invoice with
            | Some invoice =>
                if JsString.truthy (invoice_payment_intent invoice)
                then invoice_payment_intent invoice else None
            | None => None
            end
          else None
      | _ => None
      end
  end.

Definition orDefault (x : option string) (d : string) : string :=
  match JsString.orElse x (Some d) with Some v => v | None => d end.

(** Lines 940-976: a top-up record rebuilt from the session. *)
Definition createTopUpPayment (now : JsDate.t) (session : Session.t) (rid : string)
    (s : Store) : Payment.t * Store :=
  let isGeneralTopUp := String.eqb rid "general" in
  let matchReportId :=
    if isGeneralTopUp then None
    else option_map MatchReport._id (findReportByRequest rid s) in
  let '(i, s) := freshId s in
  let payment :=
    Payment.mk i (if isGeneralTopUp then None else Some rid) matchReportId
      (JsString.trim (JsString.toLowerCase
         (orDefault (JsString.orElse (Session.customer_email session)
                                     (Session.email (Session.metadata session)))
            EmptyString)))
      None (Session.id session) None None
      (Session.amount_total session) "extra_credit" Pending None now in
  (payment, savePayment payment s).

(** Lines 978-1035: a record for a regular purchase, when the report of the
    request exists; already marked succeeded. *)
Definition createRegularPayment (stripe : option StripeApi) (now : JsDate.t)
    (session : Session.t) (rid : string) (s : Store) : option Payment.t * Store :=
  match findReportByRequest rid s with
  | None => (None, s)
  | Some matchReport =>
      let paymentIntentId :=
        match Session.subscription session with
        | Some sub =>
            if andb (JsString.truthy (Some sub))
                    (negb (JsString.truthy (Session.payment_intent session)))
            then match invoicePaymentIntent stripe sub with
                 | Some pi => Some pi
                 | None => Session.payment_intent session
                 end
            else Session.payment_intent session
        | None => Session.payment_intent session
        end in
      match JsString.orElse (Session.customer_email session)
              (JsString.orElse (Session.email (Session.metadata session))
                               (MatchReport.email matchReport)) with
      | None => (None, s)  (* [undefined.toLowerCase()] throws; caught at 1030 *)
      | Some e =>
          let '(i, s) := freshId s in
          let payment :=
            Payment.mk i (Some rid) (Some (MatchReport._id matchReport))
              (JsString.trim (JsString.toLowerCase e))
              paymentIntentId None (Session.customer session)
              (Session.subscription session)
              (if Z.eqb (Session.amount_total session) 0 then 0
               else Session.amount_total session)
              (orDefault (Session.planType (Session.metadata session)) "one-time")
              Succeeded (Some now) now in
          (Some payment, savePayment payment s)
      end
  end.

(** Lines 1043-1089: provider ids, status and payment date, then [save]. *)
Definition markSucceeded (stripe : option StripeApi) (now : JsDate.t)
    (session : Session.t) (payment : Payment.t) : Payment.t :=
  let payment :=
    if JsString.truthy (Session.payment_intent session)
    then Payment.set_stripePaymentIntentId (Session.payment_intent session) payment
    else payment in
  let payment :=
    if JsString.truthy (Session.customer session)
    then Payment.set_stripeCustomerId (Session.customer session) payment
    else payment in
  let payment :=
    match Session.subscription session with
    | Some sub =>
        if JsString.truthy (Some sub) then
          let payment := Payment.set_stripeSubscriptionId (Some sub) payment in
          if negb (JsString.truthy (Payment.stripePaymentIntentId payment)) then
            match invoicePaymentIntent stripe sub with
            | Some pi => Payment.set_stripePaymentIntentId (Some pi) payment
            | None => payment
            end
          else payment
        else payment
    | None => payment
    end in
  let payment := Payment.set_status Succeeded payment in
  Payment.set_paidAt
    (match Payment.paidAt payment with Some d => Some d | None => Some now end) payment.

(** Lines 1454-1561: unlock the report of the payment and, for a
    subscription plan, activate it on the account. *)
Definition processPurchase (now : JsDate.t) (session : Session.t) (payment : Payment.t)
    (s : Store) : Store :=
  let s :=
    match findReportById (Payment.matchReportId payment) s with
    | Some matchReport => saveReport (unlockReport (Payment._id payment) now matchReport) s
    | None => s
    end in
  if isSubscriptionPlan (Payment.planType payment) then
    let userEmail := JsString.trim (JsString.toLowerCase (Payment.email payment)) in
    let '(user, s) := findOrNewUser userEmail s in
    let '(user, s) :=
      allocateSubscription (Payment.planType payment) (Session.customer session)
        (Session.subscription session) now user s in
    saveUser user s
  else s.

(** Lines 868-1607: the branch for report purchases and top-ups.  The
    processing of lines 1038-1606 sits inside the test of line 932. *)
Definition handlePurchaseSession (stripe : option StripeApi) (matcher : Matcher)
    (now : JsDate.t) (session : Session.t) (s : Store) : Store * WebhookResponse :=
  let payment := findPayment session s in
  match payment, Session.requestId (Session.metadata session) with
  | None, Some requestIdFromMetadata =>
      if JsString.truthy (Some requestIdFromMetadata) then
        let planTypeFromMetadata := Session.planType (Session.metadata session) in
        let '(payment, s) :=
          if JsString.optEqb planTypeFromMetadata (Some "extra_credit")
          then let '(p, s) := createTopUpPayment now session requestIdFromMetadata s in
               (Some p, s)
          else createRegularPayment stripe now session requestIdFromMetadata s in
        match payment with
        | Some payment =>
            let payment := markSucceeded stripe now session payment in
            let s := savePayment payment s in
            if String.eqb (Payment.planType payment) "extra_credit"
            then (snd (processTopUp false matcher now
                         (Session.quantity (Session.metadata session)) payment s), ack)
            else (processPurchase now session payment s, ack)
        | None => (s, ack)
        end
      else (s, ack)
  | _, _ => (s, ack)
  end.

(** Lines 692-804: the managed-service fee. *)
Definition handleManagedServiceFee (now : JsDate.t) (session : Session.t) (s : Store)
    : Store * WebhookResponse :=
  match findManagedById (Session.requestId (Session.metadata session)) s with
  | None => (s, Json 200 true (Some "Managed service not found"))
  | Some managedService =>
      let customerEmail :=
        JsString.trim (JsString.toLowerCase
          (orDefault (Session.customer_email session)
                     (ManagedService.email managedService))) in
      let '(user, s) :=
        match findUserByEmail customerEmail s with
        | None =>
            let '(i, s) := freshId s in
            let user := User.create i customerEmail true in
            (user, saveUser user s)
        | Some user =>
            let user := User.set_isVerified true user in
            (user, saveUser user s)
        end in
      let managedService :=
        ManagedService.mk (ManagedService._id managedService)
          (ManagedService.email managedService)
          (Some (User._id user))
          "in_progress" "review"
          (ManagedService.serviceFeeAmount managedService)
          "paid" (Session.payment_intent session) (Some now)
          (ManagedService.savingsFeeAmount managedService)
          (ManagedService.savingsFeeStatus managedService)
          (ManagedService.savingsFeePaymentId managedService)
          (ManagedService.savingsFeePaidAt managedService) in
      let s := saveManaged managedService s in
      let '(i, s) := freshId s in
      let managedServicePayment :=
        Payment.mk i (Some (ManagedService._id managedService)) None customerEmail
          (Session.payment_intent session) None (Session.customer session) None
          (ManagedService.serviceFeeAmount managedService) "managed_service"
          Succeeded (Some now) now in
      (savePayment managedServicePayment s, ack)
  end.

(** Lines 806-866: the managed-service savings fee. *)
Definition handleSavingsFee (now : JsDate.t) (session : Session.t) (s : Store)
    : Store * WebhookResponse :=
  match findManagedById (Session.requestId (Session.metadata session)) s with
  | None => (s, Json 200 true (Some "Managed service not found"))
  | Some managedService =>
      let customerEmail :=
        JsString.trim (JsString.toLowerCase
          (orDefault (Session.customer_email session)
                     (ManagedService.email managedService))) in
      let managedService :=
        ManagedService.mk (ManagedService._id managedService)
          (ManagedService.email managedService)
          (ManagedService.userId managedService)
          (ManagedService.status managedService)
          (ManagedService.stage managedService)
          (ManagedService.serviceFeeAmount managedService)
          (ManagedService.serviceFeeStatus managedService)
          (ManagedService.serviceFeePaymentId managedService)
          (ManagedService.serviceFeePaidAt managedService)
          (ManagedService.savingsFeeAmount managedService)
          "paid" (Session.payment_intent session) (Some now) in
      let s := saveManaged managedService s in
      let '(i, s) := freshId s in
      let savingsFeePayment :=
        Payment.mk i (Some (ManagedService._id managedService)) None customerEmail
          (Session.payment_intent session) None (Session.customer session) None
          (ManagedService.savingsFeeAmount managedService)
          "managed_service_savings_fee" Succeeded (Some now) now in
      (savePayment savingsFeePayment s, ack)
  end.

(** Lines 686-1607: a completed checkout session, by purpose. *)
Definition handleCheckoutCompleted (stripe : option StripeApi) (matcher : Matcher)
    (now : JsDate.t) (session : Session.t) (s : Store) : Store * WebhookResponse :=
  let metadata := Session.metadata session in
  if JsString.optEqb (Session.type metadata) (Some "managed_service")
  then handleManagedServiceFee now session s
  else if orb (JsString.optEqb (Session.type metadata) (Some "managed_service_savings_fee"))
              (JsString.optEqb (Session.paymentType metadata) (Some "savings_fee"))
  then handleSavingsFee now session s
  else handlePurchaseSession stripe matcher now session s.

(** Lines 1612-1647: a paid subscription invoice resets the credits. *)
Definition handleInvoicePaid (invoice : Invoice) (s : Store) : Store :=
  if JsString.truthy (invoice_subscription invoice) then
    let user := findUserBySubscription (invoice_subscription invoice) s in
    let user :=
      match user, invoice_customer_email invoice with
      | None, Some e =>
          if JsString.truthy (Some e)
          then findUserByEmail (JsString.trim (JsString.toLowerCase e)) s
          else None
      | _, _ => user
      end in
    match user with
    | Some user =>
        let user := User.set_matchCredits 25 user in
        let user := User.set_subscriptionStatus SubActive user in
        saveUser user s
    | None => s
    end
  else s.

(** The handler.  [event] is what signature verification hands over: [None]
    when [constructEvent] throws. *)
Definition handleWebhook (stripe : option StripeApi) (matcher : Matcher) (now : JsDate.t)
    (event : option Event) (s : Store) : Store * WebhookResponse :=
  match event with
  | None => (s, Text 400 "Webhook Error")
  | Some (CheckoutSessionCompleted session) =>
      handleCheckoutCompleted stripe matcher now session s
  | Some PaymentIntentSucceeded => (s, ack)
  | Some (InvoicePaymentSucceeded invoice) => (handleInvoicePaid invoice s, ack)
  | Some OtherEvent => (s, ack)
  end.

(** ** Saving a document held next to another copy of itself *)

Definition optDateEqb (a b : option JsDate.t) : bool :=
  match a, b with
  | Some x, Some y =>
      andb (andb (Z.eqb (JsDate.year x) (JsDate.year y))
                 (Z.eqb (JsDate.month x) (JsDate.month y)))
           (andb (Z.eqb (JsDate.date x) (JsDate.date y))
                 (Z.eqb (JsDate.msOfDay x) (JsDate.msOfDay y)))
  | None, None => true
  | _, _ => false
  end.

(** Mongoose writes the modified paths only, and a path becomes modified
    when it is given a value other than the one the document holds. *)
Record Paths := mkPaths {
  m_isVerified : bool;
  m_subscriptionStatus : bool;
  m_subscriptionPlan : bool;
  m_subscriptionExpiresAt : bool;
  m_stripeCustomerId : bool;
  m_stripeSubscriptionId : bool;
  m_matchCredits : bool }.

Definition noPaths : Paths := mkPaths false false false false false false false.

(** The paths that a run of assignments, each path assigned at most once,
    has modified between [before] and [after]. *)
Definition modifiedPaths (before after : User.t) : Paths :=
  mkPaths
    (negb (Bool.eqb (User.isVerified before) (User.isVerified after)))
    (negb (SubscriptionStatus_eqb (User.subscriptionStatus before)
                                  (User.subscriptionStatus after)))
    (negb (JsString.optEqb (User.subscriptionPlan before) (User.subscriptionPlan after)))
    (negb (optDateEqb (User.subscriptionExpiresAt before)
                      (User.subscriptionExpiresAt after)))
    (negb (JsString.optEqb (User.stripeCustomerId before) (User.stripeCustomerId after)))
    (negb (JsString.optEqb (User.stripeSubscriptionId before)
                           (User.stripeSubscriptionId after)))
    (negb (Z.eqb (User.matchCredits before) (User.matchCredits after))).

Definition unionPaths (a b : Paths) : Paths :=
  mkPaths (orb (m_isVerified a) (m_isVerified b))
          (orb (m_subscriptionStatus a) (m_subscriptionStatus b))
          (orb (m_subscriptionPlan a) (m_subscriptionPlan b))
          (orb (m_subscriptionExpiresAt a) (m_subscriptionExpiresAt b))
          (orb (m_stripeCustomerId a) (m_stripeCustomerId b))
          (orb (m_stripeSubscriptionId a) (m_stripeSubscriptionId b))
          (orb (m_matchCredits a) (m_matchCredits b)).

(** The stored document after the modified paths of [current] are written. *)
Definition writePaths (m : Paths) (current stored : User.t) : User.t :=
  User.mk (User._id stored) (User.email stored)
    (if m_isVerified m then User.isVerified current else User.isVerified stored)
    (if m_subscriptionStatus m then User.subscriptionStatus current
     else User.subscriptionStatus stored)
    (if m_subscriptionPlan m then User.subscriptionPlan current
     else User.subscriptionPlan stored)
    (if m_subscriptionExpiresAt m then User.subscriptionExpiresAt current
     else User.subscriptionExpiresAt stored)
    (if m_stripeCustomerId m then User.stripeCustomerId current
     else User.stripeCustomerId stored)
    (if m_stripeSubscriptionId m then User.stripeSubscriptionId current
     else User.stripeSubscriptionId stored)
    (if m_matchCredits m then User.matchCredits current else User.matchCredits stored).

(** [user.save()] for a document that the handler did not fetch on its own
    ([req.user]) or that it holds across other writes to the account. *)
Definition saveUserPaths (m : Paths) (current : User.t) (s : Store) : Store :=
  mkStore (map (fun stored => if sameUser stored current
                              then writePaths m current stored else stored)
               (users s))
          (payments s) (matchReports s) (buyerRequests s) (managedServices s)
          (creditTransactions s) (plans s) (nextId s).

(** ** syncPaymentStatus (paymentController.js, lines 1662-2240) *)

(** [res.status(code).json({ success, message, code, data, creditsRemaining })] *)
Record ApiResponse := mkApi {
  api_status : nat;
  api_success : bool;
  api_message : string;
  api_code : option string;
  api_data : option Payment.t;
  api_creditsRemaining : option Z }.

(** The [$regex] filter on the e-mail, [^pattern$] with flag [i]: the whole
    address, case ignored. *)
Definition emailMatches (pattern : string) (p : Payment.t) : bool :=
  String.eqb (JsString.toLowerCase (Payment.email p)) (JsString.toLowerCase pattern).

(** [.sort({ createdAt: -1 })] then the first document. *)
Fixpoint latest (l : list Payment.t) (best : option Payment.t) : option Payment.t :=
  match l with
  | [] => best
  | p :: r =>
      latest r (match best with
                | None => Some p
                | Some b => if JsDate.gtb (Payment.createdAt p) (Payment.createdAt b)
                            then Some p else Some b
                end)
  end.

(** Lines 1668-1681. *)
Definition latestPaymentFor (requestId : string) (user : User.t) (s : Store)
    : option Payment.t :=
  latest (filter (fun p => andb (JsString.optEqb (Payment.requestId p) (Some requestId))
                                (emailMatches
                                   (JsString.trim (JsString.toLowerCase (User.email user)))
                                   p))
                 (payments s)) None.

(** "Set match report to unlocked after payment" (lines 1718-1730). *)
Definition unlockIfLocked (now : JsDate.t) (payment : Payment.t) (s : Store) : Store :=
  match findReportById (Payment.matchReportId payment) s with
  | Some matchReport =>
      if negb (ReportStatus_eqb (MatchReport.status matchReport) ReportUnlocked)
      then saveReport (unlockReport (Payment._id payment) now matchReport) s
      else s
  | None => s
  end.

Definition synced (payment : Payment.t) : ApiResponse :=
  mkApi 200 true "Payment status synced successfully" None (Some payment) None.

Definition syncPaymentStatus (stripe : option StripeApi) (matcher : Matcher)
    (now : JsDate.t) (requestId : string) (user : User.t) (s : Store)
    : Store * ApiResponse :=
  match latestPaymentFor requestId user s with
  | None => (s, mkApi 404 false "Payment not found" None None None)
  | Some payment =>
      if PaymentStatus_eqb (Payment.status payment) Succeeded then
        (s, mkApi 200 true "Payment already processed" None (Some payment) None)
      else
        let notCompleted :=
          (s, mkApi 200 false "Payment not found or not completed in Stripe" None
                (Some payment) None) in
        match stripe with
        | None => notCompleted
        | Some api =>
            match orNull (Payment.stripePaymentIntentId payment),
                  orNull (Payment.stripeSessionId payment) with
            | Some intentId, _ =>
                match paymentIntents_retrieve api intentId with
                | Some st =>
                    if String.eqb st "succeeded" then
                      let payment := Payment.set_paidAt (Some now)
                                       (Payment.set_status Succeeded payment) in
                      let s := savePayment payment s in
                      (unlockIfLocked now payment s, synced payment)
                    else notCompleted
                | None => notCompleted
                end
            | None, Some sessionId =>
                match sessions_retrieve api sessionId with
                | Some session =>
                    if String.eqb (Session.payment_status session) "paid" then
                      let payment := Payment.set_stripePaymentIntentId
                                       (Session.payment_intent session) payment in
                      let payment := Payment.set_stripeCustomerId
                                       (Session.customer session) payment in
                      let payment :=
                        if JsString.truthy (Session.subscription session)
                        then Payment.set_stripeSubscriptionId
                               (Session.subscription session) payment
                        else payment in
                      let payment := Payment.set_paidAt (Some now)
                                       (Payment.set_status Succeeded payment) in
                      let s := savePayment payment s in
                      let '(payment, s) :=
                        if String.eqb (Payment.planType payment) "extra_credit"
                        then processTopUp true matcher now
                               (Session.quantity (Session.metadata session)) payment s
                        else (payment, unlockIfLocked now payment s) in
                      let s :=
                        if JsString.truthy (Session.subscription session) then
                          let '(user', s) :=
                            allocateSubscription (Payment.planType payment)
                              (Session.customer session) (Session.subscription session)
                              now user s in
                          saveUserPaths (modifiedPaths user user') user' s
                        else s in
                      (s, synced payment)
                    else notCompleted
                | None => notCompleted
                end
            | None, None =>
                match sessions_list api with
                | Some sessions =>
                    match find (fun x =>
                                  andb (JsString.optEqb (Session.client_reference_id x)
                                                        (Some requestId))
                                       (String.eqb (Session.payment_status x) "paid"))
                               sessions with
                    | Some matchingSession =>
                        if JsString.truthy (Session.payment_intent matchingSession) then
                          let payment := Payment.set_stripePaymentIntentId
                                           (Session.payment_intent matchingSession)
                                           payment in
                          let payment := Payment.set_stripeCustomerId
                                           (Session.customer matchingSession) payment in
                          let payment := Payment.set_paidAt (Some now)
                                           (Payment.set_status Succeeded payment) in
                          let s := savePayment payment s in
                          (unlockIfLocked now payment s, synced payment)
                        else notCompleted
                    | None => notCompleted
                    end
                | None => notCompleted
                end
            end
        end
  end.

(** ** syncUserPayments (paymentController.js, lines 2242-2663) *)

Inductive SyncAllResponse :=
| SyncFailed (code : nat) (message : string)
| Synced (syncedCount : nat) (subscriptionUpdated : bool).

(** What the loop carries from one pending payment to the next: the account
    document fetched at line 2245 with its modified paths, the store and the
    two counters. *)
Record SyncLoop := mkLoop {
  loop_user : User.t;
  loop_paths : Paths;
  loop_store : Store;
  loop_synced : nat;
  loop_updated : bool }.

(** Lines 2294-2328: the subscription block on the account document of the
    request; nothing is written to the ledger and the save waits for the end
    of the loop. *)
Definition activateOnAccount (now : JsDate.t) (payment : Payment.t) (s : Store)
    (user : User.t) : User.t :=
  let planType := Payment.planType payment in
  let user := User.set_subscriptionStatus SubActive user in
  let user := User.set_subscriptionPlan (Some planType) user in
  let user :=
    if JsString.truthy (Payment.stripeCustomerId payment)
    then User.set_stripeCustomerId (Payment.stripeCustomerId payment) user else user in
  let user :=
    User.set_matchCredits
      (creditsAfterAllocation (getCreditsForPlan planType s)
         (getMaxRolloverCredits planType s) (User.matchCredits user)) user in
  User.set_subscriptionExpiresAt
    (subscriptionExpiry planType now (User.subscriptionExpiresAt user)) user.

(** Lines 2332-2343 and 2532-2548: credits added to the freshly fetched
    account, without a ledger entry. *)
Definition addCreditsUnlogged (payment : Payment.t) (credits : Z) (s : Store) : Store :=
  match findUserByEmail (JsString.trim (JsString.toLowerCase (Payment.email payment))) s with
  | Some user => saveUser (User.set_matchCredits (User.matchCredits user + credits) user) s
  | None => s
  end.

(** Lines 2346-2356. *)
Definition unlockReportOf (now : JsDate.t) (payment : Payment.t) (s : Store) : Store :=
  match Payment.matchReportId payment with
  | Some _ => unlockIfLocked now payment s
  | None => s
  end.

(** Lines 2411-2483 and 2551-2615: the subscription block on a freshly
    fetched account, with its ledger entry and its own save. *)
Definition activateFetched (now : JsDate.t) (payment : Payment.t)
    (customer subscription : option string -> option string) (st : SyncLoop) : SyncLoop :=
  let s := loop_store st in
  match findUserByEmail (JsString.trim (JsString.toLowerCase (Payment.email payment))) s with
  | Some subscriptionUser =>
      let '(subscriptionUser, s) :=
        allocateSubscription (Payment.planType payment)
          (customer (User.stripeCustomerId subscriptionUser))
          (subscription (User.stripeSubscriptionId subscriptionUser))
          now subscriptionUser s in
      mkLoop (loop_user st) (loop_paths st) (saveUser subscriptionUser s)
             (loop_synced st) true
  | None => st
  end.

(** One turn of the loop of lines 2280-2637. *)
Definition syncOne (api : StripeApi) (now : JsDate.t) (st : SyncLoop) (payment : Payment.t)
    : SyncLoop :=
  let s := loop_store st in
  match orNull (Payment.stripePaymentIntentId payment),
        orNull (Payment.stripeSessionId payment) with
  | Some intentId, _ =>
      match paymentIntents_retrieve api intentId with
      | Some status =>
          if String.eqb status "succeeded" then
            let payment := Payment.set_paidAt (Some now)
                             (Payment.set_status Succeeded payment) in
            let s := savePayment payment s in
            let '(user, paths, updated) :=
              if isSubscriptionPlan (Payment.planType payment) then
                let user := activateOnAccount now payment s (loop_user st) in
                (user, unionPaths (loop_paths st) (modifiedPaths (loop_user st) user), true)
              else (loop_user st, loop_paths st, loop_updated st) in
            let s :=
              if String.eqb (Payment.planType payment) "extra_credit"
              then addCreditsUnlogged payment (Payment.amount payment / 1000) s
              else s in
            mkLoop user paths (unlockReportOf now payment s) (S (loop_synced st)) updated
          else st
      | None => st
      end
  | None, Some sessionId =>
      match sessions_retrieve api sessionId with
      | Some session =>
          if String.eqb (Session.payment_status session) "paid" then
            let payment := Payment.set_status Succeeded payment in
            let payment := Payment.set_stripePaymentIntentId
                             (Session.payment_intent session) payment in
            let payment := Payment.set_stripeCustomerId (Session.customer session) payment in
            let payment := Payment.set_stripeSubscriptionId
                             (Session.subscription session) payment in
            let payment := Payment.set_paidAt (Some now) payment in
            let s := savePayment payment s in
            let s :=
              if String.eqb (Payment.planType payment) "extra_credit" then
                match findUserByEmail
                        (JsString.trim (JsString.toLowerCase (Payment.email payment))) s with
                | Some creditUser =>
                    snd (addTopUpCredits payment
                           (creditsToAdd (Session.quantity (Session.metadata session))
                                         (Payment.amount payment)) creditUser s)
                | None => s
                end
              else s in
            let st := mkLoop (loop_user st) (loop_paths st) s (S (loop_synced st))
                             (loop_updated st) in
            let st :=
              if isSubscriptionPlan (Payment.planType payment) then
                activateFetched now payment
                  (fun old => if JsString.truthy (Payment.stripeCustomerId payment)
                              then Payment.stripeCustomerId payment else old)
                  (fun old => if JsString.truthy (Payment.stripeSubscriptionId payment)
                              then Payment.stripeSubscriptionId payment else old) st
              else st in
            mkLoop (loop_user st) (loop_paths st)
                   (unlockReportOf now payment (loop_store st))
                   (loop_synced st) (loop_updated st)
          else st
      | None => st
      end
  | None, None =>
      match sessions_list api with
      | Some sessions =>
          match find (fun x =>
                  orb (andb (andb (JsString.truthy (Payment.requestId payment))
                                  (JsString.optEqb (Session.client_reference_id x)
                                                   (Payment.requestId payment)))
                            (String.eqb (Session.payment_status x) "paid"))
                      (andb (andb (JsString.truthy (Payment.stripeSessionId payment))
                                  (JsString.optEqb (Session.id x)
                                                   (Payment.stripeSessionId payment)))
                            (String.eqb (Session.payment_status x) "paid")))
                     sessions with
          | Some matchingSession =>
              let payment := Payment.set_status Succeeded payment in
              let payment := Payment.set_stripePaymentIntentId
                               (Session.payment_intent matchingSession) payment in
              let payment := Payment.set_stripeCustomerId
                               (Session.customer matchingSession) payment in
              let payment := Payment.set_stripeSubscriptionId
                               (Session.subscription matchingSession) payment in
              let payment := Payment.set_paidAt (Some now) payment in
              let s := savePayment payment s in
              let s :=
                if String.eqb (Payment.planType payment) "extra_credit"
                then addCreditsUnlogged payment
                       (creditsToAdd (Session.quantity (Session.metadata matchingSession))
                                     (Payment.amount payment)) s
                else s in
              let st := mkLoop (loop_user st) (loop_paths st) s (S (loop_synced st))
                               (loop_updated st) in
              let st :=
                if isSubscriptionPlan (Payment.planType payment) then
                  activateFetched now payment
                    (fun _ => Session.customer matchingSession)
                    (fun _ => Session.subscription matchingSession) st
                else st in
              mkLoop (loop_user st) (loop_paths st)
                     (unlockReportOf now payment (loop_store st))
                     (loop_synced st) (loop_updated st)
          | None => st
          end
      | None => st
      end
  end.

Definition syncUserPayments (stripe : option StripeApi) (now : JsDate.t) (userId : nat)
    (s : Store) : Store * SyncAllResponse :=
  match findUserById userId s with
  | None => (s, SyncFailed 404 "User not found")
  | Some user =>
      let userEmail := JsString.trim (JsString.toLowerCase (User.email user)) in
      match stripe with
      | None => (s, SyncFailed 400 "Stripe is not configured")
      | Some api =>
          let pendingPayments :=
            filter (fun p => andb (emailMatches userEmail p)
                                  (PaymentStatus_eqb (Payment.status p) Pending))
                   (payments s) in
          let st := fold_left (syncOne api now) pendingPayments
                              (mkLoop user noPaths s 0 false) in
          let s := if loop_updated st
                   then saveUserPaths (loop_paths st) (loop_user st) (loop_store st)
                   else loop_store st in
          (s, Synced (loop_synced st) (loop_updated st))
      end
  end.

(** ** unlockRequest (dashboardController.js, lines 266-349) *)

Definition unlockRequest (now : JsDate.t) (id : string) (user : User.t) (s : Store)
    : Store * ApiResponse :=
  match find (fun b => andb (String.eqb (BuyerRequest._id b) id)
                            (String.eqb (BuyerRequest.email b) (User.email user)))
             (buyerRequests s) with
  | None => (s, mkApi 404 false "Request not found" None None None)
  | Some _ =>
      match findReportByRequest id s with
      | None => (s, mkApi 404 false "Match report not found" None None None)
      | Some matchReport =>
          if ReportStatus_eqb (MatchReport.status matchReport) ReportUnlocked then
            (s, mkApi 200 true "Request already unlocked" None None None)
          else if orb (Z.eqb (User.matchCredits user) 0) (Z.ltb (User.matchCredits user) 1)
          then (s, mkApi 400 false "Insufficient match credits" (Some "NO_CREDITS")
                     None None)
          else
            let creditsBefore := User.matchCredits user in
            let user' := User.set_matchCredits (User.matchCredits user - 1) user in
            let s := saveUserPaths (modifiedPaths user user') user' s in
            let s := createTransaction
                       (CreditTransaction.mk (User._id user') (Some id)
                          (Some (MatchReport._id matchReport)) (User.email user') 1
                          creditsBefore (User.matchCredits user') Deducted UnlockRequest)
                       s in
            let matchReport :=
              MatchReport.set_unlockedAt (Some now)
                (MatchReport.set_status ReportUnlocked matchReport) in
            (saveReport matchReport s,
             mkApi 200 true "Request unlocked successfully" None None
                   (Some (User.matchCredits user')))
      end
  end.

(** ** processMatching (requestController.js, lines 185-549) *)

(** What a scoring pass over the active suppliers comes to. *)
Inductive MatchOutcome :=
| NoSuppliers                      (* no active supplier in the database *)
| NoMatch                          (* no supplier scores above zero *)
| MatcherThrows                    (* a call to the matcher throws *)
| Matched (generated : ReportContent).

Record Scoring := mkScoring {
  ruleBased : BuyerRequest.t -> MatchOutcome;
  aiBased : BuyerRequest.t -> MatchOutcome }.

Definition plain (code : nat) (ok : bool) (message : string) : ApiResponse :=
  mkApi code ok message None None None.

(** "Create or update match report" (lines 283-342 and 481-514). *)
Definition writeReport (now : JsDate.t) (id : string) (buyerRequest : BuyerRequest.t)
    (matchReport : option MatchReport.t) (reportStatus : ReportStatus)
    (generated : ReportContent) (s : Store) : Store :=
  match matchReport with
  | None =>
      let '(i, s) := freshId s in
      saveReport (MatchReport.mk i id (Some (BuyerRequest.email buyerRequest))
                    reportStatus generated (Some now) None None) s
  | Some r =>
      saveReport (MatchReport.set_content generated (Some now)
                    (MatchReport.set_status reportStatus r)) s
  end.

Definition processMatching (scoring : Scoring) (now : JsDate.t) (id : string)
    (reqUser : option nat) (s : Store) : Store * ApiResponse :=
  match findRequestById id s with
  | None => (s, plain 404 false "Request not found")
  | Some buyerRequest =>
      let matchReport := findReportByRequest id s in
      if match matchReport with
         | Some r => ReportStatus_eqb (MatchReport.status r) ReportCompleted
         | None => false
         end
      then (s, plain 200 true "Match report already generated")
      else
        let user := match reqUser with
                    | Some uid => findUserById uid s
                    | None => None
                    end in
        let hasActivePlan := match user with
                             | Some u => hasActivePlan now u
                             | None => false
                             end in
        if negb hasActivePlan then
          match ruleBased scoring buyerRequest with
          | NoSuppliers => (s, plain 404 false "No suppliers available in database")
          | NoMatch => (s, plain 404 false "No matching suppliers found")
          | MatcherThrows => (s, plain 500 false "Internal server error")
          | Matched generated =>
              (writeReport now id buyerRequest matchReport ReportPending generated s,
               plain 200 true "Fallback match generated successfully")
          end
        else
          match aiBased scoring buyerRequest with
          | NoSuppliers => (s, plain 404 false "No suppliers available in database")
          | NoMatch => (s, plain 404 false "No matching suppliers found")
          | MatcherThrows => (s, plain 500 false "Internal server error")
          | Matched generated =>
              let s :=
                match user with
                | Some user =>
                    if Z.ltb 0 (User.matchCredits user) then
                      let creditsBefore := User.matchCredits user in
                      let user := User.set_matchCredits (User.matchCredits user - 1) user in
                      let s := saveUser user s in
                      createTransaction
                        (CreditTransaction.mk (User._id user) (Some id)
                           (option_map MatchReport._id matchReport) (User.email user) 1
                           creditsBefore (User.matchCredits user) Deducted MatchGeneration)
                        s
                    else s
                | None => s
                end in
              let reportStatus :=
                if hasActivePlan then ReportCompleted else ReportPending in
              let s := writeReport now id buyerRequest matchReport reportStatus generated s in
              let s := saveRequest (BuyerRequest.set_status "processing" buyerRequest) s in
              (s, plain 200 true "Match report generated successfully")
          end
  end.

(** ** The token service (services/tokenService.js) *)

(** Text as the bytes that [Buffer] and [crypto] see. *)
Definition bytesOfString (s : string) : list Z :=
  map (fun c => Z.of_nat (nat_of_ascii c)) (list_ascii_of_string s).
Definition stringOfBytes (bs : list Z) : string :=
  string_of_list_ascii (map (fun b => ascii_of_nat (Z.to_nat b)) bs).

(** SHA-256 (FIPS 180-4) on 32-bit words kept in [Z], with the wrap-around
    written out, and HMAC (RFC 2104) over it: what
    [crypto.createHmac("sha256", key).update(text).digest()] computes. *)
Module Sha256.
Local Open Scope list_scope.

Definition mask32 (x : Z) : Z := x mod 4294967296.
Definition add32 (a b : Z) : Z := mask32 (a + b).
Definition rotr (n x : Z) : Z :=
  Z.lor (Z.shiftr x n) (mask32 (Z.shiftl x (32 - n))).
Definition shr (n x : Z) : Z := Z.shiftr x n.
Definition not32 (x : Z) : Z := 4294967295 - x.

Definition Ch (x y z : Z) : Z := Z.lxor (Z.land x y) (Z.land (not32 x) z).
Definition Maj (x y z : Z) : Z :=
  Z.lxor (Z.lxor (Z.land x y) (Z.land x z)) (Z.land y z).
Definition bigSigma0 (x : Z) : Z := Z.lxor (Z.lxor (rotr 2 x) (rotr 13 x)) (rotr 22 x).
Definition bigSigma1 (x : Z) : Z := Z.lxor (Z.lxor (rotr 6 x) (rotr 11 x)) (rotr 25 x).
Definition smallSigma0 (x : Z) : Z := Z.lxor (Z.lxor (rotr 7 x) (rotr 18 x)) (shr 3 x).
Definition smallSigma1 (x : Z) : Z := Z.lxor (Z.lxor (rotr 17 x) (rotr 19 x)) (shr 10 x).

(** The constants of FIPS 180-4 are cut from roots of the first primes:
    the first 32 bits of the fractional part of the cube root of each of the
    first 64 primes for the rounds, and of the square root of each of the
    first 8 for the initial hash value. *)
Definition hasDivisor (n : Z) (ds : list Z) : bool :=
  existsb (fun d => andb (Z.leb (d * d) n) (Z.eqb (n mod d) 0)) ds.

Fixpoint primesFrom (fuel : nat) (count : nat) (n : Z) (found : list Z) : list Z :=
  match fuel, count with
  | S fuel, S k =>
      if hasDivisor n found then primesFrom fuel count (n + 1) found
      else primesFrom fuel k (n + 1) (found ++ [n])
  | _, _ => found
  end.

Definition firstPrimes (count : nat) : list Z := primesFrom 400 count 2 [].

(** The largest [r] in [lo, hi) with [r ^ 3 <= n], by bisection. *)
Fixpoint cubeRoot (fuel : nat) (n lo hi : Z) : Z :=
  match fuel with
  | O => lo
  | S fuel =>
      if Z.leb hi (lo + 1) then lo
      else let mid := (lo + hi) / 2 in
           if Z.leb (mid * mid * mid) n then cubeRoot fuel n mid hi
           else cubeRoot fuel n lo mid
  end.

Definition cubeRootBits (p : Z) : Z :=
  mask32 (cubeRoot 64 (p * Z.shiftl 1 96) 0 (Z.shiftl 1 36)).

Definition squareRootBits (p : Z) : Z := mask32 (Z.sqrt (p * Z.shiftl 1 64)).

Definition K : list Z := Eval vm_compute in map cubeRootBits (firstPrimes 64).

(** The eight working words. *)
Record State := mkState { ha : Z; hb : Z; hc : Z; hd : Z; he : Z; hf : Z; hg : Z; hh : Z }.

Definition initialWords : list Z := Eval vm_compute in map squareRootBits (firstPrimes 8).

Definition H0 : State :=
  match initialWords with
  | [a; b; c; d; e; f; g; h] => mkState a b c d e f g h
  | _ => mkState 0 0 0 0 0 0 0 0
  end.

(** Big-endian bytes of a word of [n] bytes. *)
Fixpoint bytesOf (n : nat) (x : Z) : list Z :=
  match n with
  | O => []
  | S k => bytesOf k (x / 256) ++ [x mod 256]
  end.

Definition pad (msg : list Z) : list Z :=
  let len := Z.of_nat (List.length msg) in
  let zeros := Z.to_nat ((55 - len) mod 64) in
  msg ++ [128] ++ repeat 0 zeros ++ bytesOf 8 (8 * len).

Fixpoint wordsOf (n : nat) (bs : list Z) : list Z :=
  match n, bs with
  | S k, a :: b :: c :: d :: r =>
      (((a * 256 + b) * 256 + c) * 256 + d) :: wordsOf k r
  | _, _ => []
  end.

(** The message schedule, most recent word first. *)
Fixpoint extend (n : nat) (recent : list Z) : list Z :=
  match n with
  | O => recent
  | S k =>
      let w := add32 (add32 (smallSigma1 (nth 1 recent 0)) (nth 6 recent 0))
                     (add32 (smallSigma0 (nth 14 recent 0)) (nth 15 recent 0)) in
      extend k (w :: recent)
  end.

Definition round (st : State) (kw : Z * Z) : State :=
  let t1 := add32 (add32 (add32 (hh st) (bigSigma1 (he st)))
                         (add32 (Ch (he st) (hf st) (hg st)) (fst kw))) (snd kw) in
  let t2 := add32 (bigSigma0 (ha st)) (Maj (ha st) (hb st) (hc st)) in
  mkState (add32 t1 t2) (ha st) (hb st) (hc st) (add32 (hd st) t1) (he st) (hf st) (hg st).

Definition compress (h : State) (block : list Z) : State :=
  let w := rev (extend 48 (rev (wordsOf 16 block))) in
  let st := fold_left round (combine K w) h in
  mkState (add32 (ha h) (ha st)) (add32 (hb h) (hb st)) (add32 (hc h) (hc st))
          (add32 (hd h) (hd st)) (add32 (he h) (he st)) (add32 (hf h) (hf st))
          (add32 (hg h) (hg st)) (add32 (hh h) (hh st)).

Fixpoint blocks (n : nat) (h : State) (bs : list Z) : State :=
  match n with
  | O => h
  | S k =>
      match bs with
      | [] => h
      | _ => blocks k (compress h (firstn 64 bs)) (skipn 64 bs)
      end
  end.

(** The digest, 32 bytes. *)
Definition digest (msg : list Z) : list Z :=
  let p := pad msg in
  let h := blocks (List.length p) H0 p in
  bytesOf 4 (ha h) ++ bytesOf 4 (hb h) ++ bytesOf 4 (hc h) ++ bytesOf 4 (hd h) ++
  bytesOf 4 (he h) ++ bytesOf 4 (hf h) ++ bytesOf 4 (hg h) ++ bytesOf 4 (hh h).

Definition xorWith (c : Z) (bs : list Z) : list Z := map (Z.lxor c) bs.

(** HMAC with SHA-256 (block size 64). *)
Definition hmac (key msg : list Z) : list Z :=
  let key := if Nat.ltb 64 (List.length key) then digest key else key in
  let key := key ++ repeat 0 (64 - List.length key) in
  digest (xorWith 92 key ++ digest (xorWith 54 key ++ msg)).

Definition hexDigit (n : Z) : ascii :=
  nth (Z.to_nat n) (list_ascii_of_string "0123456789abcdef") "f"%char.

(** [digest("hex")] *)
Fixpoint hex (bs : list Z) : string :=
  match bs with
  | [] => EmptyString
  | b :: r => String (hexDigit (b / 16)) (String (hexDigit (b mod 16)) (hex r))
  end.
End Sha256.

(** [Buffer.from(text).toString("base64url")] and
    [Buffer.from(text, "base64url")], on bytes. *)
Module Base64Url.
Definition alphabet : list ascii :=
  list_ascii_of_string
    "ABCDEFGHIJKLMNOPQRSTUVWXYZabcdefghijklmnopqrstuvwxyz0123456789-_".

(** The character of a 6-bit value. *)
Definition char (v : Z) : ascii := nth (Z.to_nat v) alphabet "_"%char.

(** Three bytes make four characters; no padding is written. *)
Fixpoint encode (bs : list Z) : string :=
  match bs with
  | a :: b :: c :: r =>
      String (char (a / 4))
        (String (char ((a mod 4) * 16 + b / 16))
           (String (char ((b mod 16) * 4 + c / 64))
              (String (char (c mod 64)) (encode r))))
  | [a; b] =>
      String (char (a / 4))
        (String (char ((a mod 4) * 16 + b / 16))
           (String (char ((b mod 16) * 4)) EmptyString))
  | [a] =>
      String (char (a / 4)) (String (char ((a mod 4) * 16)) EmptyString)
  | [] => EmptyString
  end.

(** The 6-bit value of a character.  The decoder of Node.js reads the
    URL-safe and the standard alphabet alike. *)
Definition unbase64 (c : ascii) : option Z :=
  let n := Z.of_nat (nat_of_ascii c) in
  if andb (Z.leb 65 n) (Z.leb n 90) then Some (n - 65)
  else if andb (Z.leb 97 n) (Z.leb n 122) then Some (n - 71)
  else if andb (Z.leb 48 n) (Z.leb n 57) then Some (n + 4)
  else if orb (Z.eqb n 43) (Z.eqb n 45) then Some 62
  else if orb (Z.eqb n 47) (Z.eqb n 95) then Some 63
  else None.

(** The values of the legal characters up to the first [=]; any other
    character is skipped. *)
Fixpoint sextets (s : string) : list Z :=
  match s with
  | EmptyString => []
  | String c r =>
      if Ascii.eqb c "=" then []
      else match unbase64 c with
           | Some v => v :: sextets r
           | None => sextets r
           end
  end.

(** Four values make three bytes; of an incomplete last group the bits
    that fill whole bytes are kept and the others dropped. *)
Fixpoint bytes (l : list Z) : list Z :=
  match l with
  | a :: b :: c :: d :: r =>
      (a * 4 + b / 16) :: ((b mod 16) * 16 + c / 4) :: ((c mod 4) * 64 + d) :: bytes r
  | [a; b; c] => [a * 4 + b / 16; (b mod 16) * 16 + c / 4]
  | [a; b] => [a * 4 + b / 16]
  | _ => []
  end.

Definition decode (s : string) : list Z := bytes (sextets s).
End Base64Url.

(** [JSON.stringify] and [JSON.parse].  Numbers are integers. *)
Module Json.
#[local] Unset Elimination Schemes.
Inductive t :=
| Null
| Bool (b : bool)
| Number (n : Z)
| Str (s : string)
| Array (l : list t)
| Object (members : list (string * t)).
#[local] Set Elimination Schemes.

Definition dquote : ascii := "034"%char.
Definition backslash : ascii := "092"%char.

Definition hexChar (n : nat) : ascii :=
  if Nat.ltb n 10 then ascii_of_nat (n + 48)%nat else ascii_of_nat (n + 87)%nat.

(** QuoteJSONString, one character. *)
Definition escapeChar (c : ascii) : string :=
  let n := nat_of_ascii c in
  if Nat.eqb n 34 then String backslash (String dquote EmptyString)
  else if Nat.eqb n 92 then String backslash (String backslash EmptyString)
  else if Nat.eqb n 8 then String backslash "b"
  else if Nat.eqb n 9 then String backslash "t"
  else if Nat.eqb n 10 then String backslash "n"
  else if Nat.eqb n 12 then String backslash "f"
  else if Nat.eqb n 13 then String backslash "r"
  else if Nat.ltb n 32
       then String backslash
              (String "u" (String "0" (String "0"
                 (String (hexChar (n / 16)%nat) (String (hexChar (n mod 16)%nat) EmptyString)))))
  else String c EmptyString.

Fixpoint escape (s : string) : string :=
  match s with
  | EmptyString => EmptyString
  | String c r => escapeChar c ++ escape r
  end.

Definition quote (s : string) : string :=
  String dquote (escape s ++ String dquote EmptyString).

Definition number (n : Z) : string := NilZero.string_of_int (Z.to_int n).

(** [JSON.stringify] *)
Fixpoint stringify (v : t) : string :=
  match v with
  | Null => "null"
  | Bool true => "true"
  | Bool false => "false"
  | Number n => number n
  | Str s => quote s
  | Array l =>
      "[" ++ (fix elems (l : list t) : string :=
                match l with
                | [] => EmptyString
                | [x] => stringify x
                | x :: r => stringify x ++ "," ++ elems r
                end) l ++ "]"
  | Object m =>
      "{" ++ (fix membs (m : list (string * t)) : string :=
                match m with
                | [] => EmptyString
                | [(k, x)] => quote k ++ ":" ++ stringify x
                | (k, x) :: r => quote k ++ ":" ++ stringify x ++ "," ++ membs r
                end) m ++ "}"
  end.

Definition isWs (c : ascii) : bool :=
  let n := nat_of_ascii c in
  orb (orb (Nat.eqb n 32) (Nat.eqb n 9)) (orb (Nat.eqb n 10) (Nat.eqb n 13)).

Fixpoint skipWs (s : string) : string :=
  match s with
  | String c r => if isWs c then skipWs r else s
  | EmptyString => EmptyString
  end.

Definition hexVal (c : ascii) : option nat :=
  let n := nat_of_ascii c in
  if andb (Nat.leb 48 n) (Nat.leb n 57) then Some (n - 48)%nat
  else if andb (Nat.leb 97 n) (Nat.leb n 102) then Some (n - 87)%nat
  else if andb (Nat.leb 65 n) (Nat.leb n 70) then Some (n - 55)%nat
  else None.

Definition cons (c : ascii) (r : option (string * string)) : option (string * string) :=
  match r with
  | Some (s, rest) => Some (String c s, rest)
  | None => None
  end.

(** The characters of a string literal after its opening quote, and the
    text after its closing quote.  A [\u] escape is read when it names a
    character below U+0080. *)
Fixpoint parseChars (s : string) : option (string * string) :=
  match s with
  | EmptyString => None
  | String c r =>
      if Ascii.eqb c dquote then Some (EmptyString, r)
      else if Ascii.eqb c backslash then
        match r with
        | String e r1 =>
            if Ascii.eqb e dquote then cons dquote (parseChars r1)
            else if Ascii.eqb e backslash then cons backslash (parseChars r1)
            else if Ascii.eqb e "/" then cons "/" (parseChars r1)
            else if Ascii.eqb e "b" then cons "008" (parseChars r1)
            else if Ascii.eqb e "f" then cons "012" (parseChars r1)
            else if Ascii.eqb e "n" then cons "010" (parseChars r1)
            else if Ascii.eqb e "r" then cons "013" (parseChars r1)
            else if Ascii.eqb e "t" then cons "009" (parseChars r1)
            else if Ascii.eqb e "u" then
              match r1 with
              | String h1 (String h2 (String h3 (String h4 r2))) =>
                  match hexVal h1, hexVal h2, hexVal h3, hexVal h4 with
                  | Some a, Some b, Some c3, Some d =>
                      let v := (((a * 16 + b) * 16 + c3) * 16 + d)%nat in
                      if Nat.ltb v 128 then cons (ascii_of_nat v) (parseChars r2)
                      else None
                  | _, _, _, _ => None
                  end
              | _ => None
              end
            else None
        | EmptyString => None
        end
      else if Nat.ltb (nat_of_ascii c) 32 then None
      else cons c (parseChars r)
  end.

Definition isDigit (c : ascii) : bool :=
  let n := nat_of_ascii c in andb (Nat.leb 48 n) (Nat.leb n 57).

Fixpoint spanDigits (s : string) : string * string :=
  match s with
  | String c r =>
      if isDigit c then let '(d, rest) := spanDigits r in (String c d, rest)
      else (EmptyString, s)
  | EmptyString => (EmptyString, EmptyString)
  end.

(** An integer literal: an optional minus sign, then ["0"] or digits
    without a leading zero.  A fraction or an exponent is not read. *)
Definition parseNumber (s : string) : option (Z * string) :=
  let '(sign, body) :=
    match s with
    | String "-" r => ("-", r)
    | _ => (EmptyString, s)
    end in
  let '(digits, rest) := spanDigits body in
  let wellFormed :=
    match digits with
    | EmptyString => false
    | String "0" (String _ _) => false
    | _ => true
    end in
  let continues :=
    match rest with
    | String c _ => orb (Ascii.eqb c ".") (orb (Ascii.eqb c "e") (Ascii.eqb c "E"))
    | EmptyString => false
    end in
  if andb wellFormed (negb continues) then
    match NilZero.int_of_string (sign ++ digits) with
    | Some i => Some (Z.of_int i, rest)
    | None => None
    end
  else None.

(** The text after [word], when the text starts with it. *)
Fixpoint dropPrefix (word s : string) : option string :=
  match word, s with
  | EmptyString, _ => Some s
  | String a w, String b r => if Ascii.eqb a b then dropPrefix w r else None
  | String _ _, EmptyString => None
  end.

Definition literal (word : string) (v : t) (s : string) : option (t * string) :=
  match dropPrefix word s with
  | Some rest => Some (v, rest)
  | None => None
  end.

Fixpoint parseValue (fuel : nat) (s : string) : option (t * string) :=
  match fuel with
  | O => None
  | S k =>
      match skipWs s with
      | EmptyString => None
      | String c r =>
          if Ascii.eqb c "{" then
            match skipWs r with
            | String "}" r1 => Some (Object [], r1)
            | _ => parseMembers k r []
            end
          else if Ascii.eqb c "[" then
            match skipWs r with
            | String "]" r1 => Some (Array [], r1)
            | _ => parseElements k r []
            end
          else if Ascii.eqb c dquote then
            match parseChars r with
            | Some (str, rest) => Some (Str str, rest)
            | None => None
            end
          else if Ascii.eqb c "t" then literal "true" (Bool true) (String c r)
          else if Ascii.eqb c "f" then literal "false" (Bool false) (String c r)
          else if Ascii.eqb c "n" then literal "null" Null (String c r)
          else match parseNumber (String c r) with
               | Some (n, rest) => Some (Number n, rest)
               | None => None
               end
      end
  end
with parseMembers (fuel : nat) (s : string) (acc : list (string * t))
     : option (t * string) :=
  match fuel with
  | O => None
  | S k =>
      match skipWs s with
      | String c r =>
          if Ascii.eqb c dquote then
            match parseChars r with
            | Some (key, r1) =>
                match skipWs r1 with
                | String ":" r2 =>
                    match parseValue k r2 with
                    | Some (v, r3) =>
                        match skipWs r3 with
                        | String "," r4 => parseMembers k r4 (acc ++ [(key, v)])
                        | String "}" r4 => Some (Object (acc ++ [(key, v)]), r4)
                        | _ => None
                        end
                    | None => None
                    end
                | _ => None
                end
            | None => None
            end
          else None
      | EmptyString => None
      end
  end
with parseElements (fuel : nat) (s : string) (acc : list t) : option (t * string) :=
  match fuel with
  | O => None
  | S k =>
      match parseValue k s with
      | Some (v, r1) =>
          match skipWs r1 with
          | String "," r2 => parseElements k r2 (acc ++ [v])
          | String "]" r2 => Some (Array (acc ++ [v]), r2)
          | _ => None
          end
      | None => None
      end
  end.

(** [JSON.parse]; [None] when it throws. *)
Definition parse (s : string) : option t :=
  match parseValue (S (String.length s)) s with
  | Some (v, rest) =>
      match skipWs rest with
      | EmptyString => Some v
      | _ => None
      end
  | None => None
  end.

(** [object.key]: the last member of that name; [None] is [undefined]. *)
Fixpoint lookup (key : string) (members : list (string * t)) : option t :=
  match members with
  | [] => None
  | (k, v) :: r =>
      match lookup key r with
      | Some w => Some w
      | None => if String.eqb k key then Some v else None
      end
  end.

Definition get (key : string) (v : t) : option t :=
  match v with
  | Object m => lookup key m
  | _ => None
  end.
End Json.

Module TokenService.

(** [TOKEN_EXPIRY[type] || TOKEN_EXPIRY.payment], in milliseconds.  A name
    that the object inherits from [Object.prototype] yields a function or an
    object, which no number exceeds. *)
Inductive Expiry := Millis (ms : Z) | NotANumber.

Definition inherited : list string :=
  ["constructor"; "toString"; "toLocaleString"; "valueOf"; "hasOwnProperty";
   "isPrototypeOf"; "propertyIsEnumerable"; "__proto__"; "__defineGetter__";
   "__defineSetter__"; "__lookupGetter__"; "__lookupSetter__"].

Definition expiryTime (type : string) : Expiry :=
  if String.eqb type "payment" then Millis (30 * 24 * 60 * 60 * 1000)
  else if String.eqb type "verification" then Millis (24 * 60 * 60 * 1000)
  else if String.eqb type "accountSetup" then Millis (7 * 24 * 60 * 60 * 1000)
  else if String.eqb type "passwordReset" then Millis (1 * 60 * 60 * 1000)
  else if existsb (String.eqb type) inherited then NotANumber
  else Millis (30 * 24 * 60 * 60 * 1000).

Definition signature (secret payloadString : string) : string :=
  Sha256.hex (Sha256.hmac (bytesOfString secret) (bytesOfString payloadString)).

(** The payload object of [generateToken]. *)
Definition payloadOf (now : Z) (email : string) (requestId : option string)
    (type : string) : Json.t :=
  Json.Object
    [("email", Json.Str (JsString.trim (JsString.toLowerCase email)));
     ("requestId", match requestId with
                   | Some r => if JsString.truthy requestId then Json.Str r else Json.Null
                   | None => Json.Null
                   end);
     ("type", Json.Str type);
     ("timestamp", Json.Number now)].

(** [generateToken(email, requestId, type)], issued at [Date.now() = now]
    under [SECRET = secret]. *)
Definition generateToken (secret : string) (now : Z) (email : string)
    (requestId : option string) (type : string) : string :=
  let payloadString := Json.stringify (payloadOf now email requestId type) in
  Base64Url.encode (bytesOfString payloadString) ++ "." ++ signature secret payloadString.

(** [token.split(".")] *)
Fixpoint split (s : string) : list string :=
  match s with
  | EmptyString => [EmptyString]
  | String c r =>
      if Ascii.eqb c "." then EmptyString :: split r
      else match split r with
           | h :: t => String c h :: t
           | [] => [String c EmptyString]
           end
  end.

Inductive Verification :=
| Valid (email : Json.t) (requestId : option Json.t) (type : Json.t)
| Invalid (error : string).

(** [ToNumber] of the stored time stamp; [None] is [NaN].  A time stamp
    that is a string, an array or an object is read as [NaN]. *)
Definition toNumber (v : option Json.t) : option Z :=
  match v with
  | Some (Json.Number n) => Some n
  | Some Json.Null => Some 0
  | Some (Json.Bool b) => Some (if b then 1 else 0)
  | _ => None
  end.

Definition jsonEqb (v : option Json.t) (s : string) : bool :=
  match v with
  | Some (Json.Str x) => String.eqb x s
  | _ => false
  end.

(** [verifyToken(token, expectedEmail, expectedRequestId, type)] at
    [Date.now() = now].  Whatever is thrown inside is answered as a failed
    verification. *)
Definition verifyToken (secret : string) (now : Z) (token expectedEmail : string)
    (expectedRequestId : option string) (type : string) : Verification :=
  let parts := split token in
  match nth_error parts 0, nth_error parts 1 with
  | Some payloadBase64, Some sig =>
      if orb (String.eqb payloadBase64 EmptyString) (String.eqb sig EmptyString)
      then Invalid "Invalid token format"
      else
        let payloadString := stringOfBytes (Base64Url.decode payloadBase64) in
        match Json.parse payloadString with
        | None => Invalid "Token verification failed"
        | Some payload =>
            let expectedSignature := signature secret payloadString in
            if negb (String.eqb sig expectedSignature)
            then Invalid "Invalid token signature"
            else
              match Json.get "email" payload with
              | Some (Json.Str payloadEmail) =>
                  let normalizedPayloadEmail :=
                    JsString.trim (JsString.toLowerCase payloadEmail) in
                  let normalizedExpectedEmail :=
                    JsString.trim (JsString.toLowerCase expectedEmail) in
                  if negb (String.eqb normalizedPayloadEmail normalizedExpectedEmail)
                  then Invalid "Email mismatch"
                  else if match expectedRequestId with
                          | Some r =>
                              andb (JsString.truthy expectedRequestId)
                                   (negb (jsonEqb (Json.get "requestId" payload) r))
                          | None => false
                          end
                  then Invalid "Request ID mismatch"
                  else if negb (jsonEqb (Json.get "type" payload) type)
                  then Invalid "Token type mismatch"
                  else
                    let isExpired :=
                      match toNumber (Json.get "timestamp" payload), expiryTime type with
                      | Some issued, Millis expiry => Z.gtb (now - issued) expiry
                      | _, _ => false
                      end in
                    if isExpired then Invalid "Token expired"
                    else Valid (Json.Str payloadEmail) (Json.get "requestId" payload)
                               (Json.Str type)
              | _ => Invalid "Token verification failed"
              end
        end
  | _, _ => Invalid "Invalid token format"
  end.

End TokenService.

(** ** Notions used to state the properties *)

(** The balance that a handler finds for an address: that of the stored
    account, or zero for the account it is about to create. *)
Definition balanceOf (email : string) (s : Store) : Z :=
  match findUserByEmail email s with
  | Some u => User.matchCredits u
  | None => 0
  end.


(** Request ids are object ids: no match report is filed under the marker
    ["general"] of the balance top-ups. *)
Definition noGeneralReport (s : Store) : bool :=
  forallb (fun r => negb (String.eqb (MatchReport.requestId r) "general")) (matchReports s).

(** The session is neither a managed-service fee nor a savings fee. *)
Definition isPurchaseSession (session : Session.t) : bool :=
  let metadata := Session.metadata session in
  negb (orb (JsString.optEqb (Session.type metadata) (Some "managed_service"))
            (orb (JsString.optEqb (Session.type metadata)
                                  (Some "managed_service_savings_fee"))
                 (JsString.optEqb (Session.paymentType metadata) (Some "savings_fee")))).

(** The signed amount of a ledger entry: what it adds to the balance. *)
Definition signedCredits (c : CreditTransaction.t) : Z :=
  match CreditTransaction.transactionType c with
  | Added => CreditTransaction.creditsUsed c
  | Deducted | Expired => - CreditTransaction.creditsUsed c
  end.

(** The signed sum of the ledger entries of one account. *)
Definition ledgerSum (userId : nat) (s : Store) : Z :=
  fold_right Z.add 0
    (map signedCredits
         (filter (fun c => Nat.eqb (CreditTransaction.userId c) userId)
                 (creditTransactions s))).

Definition creditsOf (userId : nat) (s : Store) : Z :=
  match findUserById userId s with
  | Some u => User.matchCredits u
  | None => 0
  end.

(** ** A small marketplace, for the concrete cases *)

Module Sample.

(** 15 June 2025, 09:30 UTC. *)
Definition now : JsDate.t := JsDate.mk 2025 5 15 34200000.

Definition requestId : string := "64a1f0c2e4b0a1b2c3d4e5f6".
Definition buyer : string := "buyer@acme.io".

Definition catalogue : list Plan.t :=
  [Plan.mk "basic" true 1 0; Plan.mk "starter" true 5 0;
   Plan.mk "professional" true 15 3].

(** A verified professional subscriber who has used up the credits. *)
Definition subscriber : User.t :=
  User.mk 1 buyer true SubActive (Some "professional_monthly")
          (Some (JsDate.mk 2025 6 1 0)) (Some "cus_1") (Some "sub_1") 0.

(** A registered buyer without a plan, with five credits left. *)
Definition newcomer : User.t :=
  User.mk 1 buyer false SubNone None None None None 5.

Definition request : BuyerRequest.t :=
  BuyerRequest.mk requestId buyer "Steel brackets, 5000 units" "metal" "pending".

Definition report : MatchReport.t :=
  MatchReport.mk 10 requestId (Some buyer) ReportPending
    (mkContent "Steel brackets, 5000 units" "metal" 0 0 []) None None None.

Definition generated : ReportContent :=
  mkContent "Steel brackets" "metal" 2 80 [(7%nat, 90); (8%nat, 70)].

Definition matcher : Matcher := fun _ => Some generated.

(** The record that [createCheckoutSession] stores for a one-time unlock. *)
Definition pendingPayment : Payment.t :=
  Payment.mk 20 (Some requestId) (Some 10%nat) buyer None (Some "cs_test_1") None None
             4900 "one-time" Pending None (JsDate.mk 2025 5 15 34000000).

Definition oneTimeSession : Session.t :=
  Session.mk (Some "cs_test_1")
    (Session.mkMeta None None (Some requestId) (Some "one-time") None (Some "1")
                    (Some "token"))
    (Some requestId) (Some buyer) 4900 (Some "pi_1") (Some "cus_1") None "paid".

(** A store in which the checkout of [oneTimeSession] has been recorded. *)
Definition recorded : Store :=
  mkStore [newcomer] [pendingPayment] [report] [request] [] [] catalogue 100.

(** A professional subscription bought for the request. *)
Definition subscriptionSession : Session.t :=
  Session.mk (Some "cs_test_2")
    (Session.mkMeta None None (Some requestId) (Some "professional_monthly") None None
                    (Some "token"))
    (Some requestId) (Some buyer) 19900 None (Some "cus_1") (Some "sub_1") "paid".

Definition subscriptionPayment : Payment.t :=
  Payment.mk 100 (Some requestId) (Some 10%nat) buyer None None (Some "cus_1")
             (Some "sub_1") 19900 "professional_monthly" Succeeded (Some now) now.

(** The same marketplace before any checkout was recorded. *)
Definition fresh : Store :=
  mkStore [newcomer] [] [report] [request] [] [] catalogue 100.

(** Two extra credits bought for the request by the subscriber. *)
Definition topUpSession : Session.t :=
  Session.mk (Some "cs_test_3")
    (Session.mkMeta None None (Some requestId) (Some "extra_credit") None (Some "2")
                    (Some "token"))
    (Some requestId) (Some buyer) 2000 (Some "pi_3") (Some "cus_1") None "paid".

Definition subscribed : Store :=
  mkStore [subscriber] [] [report] [request] [] [] catalogue 100.

(** A pending top-up of 20 dollars whose payment intent the provider
    reports as succeeded. *)
Definition pendingTopUp : Payment.t :=
  Payment.mk 21 None None buyer (Some "pi_4") (Some "cs_test_4") None None
             2000 "extra_credit" Pending None (JsDate.mk 2025 5 15 34000000).

Definition awaitingSync : Store :=
  mkStore [subscriber] [pendingTopUp] [report] [request] [] [] catalogue 100.

Definition stripe : StripeApi :=
  mkStripe (fun _ => None) (fun _ => None) (fun _ => Some "succeeded")
           (fun _ => None) None.

(** The one-time purchase of [oneTimeSession], paid and processed. *)
Definition paidPayment : Payment.t :=
  Payment.mk 20 (Some requestId) (Some 10%nat) buyer (Some "pi_1") (Some "cs_test_1")
             (Some "cus_1") None 4900 "one-time" Succeeded (Some now)
             (JsDate.mk 2025 5 15 34000000).

Definition settled : Store :=
  mkStore [newcomer] [paidPayment] [unlockReport 20 now report] [request] [] []
          catalogue 100.

Definition renewal : Invoice := mkInvoice (Some "sub_1") (Some buyer) (Some "pi_5").

Definition scoring : Scoring :=
  mkScoring (fun _ => Matched generated) (fun _ => Matched generated).

End Sample.

(** Nothing to trim in front: the text is empty or starts with a character
    that is not white space. *)
Definition trimmedStart (s : string) : Prop :=
  match s with
  | EmptyString => True
  | String c _ => JsString.isSpace c = false
  end.

(** A byte. *)
Definition isByte (b : Z) : Prop := 0 <= b < 256.

(** A text without a dot. *)
Fixpoint noDot (s : string) : Prop :=
  match s with
  | EmptyString => True
  | String c r => Ascii.eqb c "." = false /\ noDot r
  end.

(** The JSON value of the request id in a payload. *)
Definition requestIdJson (requestId : option string) : Json.t :=
  match requestId with
  | Some r => if JsString.truthy requestId then Json.Str r else Json.Null
  | None => Json.Null
  end.


(** Thirty days, in milliseconds. *)
Definition thirtyDays : Z := 30 * 24 * 60 * 60 * 1000.

(** A token of the development configuration. *)
Module SampleToken.
Definition secret : string := "your-secret-key-change-in-production".
Definition issued : Z := 1700000000000.
Definition token : string :=
  TokenService.generateToken secret issued "a@b.com" (Some "R1") "payment".
End SampleToken.




(** ** Further notions used to state properties *)




(** The [_id]s of the stored payments were all issued by the store. *)
Definition paymentIdsIssued (s : Store) : Prop :=
  Forall (fun p => (Payment._id p < nextId s)%nat) (payments s).

(** A succeeded payment record for a managed service. *)
Definition feeRecord (planType : string) (service : string) (p : Payment.t) : Prop :=
  Payment.status p = Succeeded /\ Payment.planType p = planType /\
  Payment.requestId p = Some service.

(** A managed service of the sample buyer, and the checkout session of its
    service fee. *)
Module SampleFee.
Definition service : ManagedService.t :=
  ManagedService.mk "65b2c0d4e5f6a1b2c3d4e5f7" Sample.buyer None "pending" "intake"
                    50000 "pending" None None 0 "pending" None None.

Definition session : Session.t :=
  Session.mk (Some "cs_test_9")
    (Session.mkMeta (Some "managed_service") None (Some "65b2c0d4e5f6a1b2c3d4e5f7") None
                    None None None)
    None (Some Sample.buyer) 50000 (Some "pi_9") (Some "cus_1") None "paid".

Definition store : Store :=
  mkStore [Sample.newcomer] [] [] [] [service] [] Sample.catalogue 100.
End SampleFee.

(** The payments that sync-all works on: the pending ones of the address. *)
Definition pendingOf (userEmail : string) (p : Payment.t) : bool :=
  andb (emailMatches userEmail p) (PaymentStatus_eqb (Payment.status p) Pending).

(** [l'] is [l] with some pending payments of the address replaced by
    documents of the same [_id]. *)
Definition onlyPendingReplaced (userEmail : string) (l l' : list Payment.t) : Prop :=
  Forall2 (fun a b => Payment._id b = Payment._id a /\
                      (b = a \/ pendingOf userEmail a = true)) l l'.

(** ** manualUnlock (paymentController.js, lines 2665-2716) *)

(** The address of the mock payment, as the Payment schema stores it:
    lower-cased and trimmed. *)
Definition mockAddress (matchReport : MatchReport.t) : string :=
  JsString.trim (JsString.toLowerCase
    (orDefault (MatchReport.email matchReport) "test@example.com")).

(** The mock payment of 49 dollars.  The schema requires an address: when
    nothing is left of it after trimming, [payment.save()] throws and the
    handler answers 500. *)
Definition manualUnlock (now : JsDate.t) (requestId : string) (s : Store)
    : Store * ApiResponse :=
  match findReportByRequest requestId s with
  | None => (s, plain 404 false "Match report not found")
  | Some matchReport =>
      if ReportStatus_eqb (MatchReport.status matchReport) ReportUnlocked
      then (s, plain 200 true "Report already unlocked")
      else if String.eqb (mockAddress matchReport) EmptyString
      then (s, plain 500 false "Internal server error")
      else
        let '(i, s) := freshId s in
        let payment :=
          Payment.mk i (Some requestId) (Some (MatchReport._id matchReport))
            (mockAddress matchReport)
            None None None None 4900 "one-time" Succeeded (Some now) now in
        let s := savePayment payment s in
        let matchReport := unlockReport (Payment._id payment) now matchReport in
        (saveReport matchReport s,
         plain 200 true "Report unlocked successfully (mock payment)")
  end.

(** ** generateAIMatch (requestController.js, lines 739-918) *)

(** The name of a report status, as stored. *)
Definition statusName (st : ReportStatus) : string :=
  match st with
  | ReportPending => "pending"
  | ReportCompleted => "completed"
  | ReportPaid => "paid"
  | ReportUnlocked => "unlocked"
  end.

(** [Payment.findOne({ requestId: id, status: "succeeded" })] *)
Definition findSucceededPayment (id : string) (s : Store) : option Payment.t :=
  find (fun p => andb (JsString.optEqb (Payment.requestId p) (Some id))
                      (PaymentStatus_eqb (Payment.status p) Succeeded))
       (payments s).

Definition generateAIMatch (scoring : Scoring) (now : JsDate.t) (id : string)
    (reqUser : option nat) (s : Store) : Store * ApiResponse :=
  match reqUser with
  | None => (s, plain 401 false "Authentication required to generate AI match")
  | Some _ =>
      match findRequestById id s with
      | None => (s, plain 404 false "Request not found")
      | Some buyerRequest =>
          match findReportByRequest id s with
          | None => (s, plain 404 false "Match report not found")
          | Some matchReport =>
              if negb (ReportStatus_eqb (MatchReport.status matchReport) ReportUnlocked)
              then (s, plain 400 false
                         ("Match report is already "
                          ++ statusName (MatchReport.status matchReport)
                          ++ ". AI matching can only be triggered for unlocked reports (after payment)."))
              else
                match findSucceededPayment id s with
                | None => (s, plain 403 false "Payment required to generate AI match")
                | Some _ =>
                    match aiBased scoring buyerRequest with
                    | NoSuppliers =>
                        (s, plain 404 false "No suppliers available in database")
                    | NoMatch => (s, plain 404 false "No matching suppliers found")
                    | MatcherThrows => (s, plain 500 false "Internal server error")
                    | Matched generated =>
                        let matchReport :=
                          MatchReport.set_content generated (Some now)
                            (MatchReport.set_status ReportCompleted matchReport) in
                        let s := saveReport matchReport s in
                        let s := saveRequest
                                   (BuyerRequest.set_status "processing" buyerRequest) s in
                        (s, plain 200 true "AI match generated successfully")
                    end
                end
          end
      end
  end.

(** ** getFullReport (requestController.js, lines 920-1012) *)

(** [populate("fullReport.suppliers.supplierId")] with the supplier
    collection as a lookup: a supplier that is gone is [null], and reading
    its name throws. *)
Definition populated {Supplier : Type} (lookup : nat -> option Supplier)
    (items : list (nat * Z)) : option (list (Supplier * Z)) :=
  fold_right (fun item acc =>
                match lookup (fst item), acc with
                | Some supplier, Some rest => Some ((supplier, snd item) :: rest)
                | _, _ => None
                end)
             (Some []) items.

Inductive ReportResponse (Supplier : Type) :=
| ReportRefused (code : nat) (message : string)
| TokenRefused (verdict : TokenService.Verification)   (* 403 with its error *)
| ReportFailed                                          (* 500 *)
| FullReport (report : MatchReport.t) (suppliers : list (Supplier * Z)).

Arguments ReportRefused {Supplier}.
Arguments TokenRefused {Supplier}.
Arguments ReportFailed {Supplier}.
Arguments FullReport {Supplier}.

(** [production] is [process.env.NODE_ENV === "production"]; [nowMs] is
    [Date.now()]. *)
Definition getFullReport {Supplier : Type} (secret : string) (production : bool)
    (lookup : nat -> option Supplier) (nowMs : Z) (id : string)
    (token email : option string) (s : Store) : ReportResponse Supplier :=
  match findReportByRequest id s with
  | None => ReportRefused 404 "Match report not found"
  | Some matchReport =>
      if andb (negb (ReportStatus_eqb (MatchReport.status matchReport) ReportUnlocked))
              (andb (negb (ReportStatus_eqb (MatchReport.status matchReport) ReportPaid))
                    (negb (ReportStatus_eqb (MatchReport.status matchReport)
                                            ReportPending)))
      then ReportRefused 403 "Full report is locked. Please complete payment to unlock."
      else
        let refusal :=
          match token, email with
          | Some t, Some e =>
              if andb (JsString.truthy token) (JsString.truthy email) then
                match TokenService.verifyToken secret nowMs t e (Some id) "payment" with
                | TokenService.Valid _ _ _ => None
                | verdict => Some (TokenRefused verdict)
                end
              else if production
              then Some (ReportRefused 403
                           "Secure access link required. Please use the link from your email.")
              else None
          | _, _ =>
              if production
              then Some (ReportRefused 403
                           "Secure access link required. Please use the link from your email.")
              else None
          end in
        match refusal with
        | Some response => response
        | None =>
            match populated lookup (suppliers (MatchReport.content matchReport)) with
            | Some fullSuppliers => FullReport matchReport fullSuppliers
            | None => ReportFailed
            end
        end
  end.

(** ** getRequestDetails (dashboardController.js, lines 351-581) *)

(** The [request] part of the answer, with the fields of the model. *)
Record RequestView := mkRequestView {
  view_id : string;
  view_category : string;
  view_description : string;
  view_status : string;
  view_matchedCount : option Z;
  view_matchScore : option Z }.

Record Details (Supplier : Type) := mkDetails {
  details_request : RequestView;
  details_suppliers : list (Supplier * Z);
  details_isLocked : bool;
  details_status : string;
  details_matchReportStatus : string;
  details_generatedAt : option JsDate.t }.

Arguments mkDetails {Supplier}.
Arguments details_request {Supplier}.
Arguments details_suppliers {Supplier}.
Arguments details_isLocked {Supplier}.
Arguments details_status {Supplier}.
Arguments details_matchReportStatus {Supplier}.
Arguments details_generatedAt {Supplier}.

Inductive DetailsResponse (Supplier : Type) :=
| DetailsRefused (code : nat) (message : string)
| DetailsFailed
| DetailsFound (data : Details Supplier).

Arguments DetailsRefused {Supplier}.
Arguments DetailsFailed {Supplier}.
Arguments DetailsFound {Supplier}.

(** [a || b] on texts. *)
Definition orText (a b : string) : string :=
  if String.eqb a EmptyString then b else a.

(** [Payment.findOne({ email: user.email, requestId: id, status: "succeeded" })] *)
Definition findOwnSucceededPayment (user : User.t) (id : string) (s : Store)
    : option Payment.t :=
  find (fun p => andb (String.eqb (Payment.email p) (User.email user))
                      (andb (JsString.optEqb (Payment.requestId p) (Some id))
                            (PaymentStatus_eqb (Payment.status p) Succeeded)))
       (payments s).

Definition getRequestDetails {Supplier : Type} (lookup : nat -> option Supplier)
    (id : string) (user : User.t) (s : Store) : DetailsResponse Supplier :=
  match find (fun b => andb (String.eqb (BuyerRequest._id b) id)
                            (String.eqb (BuyerRequest.email b) (User.email user)))
             (buyerRequests s) with
  | None => DetailsRefused 404 "Request not found"
  | Some request =>
      match findReportByRequest id s with
      | None =>
          DetailsFound
            (mkDetails (mkRequestView (BuyerRequest._id request)
                          (BuyerRequest.category request)
                          (BuyerRequest.description request)
                          (BuyerRequest.status request) None None)
                       [] true "pending" "pending" None)
      | Some matchReport =>
          let preview := MatchReport.content matchReport in
          let status := MatchReport.status matchReport in
          let isCompleted := ReportStatus_eqb status ReportCompleted in
          let isUnlocked := ReportStatus_eqb status ReportUnlocked in
          let isPending := ReportStatus_eqb status ReportPending in
          let hasAccess :=
            if isCompleted then true
            else match findOwnSucceededPayment user id s with
                 | Some _ => negb isUnlocked
                 | None => false
                 end in
          let view :=
            mkRequestView (BuyerRequest._id request)
              (orText (BuyerRequest.category request) (category preview))
              (orText (BuyerRequest.description request) (summary preview))
              (BuyerRequest.status request)
              (Some (matchedCount preview)) (Some (matchScore preview)) in
          if isPending then
            DetailsFound (mkDetails view [] true "pending" "pending"
                                    (MatchReport.generatedAt matchReport))
          else if andb (negb hasAccess) (negb isUnlocked) then
            DetailsFound (mkDetails view [] true "pending_payment" (statusName status)
                                    (MatchReport.generatedAt matchReport))
          else if andb isUnlocked (negb hasAccess) then
            DetailsFound (mkDetails view [] true "unlocked" "unlocked"
                                    (MatchReport.generatedAt matchReport))
          else
            match populated lookup (suppliers preview) with
            | Some fullSuppliers =>
                DetailsFound (mkDetails view fullSuppliers false (statusName status)
                                        (statusName status)
                                        (MatchReport.generatedAt matchReport))
            | None => DetailsFailed
            end
      end
  end.

Local Open Scope Z_scope.

(** * Properties *)

(** ** Saving and finding documents *)

Section UpsertFacts.
Context {A : Type} (same : A -> A -> bool).
Hypothesis same_refl : forall x, same x x = true.

Lemma upsert_In (d : A) (l : list A) : In d (upsert same d l).
Proof.
  induction l as [|x r IH]; simpl.
  - now left.
  - destruct (same x d); simpl; auto.
Qed.

Lemma upsert_idem (d : A) (l : list A) :
  upsert same d (upsert same d l) = upsert same d l.
Proof.
  induction l as [|x r IH]; simpl.
  - now rewrite same_refl.
  - destruct (same x d) eqn:E; simpl.
    + now rewrite same_refl.
    + now rewrite E, IH.
Qed.

(** A document found by a key that the save does not change is found
    again, in its saved state. *)
Lemma find_upsert_found (key : A -> bool) (d x : A) (l : list A) :
  find key l = Some x -> same x d = true -> key d = true ->
  find key (upsert same d l) = Some d.
Proof.
  intros Hf Hs Hk. induction l as [|y r IH]; simpl in *.
  - discriminate.
  - destruct (same y d) eqn:E; simpl.
    + now rewrite Hk.
    + destruct (key y) eqn:Ky.
      * injection Hf as ->. congruence.
      * auto.
Qed.

Lemma find_upsert_new (key : A -> bool) (d : A) (l : list A) :
  find key l = None -> key d = true ->
  find key (upsert same d l) = Some d.
Proof.
  intros Hf Hk. induction l as [|y r IH]; simpl in *.
  - now rewrite Hk.
  - destruct (key y) eqn:Ky; [discriminate|].
    destruct (same y d); simpl.
    + now rewrite Hk.
    + rewrite Ky. auto.
Qed.

(** Saving under an [_id] answers that document to a search by [_id]. *)
Lemma find_upsert_same (d : A) (l : list A) :
  find (fun x => same x d) (upsert same d l) = Some d.
Proof.
  induction l as [|y r IH]; simpl.
  - now rewrite same_refl.
  - destruct (same y d) eqn:E; simpl.
    + now rewrite same_refl.
    + now rewrite E.
Qed.
End UpsertFacts.

Lemma sameUser_refl u : sameUser u u = true.
Proof. apply Nat.eqb_refl. Qed.
Lemma samePayment_refl p : samePayment p p = true.
Proof. apply Nat.eqb_refl. Qed.
Lemma sameReport_refl r : sameReport r r = true.
Proof. apply Nat.eqb_refl. Qed.

Create HintDb store.
#[local] Hint Resolve sameUser_refl samePayment_refl sameReport_refl : store.

(** ** Entitlement rules *)

Lemma creditsAfterAllocation_spec (grant cap current : Z) :
  (0 < cap /\ 0 < current ->
   creditsAfterAllocation grant cap current = grant + Z.min current cap) /\
  (~ (0 < cap /\ 0 < current) -> creditsAfterAllocation grant cap current = grant).
Proof.
  unfold creditsAfterAllocation.
  destruct (Z.ltb_spec 0 cap), (Z.ltb_spec 0 current); simpl; split; intros;
    solve [reflexivity | lia | tauto].
Qed.

Lemma findOrNewUser_email e s : User.email (fst (findOrNewUser e s)) = e.
Proof.
  unfold findOrNewUser, findUserByEmail.
  destruct (find _ (users s)) eqn:F; simpl.
  - apply find_some in F. destruct F as [_ F]. now apply String.eqb_eq in F.
  - reflexivity.
Qed.

Lemma findOrNewUser_credits e s :
  User.matchCredits (fst (findOrNewUser e s)) = balanceOf e s.
Proof.
  unfold findOrNewUser, balanceOf. now destruct (findUserByEmail e s).
Qed.

Lemma findOrNewUser_users e s : users (snd (findOrNewUser e s)) = users s.
Proof. unfold findOrNewUser. now destruct (findUserByEmail e s). Qed.

Lemma findOrNewUser_plans e s : plans (snd (findOrNewUser e s)) = plans s.
Proof. unfold findOrNewUser. now destruct (findUserByEmail e s). Qed.

Lemma findOrNewUser_ledger e s :
  creditTransactions (snd (findOrNewUser e s)) = creditTransactions s.
Proof. unfold findOrNewUser. now destruct (findUserByEmail e s). Qed.

(** Saving the account that was found (or made) for an address makes it the
    answer to the next search for that address. *)
Lemma findUserByEmail_saved e s s' u' :
  users s' = users s ->
  User._id u' = User._id (fst (findOrNewUser e s)) ->
  User.email u' = e ->
  findUserByEmail e (saveUser u' s') = Some u'.
Proof.
  intros Hu Hid He. unfold findUserByEmail, saveUser. simpl. rewrite Hu.
  unfold findOrNewUser, findUserByEmail in Hid.
  destruct (find (fun u => String.eqb (User.email u) e) (users s)) eqn:F.
  - eapply find_upsert_found; eauto.
    + unfold sameUser. simpl in Hid. rewrite Hid. apply Nat.eqb_refl.
    + now apply String.eqb_eq.
  - apply find_upsert_new; auto. now apply String.eqb_eq.
Qed.

Lemma allocateSubscription_credits planType customer subscription now user s :
  User.matchCredits (fst (allocateSubscription planType customer subscription now user s)) =
  creditsAfterAllocation (getCreditsForPlan planType s) (getMaxRolloverCredits planType s)
                         (User.matchCredits user).
Proof. reflexivity. Qed.

Lemma allocateSubscription_expiry planType customer subscription now user s :
  User.subscriptionExpiresAt
    (fst (allocateSubscription planType customer subscription now user s)) =
  subscriptionExpiry planType now (User.subscriptionExpiresAt user).
Proof. reflexivity. Qed.

Lemma allocateSubscription_id planType customer subscription now user s :
  User._id (fst (allocateSubscription planType customer subscription now user s)) =
  User._id user /\
  User.email (fst (allocateSubscription planType customer subscription now user s)) =
  User.email user.
Proof. split; reflexivity. Qed.

Lemma allocateSubscription_users planType customer subscription now user s :
  users (snd (allocateSubscription planType customer subscription now user s)) = users s.
Proof. reflexivity. Qed.

(** What [processPurchase] leaves in the store for the account of a
    subscription payment. *)
Lemma processPurchase_account now session payment s :
  isSubscriptionPlan (Payment.planType payment) = true ->
  let account := JsString.trim (JsString.toLowerCase (Payment.email payment)) in
  exists user,
    findUserByEmail account (processPurchase now session payment s) = Some user /\
    User.matchCredits user =
      creditsAfterAllocation (getCreditsForPlan (Payment.planType payment) s)
        (getMaxRolloverCredits (Payment.planType payment) s) (balanceOf account s) /\
    User.subscriptionExpiresAt user =
      subscriptionExpiry (Payment.planType payment) now
        (match findUserByEmail account s with
         | Some u => User.subscriptionExpiresAt u
         | None => None
         end).
Proof.
  intros Hsub account. unfold processPurchase. rewrite Hsub. fold account.
  set (s1 := match findReportById (Payment.matchReportId payment) s with
             | Some r => saveReport (unlockReport (Payment._id payment) now r) s
             | None => s
             end).
  assert (Hu1 : users s1 = users s) by (unfold s1; now destruct findReportById).
  assert (Hp1 : plans s1 = plans s) by (unfold s1; now destruct findReportById).
  assert (Hf1 : findUserByEmail account s1 = findUserByEmail account s)
    by (unfold findUserByEmail; now rewrite Hu1).
  pose proof (findOrNewUser_email account s1) as He.
  pose proof (findOrNewUser_credits account s1) as Hc.
  pose proof (findOrNewUser_users account s1) as Hu.
  pose proof (findOrNewUser_plans account s1) as Hp.
  assert (Hx : User.subscriptionExpiresAt (fst (findOrNewUser account s1)) =
               match findUserByEmail account s with
               | Some u => User.subscriptionExpiresAt u
               | None => None
               end).
  { unfold findOrNewUser. rewrite Hf1. now destruct (findUserByEmail account s). }
  destruct (findOrNewUser account s1) as [user s2] eqn:F. cbn [fst snd] in He, Hc, Hu, Hp, Hx.
  destruct (allocateSubscription (Payment.planType payment) (Session.customer session)
              (Session.subscription session) now user s2) as [user' s3] eqn:Al.
  pose proof (f_equal fst Al) as Al1. pose proof (f_equal snd Al) as Al2. cbn [fst snd] in Al1, Al2.
  exists user'. split; [|split].
  - apply (findUserByEmail_saved account s1).
    + rewrite <- Al2. now rewrite allocateSubscription_users.
    + rewrite F. simpl. now rewrite <- Al1.
    + rewrite <- Al1. exact He.
  - rewrite <- Al1, allocateSubscription_credits, Hc.
    unfold getCreditsForPlan, getMaxRolloverCredits, findActivePlan, balanceOf.
    now rewrite Hp, Hp1, Hf1.
  - rewrite <- Al1, allocateSubscription_expiry. now rewrite Hx.
Qed.

(** C4.  A subscription payment handled by the webhook leaves the account
    with [creditsGranted + min(currentBalance, maxRollover)] credits when
    both [maxRollover] and [currentBalance] are positive, and with
    [creditsGranted] credits otherwise, where [creditsGranted] and
    [maxRollover] are looked up for the plan and [currentBalance] is the
    balance found for the account (zero for a new one).  With a grant of 15
    and a roll-over cap of 3, a balance of 5 becomes 18 and a balance of 0
    becomes 15. *)
Theorem rollover_on_subscription_payment
    (now : JsDate.t) (session : Session.t) (payment : Payment.t) (s : Store) :
  isSubscriptionPlan (Payment.planType payment) = true ->
  let account := JsString.trim (JsString.toLowerCase (Payment.email payment)) in
  let currentBalance := balanceOf account s in
  let creditsGranted := getCreditsForPlan (Payment.planType payment) s in
  let maxRollover := getMaxRolloverCredits (Payment.planType payment) s in
  (exists user,
     findUserByEmail account (processPurchase now session payment s) = Some user /\
     (0 < maxRollover /\ 0 < currentBalance ->
      User.matchCredits user = creditsGranted + Z.min currentBalance maxRollover) /\
     (~ (0 < maxRollover /\ 0 < currentBalance) ->
      User.matchCredits user = creditsGranted)) /\
  creditsAfterAllocation 15 3 5 = 18 /\
  creditsAfterAllocation 15 3 0 = 15.
Proof.
  intros Hsub account currentBalance creditsGranted maxRollover.
  split; [|split; reflexivity].
  destruct (processPurchase_account now session payment s Hsub) as (user & Hf & Hc & _).
  exists user. split; [exact Hf|].
  rewrite Hc.
  apply (creditsAfterAllocation_spec creditsGranted maxRollover currentBalance).
Qed.

(** ** Calendar arithmetic *)

Lemma daysInMonth_bounds y m : 28 <= JsDate.daysInMonth y m <= 31.
Proof.
  unfold JsDate.daysInMonth.
  destruct (Z.eqb m 1); [destruct (JsDate.isLeap y); lia|].
  destruct (_ || _)%bool; lia.
Qed.

Lemma rollDays_fits fuel y m d ms :
  (0 < fuel)%nat -> d <= JsDate.daysInMonth y m ->
  JsDate.rollDays fuel y m d ms = JsDate.mk y m d ms.
Proof.
  intros Hf Hd. destruct fuel; [lia|]. simpl.
  destruct (Z.leb_spec d (JsDate.daysInMonth y m)); [reflexivity|lia].
Qed.

(** A day that exists in the month aimed at is kept by [makeDate]. *)
Lemma makeDate_fits y m d ms :
  0 <= m <= 11 -> 1 <= d <= JsDate.daysInMonth y m ->
  JsDate.makeDate y m d ms = JsDate.mk y m d ms.
Proof.
  intros Hm Hd. unfold JsDate.makeDate.
  rewrite Z.div_small, Z.mod_small, Z.add_0_r by lia.
  apply rollDays_fits; lia.
Qed.






(** ** The webhook *)

Lemma findUserById_saved (u : User.t) (s : Store) :
  findUserById (User._id u) (saveUser u s) = Some u.
Proof.
  unfold findUserById, saveUser. simpl.
  apply (find_upsert_same sameUser sameUser_refl u (users s)).
Qed.

(** C10.  For an [invoice.payment_succeeded] event that names a
    subscription and is matched to a user, by the stored subscription id or
    else by the customer e-mail, the webhook stores 25 credits and the status
    [active] for that user whatever the plan catalogue says, leaves the expiry
    as it was, and adds nothing to the ledger. *)
Theorem invoice_payment_resets_credits
    (stripe : option StripeApi) (matcher : Matcher) (now : JsDate.t)
    (invoice : Invoice) (s : Store) (user : User.t) :
  JsString.truthy (invoice_subscription invoice) = true ->
  (findUserBySubscription (invoice_subscription invoice) s = Some user \/
   (findUserBySubscription (invoice_subscription invoice) s = None /\
    exists e, invoice_customer_email invoice = Some e /\
              JsString.truthy (Some e) = true /\
              findUserByEmail (JsString.trim (JsString.toLowerCase e)) s = Some user)) ->
  let result := handleWebhook stripe matcher now (Some (InvoicePaymentSucceeded invoice)) s in
  let user' := User.set_subscriptionStatus SubActive (User.set_matchCredits 25 user) in
  snd result = ack /\
  users (fst result) = upsert sameUser user' (users s) /\
  findUserById (User._id user) (fst result) = Some user' /\
  User.matchCredits user' = 25 /\
  User.subscriptionStatus user' = SubActive /\
  User.subscriptionExpiresAt user' = User.subscriptionExpiresAt user /\
  creditTransactions (fst result) = creditTransactions s /\
  plans (fst result) = plans s.
Proof.
  intros Hsub Hmatch result user'.
  assert (E : fst result = saveUser user' s).
  { unfold result, handleWebhook, handleInvoicePaid. cbn [fst]. rewrite Hsub.
    destruct Hmatch as [-> | (-> & e & -> & Ht & ->)]; [reflexivity|].
    now rewrite Ht. }
  rewrite E. repeat split.
  apply (findUserById_saved user' s).
Qed.

(** ** The sync handlers *)

Lemma latest_In (l : list Payment.t) (best : option Payment.t) (p : Payment.t) :
  latest l best = Some p -> In p l \/ best = Some p.
Proof.
  revert best. induction l as [|x r IH]; simpl; intros best H.
  - now right.
  - apply IH in H. destruct H as [H|H]; [now left; right|].
    destruct best as [b|].
    + destruct (JsDate.gtb _ _); injection H as <-; auto.
    + injection H as <-. auto.
Qed.

Lemma latestPaymentFor_stored requestId user s p :
  latestPaymentFor requestId user s = Some p ->
  In p (payments s) /\ Payment.requestId p = Some requestId.
Proof.
  unfold latestPaymentFor. intros H. apply latest_In in H.
  destruct H as [H|H]; [|discriminate].
  apply filter_In in H. destruct H as [Hin Hf]. split; [exact Hin|].
  apply andb_prop in Hf. destruct Hf as [Hf _].
  unfold JsString.optEqb in Hf. destruct (Payment.requestId p); [|discriminate].
  apply String.eqb_eq in Hf. now subst.
Qed.

(** C9.  When the payment that sync-one finds for the request is already
    [succeeded], the handler answers 200 with [success: true] and the stored
    record as data, and leaves the whole store as it was: no status change,
    no credit, no ledger entry. *)
Theorem sync_of_succeeded_payment_is_noop
    (stripe : option StripeApi) (matcher : Matcher) (now : JsDate.t)
    (requestId : string) (user : User.t) (s : Store) (payment : Payment.t) :
  latestPaymentFor requestId user s = Some payment ->
  Payment.status payment = Succeeded ->
  In payment (payments s) /\
  syncPaymentStatus stripe matcher now requestId user s =
  (s, mkApi 200 true "Payment already processed" None (Some payment) None).
Proof.
  intros Hfound Hstatus. split.
  - now apply (latestPaymentFor_stored requestId user s payment).
  - unfold syncPaymentStatus. rewrite Hfound, Hstatus. reflexivity.
Qed.

(** ** Replaying a completed checkout *)

(** What the credit blocks leave alone. *)
Ltac split_matches :=
  repeat match goal with
         | |- context [match ?x with _ => _ end] => destruct x eqn:?; cbn [fst snd]
         | |- context [if ?x then _ else _] => destruct x eqn:?; cbn [fst snd]
         end.

Lemma findOrNewUser_payments e s : payments (snd (findOrNewUser e s)) = payments s.
Proof. unfold findOrNewUser. now destruct (findUserByEmail e s). Qed.

Lemma addTopUpCredits_payments p c u s :
  payments (snd (addTopUpCredits p c u s)) = payments s.
Proof. reflexivity. Qed.

Lemma findOrCreateReport_payments rid b s :
  payments (snd (findOrCreateReport rid b s)) = payments s.
Proof. unfold findOrCreateReport. now destruct (findReportByRequest rid s). Qed.

Lemma deductUnlockCredit_payments rid r u s :
  payments (snd (deductUnlockCredit rid r u s)) = payments s.
Proof. unfold deductUnlockCredit. now destruct (0 <? User.matchCredits u). Qed.

Lemma autoGenerateMatch_payments m now rid b r u s :
  payments (snd (autoGenerateMatch m now rid b r u s)) = payments s.
Proof. unfold autoGenerateMatch. split_matches; reflexivity. Qed.

Lemma processTopUp_payments m now q p s :
  payments (snd (processTopUp false m now q p s)) = payments s.
Proof.
  unfold processTopUp.
  destruct (findOrNewUser _ s) as [u s1] eqn:E1.
  pose proof (findOrNewUser_payments (JsString.trim (JsString.toLowerCase (Payment.email p))) s) as H1.
  rewrite E1 in H1. cbn [snd] in H1.
  destruct (addTopUpCredits p _ u s1) as [u2 s2] eqn:E2.
  pose proof (addTopUpCredits_payments p (creditsToAdd q (Payment.amount p)) u s1) as H2.
  rewrite E2 in H2. cbn [snd] in H2.
  destruct (tiedToRequest p) as [rid|]; [|cbn [snd]; congruence].
  destruct (findRequestById rid s2) as [b|]; [|cbn [snd]; congruence].
  destruct (findOrCreateReport rid b s2) as [r s3] eqn:E3.
  pose proof (findOrCreateReport_payments rid b s2) as H3.
  rewrite E3 in H3. cbn [snd] in H3.
  destruct (deductUnlockCredit (Payment.requestId p) r u2 s3) as [u4 s4] eqn:E4.
  pose proof (deductUnlockCredit_payments (Payment.requestId p) r u2 s3) as H4.
  rewrite E4 in H4. cbn [snd] in H4.
  cbn [snd]. rewrite autoGenerateMatch_payments. cbn [saveReport payments]. congruence.
Qed.

Lemma processPurchase_payments now session p s :
  payments (processPurchase now session p s) = payments s.
Proof.
  unfold processPurchase.
  assert (H : payments (match findReportById (Payment.matchReportId p) s with
                        | Some r => saveReport (unlockReport (Payment._id p) now r) s
                        | None => s
                        end) = payments s) by now destruct findReportById.
  destruct (isSubscriptionPlan _); [|exact H].
  destruct (findOrNewUser _ _) as [u s1] eqn:E1.
  pose proof (f_equal (fun x => payments (snd x)) E1) as H1. cbn [snd] in H1.
  rewrite findOrNewUser_payments in H1.
  destruct (allocateSubscription _ _ _ _ _ _) as [u2 s2] eqn:E2.
  pose proof (f_equal (fun x => payments (snd x)) E2) as H2. cbn [snd] in H2.
  cbn [saveUser payments]. rewrite <- H2. cbn. congruence.
Qed.

(** [markSucceeded] keeps the keys under which a payment is looked up. *)
Lemma markSucceeded_keys stripe now session p :
  Payment.requestId (markSucceeded stripe now session p) = Payment.requestId p /\
  Payment.planType (markSucceeded stripe now session p) = Payment.planType p /\
  Payment.status (markSucceeded stripe now session p) = Succeeded.
Proof. unfold markSucceeded. split_matches; repeat split. Qed.

(** A stored payment that answers the filter built from the request id of
    the session is enough for the lookup of the webhook to succeed. *)
Lemma findPayment_found session s p rid :
  In p (payments s) ->
  Session.requestId (Session.metadata session) = Some rid ->
  JsString.truthy (Some rid) = true ->
  satisfies p (filterFor rid) = true ->
  findPayment session s <> None.
Proof.
  intros Hin Hrid Ht Hsat. unfold findPayment.
  destruct (if JsString.truthy (Session.id session) then _ else None); [discriminate|].
  unfold searchConditions. rewrite Hrid, Ht. cbn [app].
  intros Hnone.
  pose proof (find_none _ _ Hnone p Hin) as Hp. cbn [existsb] in Hp.
  now rewrite Hsat in Hp.
Qed.

Lemma handlePurchaseSession_found stripe matcher now session s :
  findPayment session s <> None ->
  handlePurchaseSession stripe matcher now session s = (s, ack).
Proof.
  intros H. unfold handlePurchaseSession.
  destruct (findPayment session s); [|contradiction].
  now destruct (Session.requestId (Session.metadata session)).
Qed.

Lemma savePayment_In p s : In p (payments (savePayment p s)).
Proof. apply upsert_In. Qed.

Lemma satisfies_keys p q f :
  Payment.requestId p = Payment.requestId q ->
  Payment.planType p = Payment.planType q ->
  satisfies p f = satisfies q f.
Proof. intros H1 H2. destruct f; simpl; now rewrite H1, ?H2. Qed.

(** Once the webhook has built a record from the session and worked on it,
    the lookup finds that record. *)
Lemma processed_then_found stripe matcher now session rid p s :
  Session.requestId (Session.metadata session) = Some rid ->
  JsString.truthy (Some rid) = true ->
  satisfies p (filterFor rid) = true ->
  let payment := markSucceeded stripe now session p in
  let s1 := savePayment payment s in
  findPayment session
    (if String.eqb (Payment.planType payment) "extra_credit"
     then snd (processTopUp false matcher now
                 (Session.quantity (Session.metadata session)) payment s1)
     else processPurchase now session payment s1) <> None.
Proof.
  intros Hrid Ht Hsat payment s1.
  destruct (markSucceeded_keys stripe now session p) as (Kr & Kp & _).
  apply (findPayment_found session _ payment rid); auto.
  - destruct (String.eqb _ _).
    + rewrite processTopUp_payments. apply savePayment_In.
    + rewrite processPurchase_payments. apply savePayment_In.
  - rewrite <- Hsat. now apply satisfies_keys.
Qed.

Lemma report_not_general rid s r :
  noGeneralReport s = true -> findReportByRequest rid s = Some r -> rid <> "general".
Proof.
  intros Hwf Hf. unfold findReportByRequest in Hf. apply find_some in Hf.
  destruct Hf as [Hin He]. apply String.eqb_eq in He.
  unfold noGeneralReport in Hwf. rewrite forallb_forall in Hwf.
  specialize (Hwf r Hin). rewrite He in Hwf.
  intros ->. discriminate.
Qed.

Lemma filterFor_request rid : rid <> "general" -> filterFor rid = ByRequestId rid.
Proof.
  intros H. unfold filterFor. destruct (String.eqb_spec rid "general"); congruence.
Qed.

(** The second delivery of a purchase session finds the store as the first
    one left it and changes nothing. *)
Lemma purchase_replay stripe1 stripe2 matcher1 matcher2 now1 now2 session s :
  noGeneralReport s = true ->
  let once := fst (handlePurchaseSession stripe1 matcher1 now1 session s) in
  handlePurchaseSession stripe2 matcher2 now2 session once = (once, ack).
Proof.
  intros Hwf once. unfold once. clear once.
  remember (handlePurchaseSession stripe1 matcher1 now1 session s) as first eqn:R.
  unfold handlePurchaseSession in R.
  destruct (findPayment session s) as [found|] eqn:F.
  { assert (E : first = (s, ack))
      by (now destruct (Session.requestId (Session.metadata session))).
    rewrite E. cbn [fst]. apply handlePurchaseSession_found. rewrite F. discriminate. }
  destruct (Session.requestId (Session.metadata session)) as [rid|] eqn:Hrid.
  2:{ rewrite R. cbn [fst]. unfold handlePurchaseSession. now rewrite F, Hrid. }
  destruct (JsString.truthy (Some rid)) eqn:Ht.
  2:{ rewrite R. cbn [fst]. unfold handlePurchaseSession. now rewrite F, Hrid, Ht. }
  destruct (JsString.optEqb (Session.planType (Session.metadata session))
                            (Some "extra_credit")) eqn:Hplan.
  - (* a top-up record is built *)
    destruct (createTopUpPayment now1 session rid s) as [p0 s0] eqn:C.
    assert (Hsat : satisfies p0 (filterFor rid) = true).
    { unfold createTopUpPayment in C. destruct (freshId s) as [i s'] in C.
      injection C as <- _. unfold filterFor.
      destruct (String.eqb rid "general"); cbn.
      - reflexivity.
      - apply String.eqb_refl. }
    pose proof (processed_then_found stripe1 matcher1 now1 session rid p0 s0 Hrid Ht Hsat)
      as Hfound. cbn zeta in Hfound.
    rewrite R.
    destruct (String.eqb (Payment.planType (markSucceeded stripe1 now1 session p0))
                         "extra_credit"); cbn [fst];
      now apply handlePurchaseSession_found.
  - (* a regular record is built, if the report exists *)
    destruct (createRegularPayment stripe1 now1 session rid s) as [[p0|] s0] eqn:C.
    + assert (Hsat : satisfies p0 (filterFor rid) = true).
      { unfold createRegularPayment in C.
        destruct (findReportByRequest rid s) as [r|] eqn:Rp; [|discriminate].
        pose proof (report_not_general rid s r Hwf Rp) as Hne.
        rewrite (filterFor_request rid Hne).
        destruct (JsString.orElse _ _); [|discriminate].
        destruct (freshId s) as [i s'] in C.
        injection C as <- _. cbn. apply String.eqb_refl. }
      pose proof (processed_then_found stripe1 matcher1 now1 session rid p0 s0 Hrid Ht Hsat)
        as Hfound. cbn zeta in Hfound.
      rewrite R.
      destruct (String.eqb (Payment.planType (markSucceeded stripe1 now1 session p0))
                           "extra_credit"); cbn [fst];
        now apply handlePurchaseSession_found.
    + (* nothing could be built: the store is as before, and the second
         delivery fails in the same way *)
      assert (s0 = s /\ createRegularPayment stripe2 now2 session rid s = (None, s))
        as [-> C2].
      { unfold createRegularPayment in *.
        destruct (findReportByRequest rid s); [|now injection C as <-].
        destruct (JsString.orElse _ _); [|now injection C as <-].
        destruct (freshId s). discriminate. }
      rewrite R. cbn [fst]. unfold handlePurchaseSession.
      now rewrite F, Hrid, Ht, Hplan, C2.
Qed.

(** The account that the managed-service branch verifies. *)
Lemma managed_fee_effect now session s ms :
  findManagedById (Session.requestId (Session.metadata session)) s = Some ms ->
  let e := JsString.trim (JsString.toLowerCase
             (orDefault (Session.customer_email session) (ManagedService.email ms))) in
  let u := match findUserByEmail e s with
           | None => User.create (nextId s) e true
           | Some u => User.set_isVerified true u
           end in
  let s' := fst (handleManagedServiceFee now session s) in
  users s' = upsert sameUser u (users s) /\
  creditTransactions s' = creditTransactions s /\
  matchReports s' = matchReports s /\
  (exists ms', findManagedById (Session.requestId (Session.metadata session)) s' = Some ms' /\
               ManagedService.email ms' = ManagedService.email ms).
Proof.
  intros M e u s'. unfold s', handleManagedServiceFee. rewrite M. fold e.
  assert (Hid : forall m, Session.requestId (Session.metadata session) = Some m ->
                          ManagedService._id ms = m).
  { intros m Hm. rewrite Hm in M. cbn in M. apply find_some in M.
    destruct M as [_ M]. now apply String.eqb_eq in M. }
  destruct (Session.requestId (Session.metadata session)) as [m|] eqn:Hm;
    [|discriminate].
  cbn in M. pose proof (Hid m eq_refl) as Hidm.
  unfold u.
  destruct (findUserByEmail e s) as [found|] eqn:F; cbn;
    (repeat split;
     lazymatch goal with
     | |- context [upsert sameManaged ?d _] =>
         exists d; split; [|reflexivity];
         apply (find_upsert_found sameManaged _ d ms); auto;
         [ unfold sameManaged; cbn; apply String.eqb_refl
         | cbn; rewrite Hidm; apply String.eqb_refl ]
     end).
Qed.

Lemma findUserByEmail_upsert e l u :
  User.email u = e ->
  (match find (fun x => String.eqb (User.email x) e) l with
   | Some x => User._id x = User._id u
   | None => True
   end) ->
  find (fun x => String.eqb (User.email x) e) (upsert sameUser u l) = Some u.
Proof.
  intros He Hid. destruct (find _ l) as [x|] eqn:F.
  - eapply find_upsert_found; eauto.
    + unfold sameUser. rewrite Hid. apply Nat.eqb_refl.
    + now apply String.eqb_eq.
  - apply find_upsert_new; auto. now apply String.eqb_eq.
Qed.

Lemma managed_fee_replay now1 now2 session s :
  let once := fst (handleManagedServiceFee now1 session s) in
  let twice := fst (handleManagedServiceFee now2 session once) in
  users twice = users once /\
  creditTransactions twice = creditTransactions once /\
  matchReports twice = matchReports once.
Proof.
  intros once twice.
  destruct (findManagedById (Session.requestId (Session.metadata session)) s)
    as [ms|] eqn:M.
  2:{ assert (E : forall now, fst (handleManagedServiceFee now session s) = s)
        by (intros now; unfold handleManagedServiceFee; now rewrite M).
      unfold twice, once. now rewrite !E. }
  destruct (managed_fee_effect now1 session s ms M) as (U1 & L1 & R1 & ms' & M1 & E1).
  fold once in U1, L1, R1, M1.
  destruct (managed_fee_effect now2 session once ms' M1) as (U2 & L2 & R2 & _).
  fold twice in U2, L2, R2. rewrite E1 in U2.
  split; [|split; assumption].
  rewrite U2.
  set (e := JsString.trim (JsString.toLowerCase
              (orDefault (Session.customer_email session) (ManagedService.email ms)))) in *.
  set (u := match findUserByEmail e s with
            | None => User.create (nextId s) e true
            | Some u => User.set_isVerified true u
            end) in *.
  assert (F : findUserByEmail e once = Some u).
  { unfold findUserByEmail. rewrite U1. apply findUserByEmail_upsert.
    - unfold u. destruct (findUserByEmail e s) as [x|] eqn:F; [|reflexivity].
      cbn. unfold findUserByEmail in F. apply find_some in F.
      now apply String.eqb_eq.
    - unfold u, findUserByEmail. now destruct (find _ (users s)). }
  rewrite F.
  assert (Hv : User.set_isVerified true u = u).
  { unfold u. now destruct (findUserByEmail e s). }
  rewrite Hv, U1. apply upsert_idem. apply sameUser_refl.
Qed.

Lemma savings_fee_frame now session s :
  let s' := fst (handleSavingsFee now session s) in
  users s' = users s /\ creditTransactions s' = creditTransactions s /\
  matchReports s' = matchReports s.
Proof.
  unfold handleSavingsFee.
  destruct (findManagedById _ s); cbn; auto.
Qed.

(** C1.  A [checkout.session.completed] event delivered twice leaves the
    accounts (balance and expiry with the rest of each account), the ledger
    and the match reports as a single delivery does: credits are granted once
    and the report is unlocked once.  For a report purchase or a top-up the
    second delivery changes nothing at all in the store.  Request ids are
    object ids, so that no report is filed under ["general"]. *)
Theorem webhook_replay_is_idempotent
    (stripe1 stripe2 : option StripeApi) (matcher1 matcher2 : Matcher)
    (now1 now2 : JsDate.t) (session : Session.t) (s : Store) :
  noGeneralReport s = true ->
  let event := Some (CheckoutSessionCompleted session) in
  let once := fst (handleWebhook stripe1 matcher1 now1 event s) in
  let twice := fst (handleWebhook stripe2 matcher2 now2 event once) in
  users twice = users once /\
  creditTransactions twice = creditTransactions once /\
  matchReports twice = matchReports once /\
  (isPurchaseSession session = true -> twice = once).
Proof.
  intros Hwf event once twice.
  unfold twice, once, event, handleWebhook, handleCheckoutCompleted, isPurchaseSession.
  destruct (JsString.optEqb (Session.type (Session.metadata session))
                            (Some "managed_service")).
  { destruct (managed_fee_replay now1 now2 session s) as (U & L & R).
    repeat split; auto. discriminate. }
  destruct (JsString.optEqb (Session.type (Session.metadata session))
                            (Some "managed_service_savings_fee")
            || JsString.optEqb (Session.paymentType (Session.metadata session))
                               (Some "savings_fee"))%bool.
  { destruct (savings_fee_frame now2 session (fst (handleSavingsFee now1 session s)))
      as (U & L & R).
    repeat split; auto. discriminate. }
  pose proof (purchase_replay stripe1 stripe2 matcher1 matcher2 now1 now2 session s Hwf)
    as H. cbn zeta in H. rewrite H. cbn [fst]. auto.
Qed.

(** ** Concrete runs of the handlers *)

(** C2.  The checkout of [Sample.oneTimeSession] was recorded as a pending
    payment under the session id.  The webhook finds that record, and for a
    record it has found it does nothing: the payment stays [pending] and the
    report stays [pending], where the claim has them [succeeded] and
    [unlocked]. *)
Theorem webhook_leaves_recorded_payment_pending :
  let event := Some (CheckoutSessionCompleted Sample.oneTimeSession) in
  let result := handleWebhook None Sample.matcher Sample.now event Sample.recorded in
  isPurchaseSession Sample.oneTimeSession = true /\
  findPayment Sample.oneTimeSession Sample.recorded = Some Sample.pendingPayment /\
  result = (Sample.recorded, ack) /\
  map Payment.status (payments (fst result)) = [Pending] /\
  map MatchReport.status (matchReports (fst result)) = [ReportPending].
Proof. vm_compute. repeat split. Qed.

(** C3.  Two runs in which the balance moves and the ledger does not.
    Sync-all, for a pending top-up of 20 dollars whose payment intent has
    succeeded, adds two credits without an entry; a paid renewal invoice sets
    the balance to 25 without an entry.  After either, the balance is no
    longer the starting balance plus the signed sum of the entries. *)
Theorem balance_moves_without_ledger_entry :
  let synced := fst (syncUserPayments (Some Sample.stripe) Sample.now 1
                                      Sample.awaitingSync) in
  let renewed := fst (handleWebhook None Sample.matcher Sample.now
                        (Some (InvoicePaymentSucceeded Sample.renewal))
                        Sample.subscribed) in
  (creditsOf 1 Sample.awaitingSync = 0 /\
   creditsOf 1 synced = 2 /\
   creditTransactions synced = creditTransactions Sample.awaitingSync /\
   creditsOf 1 synced <> creditsOf 1 Sample.awaitingSync + ledgerSum 1 synced) /\
  (creditsOf 1 Sample.subscribed = 0 /\
   creditsOf 1 renewed = 25 /\
   creditTransactions renewed = creditTransactions Sample.subscribed /\
   creditsOf 1 renewed <> creditsOf 1 Sample.subscribed + ledgerSum 1 renewed).
Proof. vm_compute. repeat split; discriminate. Qed.

(** ** Deductions and empty balances *)

Lemma writeReport_frame now id b r st c s :
  users (writeReport now id b r st c s) = users s /\
  creditTransactions (writeReport now id b r st c s) = creditTransactions s.
Proof. unfold writeReport. destruct r; cbn; auto. Qed.

(** C6, as stated, fails for [processMatching]: a subscriber without
    credits asks for a match, which costs a credit; the handler does not
    answer 400 but generates the match and answers 200. *)
Lemma matching_without_credits_is_served :
  let result := processMatching Sample.scoring Sample.now Sample.requestId (Some 1%nat)
                                Sample.subscribed in
  creditsOf 1 Sample.subscribed = 0 /\
  api_status (snd result) = 200%nat /\
  api_success (snd result) = true /\
  api_message (snd result) = "Match report generated successfully" /\
  api_status (snd result) <> 400%nat.
Proof. vm_compute. repeat split; discriminate. Qed.

(** C6, amended.  [unlockRequest], asked to unlock a report that is not
    unlocked yet for an account with less than one credit, answers 400
    "Insufficient match credits" (code NO_CREDITS) and leaves the store as it
    was.  [processMatching] and the unlock step of a top-up, met with a
    balance that is not positive, skip the deduction and go on: the accounts
    and the ledger stay as they were (for the top-up step, the whole store),
    and no 400 is answered. *)
Theorem empty_balance_is_never_overdrawn :
  (forall now id user s request report,
     find (fun b => andb (String.eqb (BuyerRequest._id b) id)
                         (String.eqb (BuyerRequest.email b) (User.email user)))
          (buyerRequests s) = Some request ->
     findReportByRequest id s = Some report ->
     MatchReport.status report <> ReportUnlocked ->
     User.matchCredits user < 1 ->
     unlockRequest now id user s =
     (s, mkApi 400 false "Insufficient match credits" (Some "NO_CREDITS") None None)) /\
  (forall scoring now id reqUser s,
     match reqUser with
     | Some uid => creditsOf uid s <= 0
     | None => True
     end ->
     let result := processMatching scoring now id reqUser s in
     users (fst result) = users s /\
     creditTransactions (fst result) = creditTransactions s /\
     api_status (snd result) <> 400%nat) /\
  (forall rid report user s,
     User.matchCredits user <= 0 ->
     deductUnlockCredit rid report user s = (user, s)).
Proof.
  split; [|split].
  - intros now id user s request report Hreq Hrep Hst Hc.
    unfold unlockRequest. rewrite Hreq, Hrep.
    destruct (ReportStatus_eqb (MatchReport.status report) ReportUnlocked) eqn:E.
    { destruct (MatchReport.status report); try discriminate. contradiction. }
    destruct (Z.ltb_spec (User.matchCredits user) 1); [|lia].
    now rewrite orb_true_r.
  - intros scoring now id reqUser s Hc result. unfold result, processMatching.
    destruct (findRequestById id s) as [b|]; [|cbn; repeat split; discriminate].
    destruct (match findReportByRequest id s with
              | Some r => ReportStatus_eqb (MatchReport.status r) ReportCompleted
              | None => false
              end); [cbn; repeat split; discriminate|].
    set (user := match reqUser with Some uid => findUserById uid s | None => None end).
    assert (Hu : match user with
                 | Some u => User.matchCredits u <= 0
                 | None => True
                 end).
    { unfold user. destruct reqUser as [uid|]; [|exact I].
      unfold creditsOf in Hc. now destruct (findUserById uid s). }
    destruct (negb (match user with Some u => hasActivePlan now u | None => false end)).
    + destruct (ruleBased scoring b); cbn [fst snd];
        try (repeat split; discriminate).
      destruct (writeReport_frame now id b (findReportByRequest id s) ReportPending
                                  generated s) as [H1 H2].
      repeat split; auto. discriminate.
    + destruct (aiBased scoring b); cbn [fst snd];
        try (repeat split; discriminate).
      assert (E : match user with
                  | Some u =>
                      if 0 <? User.matchCredits u
                      then createTransaction
                             (CreditTransaction.mk
                                (User._id (User.set_matchCredits (User.matchCredits u - 1) u))
                                (Some id)
                                (option_map MatchReport._id (findReportByRequest id s))
                                (User.email (User.set_matchCredits (User.matchCredits u - 1) u))
                                1 (User.matchCredits u)
                                (User.matchCredits
                                   (User.set_matchCredits (User.matchCredits u - 1) u))
                                Deducted MatchGeneration)
                             (saveUser (User.set_matchCredits (User.matchCredits u - 1) u) s)
                      else s
                  | None => s
                  end = s).
      { destruct user as [u|]; [|reflexivity].
        destruct (Z.ltb_spec 0 (User.matchCredits u)); [lia|reflexivity]. }
      rewrite E.
      match goal with
      | |- context [writeReport now id b ?r ?st generated s] =>
          destruct (writeReport_frame now id b r st generated s) as [H1 H2]
      end.
      cbn [saveRequest users creditTransactions].
      repeat split; auto. discriminate.
  - intros rid report user s Hc. unfold deductUnlockCredit.
    destruct (Z.ltb_spec 0 (User.matchCredits user)); [lia|reflexivity].
Qed.

(** ** Strings *)

Lemma lowerChar_idem c : JsString.lowerChar (JsString.lowerChar c) = JsString.lowerChar c.
Proof. destruct c as [[] [] [] [] [] [] [] []]; reflexivity. Qed.

Lemma isSpace_lowerChar c : JsString.isSpace (JsString.lowerChar c) = JsString.isSpace c.
Proof. destruct c as [[] [] [] [] [] [] [] []]; reflexivity. Qed.

Lemma toLowerCase_idem s :
  JsString.toLowerCase (JsString.toLowerCase s) = JsString.toLowerCase s.
Proof. induction s as [|c r IH]; simpl; [reflexivity|]. now rewrite lowerChar_idem, IH. Qed.

Lemma toLowerCase_trimStart s :
  JsString.toLowerCase (JsString.trimStart s) = JsString.trimStart (JsString.toLowerCase s).
Proof.
  induction s as [|c r IH]; simpl; [reflexivity|].
  rewrite isSpace_lowerChar. now destruct (JsString.isSpace c).
Qed.

Lemma toLowerCase_trimEnd s :
  JsString.toLowerCase (JsString.trimEnd s) = JsString.trimEnd (JsString.toLowerCase s).
Proof.
  induction s as [|c r IH]; simpl; [reflexivity|].
  rewrite <- IH, isSpace_lowerChar.
  destruct (JsString.trimEnd r); simpl; [now destruct (JsString.isSpace c)|reflexivity].
Qed.

Lemma trimEnd_idem s : JsString.trimEnd (JsString.trimEnd s) = JsString.trimEnd s.
Proof.
  induction s as [|c r IH]; simpl; [reflexivity|].
  destruct (JsString.trimEnd r) as [|c' r'] eqn:E.
  - destruct (JsString.isSpace c) eqn:S; simpl; [reflexivity|now rewrite S].
  - change (JsString.trimEnd (String c (String c' r'))) with
      (match JsString.trimEnd (String c' r') with
       | EmptyString => if JsString.isSpace c then EmptyString else String c EmptyString
       | x => String c x
       end).
    now rewrite IH.
Qed.

Lemma trimStart_trimmed s : trimmedStart (JsString.trimStart s).
Proof.
  induction s as [|c r IH]; simpl; [exact I|].
  destruct (JsString.isSpace c) eqn:S; [exact IH|exact S].
Qed.

Lemma trimStart_fixed s : trimmedStart s -> JsString.trimStart s = s.
Proof. destruct s as [|c r]; simpl; [reflexivity|]. now intros ->. Qed.

Lemma trimEnd_trimmed s : trimmedStart s -> trimmedStart (JsString.trimEnd s).
Proof.
  destruct s as [|c r]; simpl; [auto|]. intros S.
  destruct (JsString.trimEnd r); simpl; [now rewrite S|exact S].
Qed.

Lemma trim_idem s : JsString.trim (JsString.trim s) = JsString.trim s.
Proof.
  unfold JsString.trim.
  rewrite (trimStart_fixed (JsString.trimEnd (JsString.trimStart s))).
  - apply trimEnd_idem.
  - apply trimEnd_trimmed, trimStart_trimmed.
Qed.

Lemma toLowerCase_trim s :
  JsString.toLowerCase (JsString.trim s) = JsString.trim (JsString.toLowerCase s).
Proof. unfold JsString.trim. now rewrite toLowerCase_trimEnd, toLowerCase_trimStart. Qed.

(** An address normalised once is not changed by normalising it again. *)
Lemma normalise_idem s :
  JsString.trim (JsString.toLowerCase (JsString.trim (JsString.toLowerCase s))) =
  JsString.trim (JsString.toLowerCase s).
Proof. now rewrite toLowerCase_trim, toLowerCase_idem, trim_idem. Qed.

(** ** Base64url *)

Lemma unbase64_char (n : nat) :
  (n < 64)%nat ->
  Base64Url.unbase64 (Base64Url.char (Z.of_nat n)) = Some (Z.of_nat n) /\
  Ascii.eqb (Base64Url.char (Z.of_nat n)) "=" = false.
Proof.
  intros H.
  do 64 (destruct n as [|n]; [split; reflexivity|]). lia.
Qed.

Lemma sextets_char v r :
  0 <= v < 64 ->
  Base64Url.sextets (String (Base64Url.char v) r) = v :: Base64Url.sextets r.
Proof.
  intros H. destruct (unbase64_char (Z.to_nat v)) as [U E]; [lia|].
  rewrite Z2Nat.id in U, E by lia. cbn [Base64Url.sextets]. now rewrite E, U.
Qed.

Lemma decode_encode_upto (n : nat) (bs : list Z) :
  (List.length bs <= n)%nat -> Forall isByte bs ->
  Base64Url.decode (Base64Url.encode bs) = bs.
Proof.
  unfold Base64Url.decode, isByte. revert bs.
  induction n as [|n IH]; intros bs Hlen Hb.
  - destruct bs; [reflexivity|simpl in Hlen; lia].
  - destruct bs as [|a [|b [|c r]]].
    + reflexivity.
    + inversion_clear Hb as [|? ? Ha _].
      cbn [Base64Url.encode]. rewrite !sextets_char.
      * cbn. f_equal. Z.to_euclidean_division_equations; lia.
      * Z.to_euclidean_division_equations; lia.
      * Z.to_euclidean_division_equations; lia.
    + inversion_clear Hb as [|? ? Ha Hb']. inversion_clear Hb' as [|? ? Hb _].
      cbn [Base64Url.encode]. rewrite !sextets_char.
      * cbn. f_equal; [|f_equal]; Z.to_euclidean_division_equations; lia.
      * Z.to_euclidean_division_equations; lia.
      * Z.to_euclidean_division_equations; lia.
      * Z.to_euclidean_division_equations; lia.
    + inversion_clear Hb as [|? ? Ha Hb']. inversion_clear Hb' as [|? ? Hb Hc'].
      inversion_clear Hc' as [|? ? Hc Hr].
      cbn [Base64Url.encode]. rewrite !sextets_char.
      * cbn [Base64Url.bytes]. rewrite IH.
        -- f_equal; [|f_equal; [|f_equal]]; Z.to_euclidean_division_equations; lia.
        -- simpl in Hlen. lia.
        -- exact Hr.
      * Z.to_euclidean_division_equations; lia.
      * Z.to_euclidean_division_equations; lia.
      * Z.to_euclidean_division_equations; lia.
      * Z.to_euclidean_division_equations; lia.
Qed.

(** Decoding gives back the bytes that were encoded. *)
Lemma decode_encode (bs : list Z) :
  Forall isByte bs -> Base64Url.decode (Base64Url.encode bs) = bs.
Proof. apply (decode_encode_upto (List.length bs)). lia. Qed.

Lemma bytesOfString_bytes s : Forall isByte (bytesOfString s).
Proof.
  unfold bytesOfString, isByte. apply Forall_forall. intros b Hb.
  apply in_map_iff in Hb. destruct Hb as (c & <- & _).
  pose proof (nat_ascii_bounded c). lia.
Qed.

Lemma stringOfBytes_bytesOfString s : stringOfBytes (bytesOfString s) = s.
Proof.
  unfold stringOfBytes, bytesOfString. rewrite map_map.
  rewrite (map_ext _ (fun c => c)).
  - rewrite map_id. apply string_of_list_ascii_of_string.
  - intros c. rewrite Nat2Z.id. apply ascii_nat_embedding.
Qed.

(** ** Splitting a token at the dot *)

Lemma split_noDot s : noDot s -> TokenService.split s = [s].
Proof.
  induction s as [|c r IH]; simpl; [reflexivity|].
  intros [Hc Hr]. now rewrite Hc, IH.
Qed.

Lemma split_app a b :
  noDot a -> TokenService.split (a ++ String "." b) = a :: TokenService.split b.
Proof.
  induction a as [|c r IH]; simpl; [reflexivity|].
  intros [Hc Hr]. now rewrite Hc, IH.
Qed.

Lemma char_noDot v : Ascii.eqb (Base64Url.char v) "." = false.
Proof.
  unfold Base64Url.char.
  assert (H : Forall (fun c => Ascii.eqb c "." = false) Base64Url.alphabet)
    by (repeat constructor).
  rewrite Forall_forall in H.
  destruct (nth_in_or_default (Z.to_nat v) Base64Url.alphabet "_"%char) as [Hin| ->].
  - now apply H.
  - reflexivity.
Qed.

Lemma encode_noDot_upto n bs : (List.length bs <= n)%nat -> noDot (Base64Url.encode bs).
Proof.
  revert bs. induction n as [|n IH]; intros bs Hlen.
  - destruct bs; [exact I|simpl in Hlen; lia].
  - destruct bs as [|a [|b [|c r]]]; cbn [Base64Url.encode noDot];
      repeat split; try apply char_noDot.
    apply IH. simpl in Hlen. lia.
Qed.

Lemma encode_noDot bs : noDot (Base64Url.encode bs).
Proof. apply (encode_noDot_upto (List.length bs)). lia. Qed.

Lemma hexDigit_noDot v : Ascii.eqb (Sha256.hexDigit v) "." = false.
Proof.
  unfold Sha256.hexDigit.
  assert (H : Forall (fun c => Ascii.eqb c "." = false)
                     (list_ascii_of_string "0123456789abcdef"))
    by (repeat constructor).
  rewrite Forall_forall in H.
  destruct (nth_in_or_default (Z.to_nat v) (list_ascii_of_string "0123456789abcdef")
                              "f"%char) as [Hin| ->].
  - now apply H.
  - reflexivity.
Qed.

Lemma hex_noDot bs : noDot (Sha256.hex bs).
Proof.
  induction bs as [|b r IH]; cbn [Sha256.hex noDot]; auto using hexDigit_noDot.
Qed.

Lemma encode_nonempty bs : bs <> [] -> Base64Url.encode bs <> EmptyString.
Proof. destruct bs as [|a [|b [|c r]]]; [congruence| | |]; discriminate. Qed.

Lemma bytesOf_length n x : List.length (Sha256.bytesOf n x) = n.
Proof.
  revert x. induction n as [|n IH]; intros x; cbn [Sha256.bytesOf]; [reflexivity|].
  rewrite length_app, IH. simpl. lia.
Qed.

Lemma digest_length msg : List.length (Sha256.digest msg) = 32%nat.
Proof. unfold Sha256.digest. now rewrite !length_app, !bytesOf_length. Qed.

Lemma signature_nonempty secret text : TokenService.signature secret text <> EmptyString.
Proof.
  unfold TokenService.signature, Sha256.hmac.
  match goal with |- Sha256.hex (Sha256.digest ?m) <> _ =>
    pose proof (digest_length m) as H; destruct (Sha256.digest m) end.
  - discriminate.
  - discriminate.
Qed.

(** ** JSON text of a payload *)

Lemma string_app_assoc (a b c : string) : ((a ++ b) ++ c = a ++ (b ++ c))%string.
Proof. induction a as [|x a IH]; simpl; [reflexivity|now rewrite IH]. Qed.

Lemma append_String c a b : (String c a ++ b)%string = String c (a ++ b)%string.
Proof. reflexivity. Qed.

Lemma parseChars_escapeChar c rest :
  Json.parseChars (Json.escapeChar c ++ rest) = Json.cons c (Json.parseChars rest).
Proof. destruct c as [[] [] [] [] [] [] [] []]; reflexivity. Qed.

Lemma parseChars_escape s rest :
  Json.parseChars (Json.escape s ++ String Json.dquote rest) = Some (s, rest).
Proof.
  induction s as [|c r IH]; [reflexivity|].
  cbn [Json.escape]. rewrite string_app_assoc.
  now rewrite parseChars_escapeChar, IH.
Qed.

Lemma parseChars_quoted s rest :
  Json.parseChars ((Json.escape s ++ String Json.dquote EmptyString) ++ rest) =
  Some (s, rest).
Proof. rewrite string_app_assoc. apply parseChars_escape. Qed.

(** A quoted string is read back, whatever follows it. *)
Lemma parseValue_quote k s rest :
  Json.parseValue (S k) (Json.quote s ++ rest) = Some (Json.Str s, rest).
Proof.
  unfold Json.quote. rewrite append_String.
  cbn [Json.parseValue Json.skipWs].
  change (Json.isWs Json.dquote) with false. cbv iota.
  change (Ascii.eqb Json.dquote "{") with false.
  change (Ascii.eqb Json.dquote "[") with false.
  change (Ascii.eqb Json.dquote Json.dquote) with true. cbv iota.
  now rewrite parseChars_quoted.
Qed.

(** Tests on given characters, evaluated. *)
Ltac char_tests :=
  repeat match goal with
         | |- context [Ascii.eqb ?a ?b] =>
             let v := eval vm_compute in (Ascii.eqb a b) in
             match v with
             | true => change (Ascii.eqb a b) with true
             | false => change (Ascii.eqb a b) with false
             end
         | |- context [Json.isWs ?a] =>
             let v := eval vm_compute in (Json.isWs a) in
             match v with
             | true => change (Json.isWs a) with true
             | false => change (Json.isWs a) with false
             end
         end; cbv iota.

Lemma parseValue_null k rest :
  Json.parseValue (S k) ("null" ++ rest) = Some (Json.Null, rest).
Proof.
  cbn [Json.parseValue Json.skipWs append]. char_tests.
  unfold Json.literal. cbn [Json.dropPrefix]. now char_tests.
Qed.

(** Decimal digits. *)
Lemma spanDigits_uint d rest :
  match rest with
  | String c _ => Json.isDigit c = false
  | EmptyString => True
  end ->
  Json.spanDigits (NilEmpty.string_of_uint d ++ rest) = (NilEmpty.string_of_uint d, rest).
Proof.
  intros Hrest. induction d; cbn [NilEmpty.string_of_uint append Json.spanDigits];
    try (change (Json.isDigit _) with true; cbv iota; now rewrite IHd).
  destruct rest as [|c r]; [reflexivity|]. cbn [Json.spanDigits]. now rewrite Hrest.
Qed.

Lemma to_uint_head p :
  exists c r, NilEmpty.string_of_uint (Pos.to_uint p) = String c r /\
              Ascii.eqb c "0" = false /\ Ascii.eqb c "-" = false.
Proof.
  pose proof (DecimalPos.Unsigned.to_uint_nonnil p) as Hnil.
  assert (Hn : Pos.to_uint p = Decimal.nzhead (Pos.to_uint p)).
  { pose proof (DecimalPos.Unsigned.to_of (Pos.to_uint p)) as H.
    rewrite DecimalPos.Unsigned.of_to in H. cbn in H.
    rewrite H at 1. apply DecimalFacts.unorm_nzhead.
    intros E. apply DecimalFacts.unorm_0 in E. rewrite <- H in E.
    now apply (DecimalPos.Unsigned.to_uint_nonzero p). }
  pose proof (DecimalFacts.nzhead_nonzero (Pos.to_uint p)) as Hz.
  rewrite <- Hn in Hz.
  destruct (Pos.to_uint p) as [|d|d|d|d|d|d|d|d|d|d]; try congruence;
    try (eexists; eexists; split; [reflexivity|split; reflexivity]).
Qed.

(** The time stamp of a token is read back when a [}] follows it. *)
Lemma parseValue_number k n rest :
  0 <= n ->
  Json.parseValue (S k) (Json.number n ++ String "}" rest) =
  Some (Json.Number n, String "}" rest).
Proof.
  intros Hn. unfold Json.number.
  assert (Hspan : forall d,
             Json.spanDigits (NilEmpty.string_of_uint d ++ String "}" rest) =
             (NilEmpty.string_of_uint d, String "}" rest))
    by (intros d; now apply spanDigits_uint).
  destruct n as [|p|p]; [reflexivity| |lia].
  cbn [Z.to_int NilZero.string_of_int].
  pose proof (DecimalPos.Unsigned.to_uint_nonnil p) as Hnil.
  assert (E : NilZero.string_of_uint (Pos.to_uint p) =
              NilEmpty.string_of_uint (Pos.to_uint p))
    by (destruct (Pos.to_uint p); try reflexivity; congruence).
  rewrite E.
  destruct (to_uint_head p) as (c & r & Hs & H0 & Hm).
  pose proof (Hspan (Pos.to_uint p)) as Hsp.
  pose proof (NilZero.isi (Z.to_int (Zpos p))) as Hisi.
  cbn [Z.to_int NilZero.string_of_int] in Hisi. rewrite E in Hisi.
  pose proof (DecimalZ.of_to (Zpos p)) as Hof. cbn [Z.to_int] in Hof.
  (* the first character is a digit other than zero *)
  assert (Hd : Json.isDigit c = true).
  { pose proof (Hspan (Pos.to_uint p)) as H. rewrite Hs in H.
    cbn [append Json.spanDigits] in H.
    destruct (Json.isDigit c); [reflexivity|]. discriminate. }
  revert Hsp Hisi. rewrite Hs. intros Hsp Hisi.
  cbn [append Json.parseValue Json.skipWs].
  assert (Hws : Json.isWs c = false).
  { clear - Hd. destruct c as [[] [] [] [] [] [] [] []]; try reflexivity; discriminate. }
  rewrite Hws.
  assert (Hc : Ascii.eqb c "{" = false /\ Ascii.eqb c "[" = false /\
               Ascii.eqb c Json.dquote = false /\ Ascii.eqb c "t" = false /\
               Ascii.eqb c "f" = false /\ Ascii.eqb c "n" = false).
  { clear - Hd. destruct c as [[] [] [] [] [] [] [] []];
      try (repeat split; reflexivity); discriminate. }
  destruct Hc as (-> & -> & -> & -> & -> & ->).
  unfold Json.parseNumber.
  assert (Hsign : match String c (r ++ String "}" rest) with
                  | String "-" r0 => ("-", r0)
                  | _ => (EmptyString, String c (r ++ String "}" rest))
                  end = (EmptyString, String c (r ++ String "}" rest))).
  { clear - Hm. destruct c as [[] [] [] [] [] [] [] []]; try reflexivity; discriminate. }
  rewrite Hsign. cbn [append] in Hsp. rewrite Hsp.
  assert (Hwf : match String c r with
                | EmptyString => false
                | String "0" (String _ _) => false
                | _ => true
                end = true).
  { clear - H0. destruct c as [[] [] [] [] [] [] [] []]; try reflexivity;
      try discriminate. }
  rewrite Hwf. cbn [andb negb Ascii.eqb orb].
  change (Ascii.eqb "}" ".") with false. change (Ascii.eqb "}" "e") with false.
  change (Ascii.eqb "}" "E") with false. cbn [orb negb].
  cbn [append]. rewrite Hisi.
  - now rewrite Hof.
  - intros Hx. injection Hx as Hx. now rewrite Hx in Hnil.
  - discriminate.
Qed.

Lemma parseMembers_more k key v text rest acc :
  Json.parseValue k (text ++ String "," rest) = Some (v, String "," rest) ->
  Json.parseMembers (S k) (Json.quote key ++ String ":" (text ++ String "," rest)) acc =
  Json.parseMembers k rest (acc ++ [(key, v)])%list.
Proof.
  intros H. unfold Json.quote. rewrite append_String.
  cbn [Json.parseMembers Json.skipWs]. char_tests.
  rewrite parseChars_quoted. cbn [Json.skipWs]. char_tests.
  rewrite H. cbn [Json.skipWs]. now char_tests.
Qed.

Lemma parseMembers_last k key v text rest acc :
  Json.parseValue k (text ++ String "}" rest) = Some (v, String "}" rest) ->
  Json.parseMembers (S k) (Json.quote key ++ String ":" (text ++ String "}" rest)) acc =
  Some (Json.Object (acc ++ [(key, v)])%list, rest).
Proof.
  intros H. unfold Json.quote. rewrite append_String.
  cbn [Json.parseMembers Json.skipWs]. char_tests.
  rewrite parseChars_quoted. cbn [Json.skipWs]. char_tests.
  rewrite H. cbn [Json.skipWs]. now char_tests.
Qed.

Lemma parseValue_requestId k requestId rest :
  Json.parseValue (S k) (Json.stringify (requestIdJson requestId) ++ rest) =
  Some (requestIdJson requestId, rest).
Proof.
  unfold requestIdJson.
  destruct requestId as [r|]; [destruct (JsString.truthy (Some r))|];
    cbn [Json.stringify]; auto using parseValue_quote, parseValue_null.
Qed.

Lemma stringify_payload issued email requestId type :
  Json.stringify (TokenService.payloadOf issued email requestId type) =
  String "{"
    (Json.quote "email" ++ String ":"
       (Json.quote (JsString.trim (JsString.toLowerCase email)) ++ String ","
          (Json.quote "requestId" ++ String ":"
             (Json.stringify (requestIdJson requestId) ++ String ","
                (Json.quote "type" ++ String ":"
                   (Json.quote type ++ String ","
                      (Json.quote "timestamp" ++ String ":"
                         (Json.number issued ++ String "}" EmptyString)))))))).
Proof.
  unfold TokenService.payloadOf. fold (requestIdJson requestId).
  cbn [Json.stringify]. cbn [append].
  repeat (rewrite string_app_assoc || rewrite append_String). reflexivity.
Qed.

(** [JSON.parse(JSON.stringify(payload))] is the payload again. *)
Lemma parse_payload issued email requestId type :
  0 <= issued ->
  Json.parse (Json.stringify (TokenService.payloadOf issued email requestId type)) =
  Some (TokenService.payloadOf issued email requestId type).
Proof.
  intros Hissued. unfold Json.parse. rewrite stringify_payload.
  set (text := String "{" _).
  assert (Hfuel : exists k, S (String.length text) = S (S (S (S (S (S k)))))).
  { unfold text. unfold Json.quote at 1. cbn [String.length append Json.escape Json.escapeChar].
    eexists. reflexivity. }
  destruct Hfuel as [k ->]. unfold text. clear text.
  cbn [Json.parseValue Json.skipWs]. char_tests.
  assert (Hfirst : forall r,
            match Json.skipWs (Json.quote "email" ++ r) with
            | String "}" r1 => Some (Json.Object [], r1)
            | _ => Json.parseMembers (S (S (S (S (S k))))) (Json.quote "email" ++ r) []
            end = Json.parseMembers (S (S (S (S (S k))))) (Json.quote "email" ++ r) [])
    by reflexivity.
  rewrite Hfirst.
  rewrite (parseMembers_more _ "email" (Json.Str (JsString.trim (JsString.toLowerCase email))))
    by apply parseValue_quote.
  rewrite (parseMembers_more _ "requestId" (requestIdJson requestId))
    by apply parseValue_requestId.
  rewrite (parseMembers_more _ "type" (Json.Str type)) by apply parseValue_quote.
  rewrite (parseMembers_last _ "timestamp" (Json.Number issued))
    by now apply parseValue_number.
  reflexivity.
Qed.

(** ** Tokens *)

Lemma eqb_empty_false s : s <> EmptyString -> String.eqb s EmptyString = false.
Proof. intros H. now apply String.eqb_neq. Qed.

Lemma payload_nonempty issued email requestId type :
  bytesOfString (Json.stringify (TokenService.payloadOf issued email requestId type)) <> [].
Proof. now rewrite stringify_payload. Qed.

Lemma signature_noDot secret text : noDot (TokenService.signature secret text).
Proof. apply hex_noDot. Qed.

(** What [verifyToken] comes to on a token of [generateToken]: the format,
    the decoding, the parsing and the signature are in order, and the answer
    rests on the address, the request id, the type and the age. *)
Lemma verifyToken_generated secret issued now email requestId type
      expectedEmail expectedRequestId expectedType :
  0 <= issued ->
  TokenService.verifyToken secret now
    (TokenService.generateToken secret issued email requestId type)
    expectedEmail expectedRequestId expectedType =
  if negb (String.eqb
             (JsString.trim (JsString.toLowerCase
                (JsString.trim (JsString.toLowerCase email))))
             (JsString.trim (JsString.toLowerCase expectedEmail)))
  then TokenService.Invalid "Email mismatch"
  else if match expectedRequestId with
          | Some r => andb (JsString.truthy expectedRequestId)
                           (negb (TokenService.jsonEqb (Some (requestIdJson requestId)) r))
          | None => false
          end
  then TokenService.Invalid "Request ID mismatch"
  else if negb (String.eqb type expectedType)
  then TokenService.Invalid "Token type mismatch"
  else if match TokenService.expiryTime expectedType with
          | TokenService.Millis expiry => Z.gtb (now - issued) expiry
          | TokenService.NotANumber => false
          end
  then TokenService.Invalid "Token expired"
  else TokenService.Valid (Json.Str (JsString.trim (JsString.toLowerCase email)))
                          (Some (requestIdJson requestId)) (Json.Str expectedType).
Proof.
  intros Hissued. unfold TokenService.verifyToken, TokenService.generateToken.
  set (payload := TokenService.payloadOf issued email requestId type).
  set (text := Json.stringify payload).
  cbn [append].
  rewrite (split_app _ _ (encode_noDot _)).
  rewrite (split_noDot _ (signature_noDot secret text)).
  cbn [nth_error].
  assert (Hne : Base64Url.encode (bytesOfString text) <> EmptyString)
    by apply encode_nonempty, payload_nonempty.
  rewrite (eqb_empty_false _ Hne).
  rewrite (eqb_empty_false _ (signature_nonempty secret text)).
  cbn [orb].
  rewrite (decode_encode _ (bytesOfString_bytes text)), stringOfBytes_bytesOfString.
  assert (Hparse : Json.parse text = Some payload) by now apply parse_payload.
  rewrite Hparse, String.eqb_refl. cbn [negb].
  change (Json.get "email" payload)
    with (Some (Json.Str (JsString.trim (JsString.toLowerCase email)))).
  change (Json.get "requestId" payload) with (Some (requestIdJson requestId)).
  change (Json.get "type" payload) with (Some (Json.Str type)).
  change (Json.get "timestamp" payload) with (Some (Json.Number issued)).
  cbn [TokenService.jsonEqb TokenService.toNumber].
  destruct (negb (String.eqb _ (JsString.trim (JsString.toLowerCase expectedEmail))));
    [reflexivity|].
  destruct (match expectedRequestId with Some _ => _ | None => false end); [reflexivity|].
  destruct (String.eqb_spec type expectedType) as [->|]; cbn [negb]; [|reflexivity].
  reflexivity.
Qed.



(** ** Top-ups tied to a request *)





Lemma findReportByRequest_saved rid r r0 s :
  MatchReport.requestId r = rid ->
  (findReportByRequest rid s = Some r0 /\ MatchReport._id r0 = MatchReport._id r \/
   findReportByRequest rid s = None) ->
  findReportByRequest rid (saveReport r s) = Some r.
Proof.
  intros Hrid H. unfold findReportByRequest, saveReport in *. cbn [matchReports].
  destruct H as [[Hf Hid]|Hf].
  - apply (find_upsert_found sameReport _ r r0); auto.
    + unfold sameReport. rewrite Hid. apply Nat.eqb_refl.
    + now apply String.eqb_eq.
  - apply find_upsert_new; auto. now apply String.eqb_eq.
Qed.








(** ** The properties at work on the sample marketplace *)

(** The top-up of [Sample.topUpSession], delivered twice to a store without
    a report filed under ["general"]. *)
Lemma webhook_replay_is_idempotent_witness :
  noGeneralReport Sample.subscribed = true /\
  fst (handleWebhook None Sample.matcher Sample.now
         (Some (CheckoutSessionCompleted Sample.topUpSession))
         (fst (handleWebhook None Sample.matcher Sample.now
                 (Some (CheckoutSessionCompleted Sample.topUpSession))
                 Sample.subscribed))) =
  fst (handleWebhook None Sample.matcher Sample.now
         (Some (CheckoutSessionCompleted Sample.topUpSession)) Sample.subscribed).
Proof.
  split; [reflexivity|].
  apply (webhook_replay_is_idempotent None None Sample.matcher Sample.matcher
           Sample.now Sample.now Sample.topUpSession Sample.subscribed eq_refl).
  reflexivity.
Defined.

(** The professional plan bought by an account with five credits: 18. *)
Lemma rollover_on_subscription_payment_witness :
  isSubscriptionPlan (Payment.planType Sample.subscriptionPayment) = true /\
  exists user,
    findUserByEmail Sample.buyer
      (processPurchase Sample.now Sample.subscriptionSession Sample.subscriptionPayment
                       Sample.fresh) = Some user /\
    User.matchCredits user = 18.
Proof.
  split; [reflexivity|].
  destruct (rollover_on_subscription_payment Sample.now Sample.subscriptionSession
              Sample.subscriptionPayment Sample.fresh eq_refl)
    as ((user & Hfound & Hrolled & _) & _).
  exists user. split; [exact Hfound|].
  apply Hrolled. split; reflexivity.
Defined.


(** An account without credits asks to unlock the report of its request. *)
Lemma empty_balance_is_never_overdrawn_witness :
  User.matchCredits Sample.subscriber < 1 /\
  unlockRequest Sample.now Sample.requestId Sample.subscriber Sample.subscribed =
  (Sample.subscribed,
   mkApi 400 false "Insufficient match credits" (Some "NO_CREDITS") None None).
Proof.
  split; [reflexivity|].
  apply (proj1 empty_balance_is_never_overdrawn Sample.now Sample.requestId
           Sample.subscriber Sample.subscribed Sample.request Sample.report);
    [reflexivity|reflexivity|discriminate|reflexivity].
Defined.



(** Sync-one for the request of a purchase that has been paid. *)
Lemma sync_of_succeeded_payment_is_noop_witness :
  latestPaymentFor Sample.requestId Sample.newcomer Sample.settled =
    Some Sample.paidPayment /\
  Payment.status Sample.paidPayment = Succeeded /\
  syncPaymentStatus None Sample.matcher Sample.now Sample.requestId Sample.newcomer
                    Sample.settled =
  (Sample.settled,
   mkApi 200 true "Payment already processed" None (Some Sample.paidPayment) None).
Proof.
  split; [reflexivity|split; [reflexivity|]].
  exact (proj2 (sync_of_succeeded_payment_is_noop None Sample.matcher Sample.now
                  Sample.requestId Sample.newcomer Sample.settled Sample.paidPayment
                  eq_refl eq_refl)).
Defined.

(** The renewal invoice of the subscriber's subscription. *)
Lemma invoice_payment_resets_credits_witness :
  JsString.truthy (invoice_subscription Sample.renewal) = true /\
  findUserBySubscription (invoice_subscription Sample.renewal) Sample.subscribed =
    Some Sample.subscriber /\
  findUserById 1
    (fst (handleWebhook None Sample.matcher Sample.now
            (Some (InvoicePaymentSucceeded Sample.renewal)) Sample.subscribed)) =
  Some (User.set_subscriptionStatus SubActive
          (User.set_matchCredits 25 Sample.subscriber)).
Proof.
  split; [reflexivity|split; [reflexivity|]].
  exact (proj1 (proj2 (proj2 (invoice_payment_resets_credits None Sample.matcher
                                Sample.now Sample.renewal Sample.subscribed
                                Sample.subscriber eq_refl (or_introl eq_refl))))).
Defined.

(** * Further properties of the handlers *)

(** ** The expiry of a subscription *)

Lemma compare_later a b : b < a -> Z.compare a b = Gt.
Proof. intros H. now apply Z.compare_gt_iff. Qed.

(** One month after a valid date is a valid date, and a later one: a day
    that the following month does not have runs over into the month after. *)
Lemma setMonth_later (x : JsDate.t) :
  JsDate.valid x ->
  JsDate.valid (JsDate.setMonth x (JsDate.getMonth x + 1)) /\
  JsDate.gtb (JsDate.setMonth x (JsDate.getMonth x + 1)) x = true.
Proof.
  destruct x as [y m d ms]. intros (Hm & Hd & Hms). cbn in Hm, Hd, Hms.
  unfold JsDate.setMonth, JsDate.getMonth. cbn [JsDate.year JsDate.month JsDate.date JsDate.msOfDay].
  pose proof (daysInMonth_bounds y m) as Bm.
  destruct (Z.eq_dec m 11) as [->|Hne].
  - (* December: January of the following year has the day *)
    unfold JsDate.makeDate.
    change ((11 + 1) / 12) with 1. change ((11 + 1) mod 12) with 0.
    assert (E : JsDate.daysInMonth (y + 1) 0 = 31) by reflexivity.
    rewrite rollDays_fits by lia.
    split.
    + unfold JsDate.valid. cbn. lia.
    + unfold JsDate.gtb. cbn. now rewrite (compare_later (y + 1) y) by lia.
  - destruct (Z.le_gt_cases d (JsDate.daysInMonth y (m + 1))) as [Hfit|Hover].
    + rewrite makeDate_fits by lia. split.
      * unfold JsDate.valid. cbn. lia.
      * unfold JsDate.gtb. cbn. rewrite Z.compare_refl.
        now rewrite (compare_later (m + 1) m) by lia.
    + (* the day does not exist in the following month *)
      pose proof (daysInMonth_bounds y (m + 1)) as B1.
      pose proof (daysInMonth_bounds y (m + 2)) as B2.
      assert (Hm10 : m + 1 <> 11).
      { intros E. rewrite E in Hover. change (JsDate.daysInMonth y 11) with 31 in Hover. lia. }
      unfold JsDate.makeDate.
      rewrite Z.div_small, Z.mod_small, Z.add_0_r by lia.
      destruct (Z.to_nat d) as [|[|k]] eqn:Ek; [lia|lia|].
      cbn [JsDate.rollDays].
      destruct (Z.leb_spec d (JsDate.daysInMonth y (m + 1))); [lia|].
      destruct (Z.eqb_spec (m + 1) 11); [lia|].
      destruct (Z.leb_spec (d - JsDate.daysInMonth y (m + 1))
                           (JsDate.daysInMonth y (m + 1 + 1))) as [_|Hbad];
        [|replace (m + 1 + 1) with (m + 2) in Hbad by lia; lia].
      replace (m + 1 + 1) with (m + 2) by lia.
      split.
      * unfold JsDate.valid. cbn. lia.
      * unfold JsDate.gtb. cbn. rewrite Z.compare_refl.
        now rewrite (compare_later (m + 2) m) by lia.
Qed.

(** One year after a valid date is a valid date, and a later one: 29
    February becomes 1 March. *)
Lemma setFullYear_later (x : JsDate.t) :
  JsDate.valid x ->
  JsDate.valid (JsDate.setFullYear x (JsDate.getFullYear x + 1)) /\
  JsDate.gtb (JsDate.setFullYear x (JsDate.getFullYear x + 1)) x = true.
Proof.
  destruct x as [y m d ms]. intros (Hm & Hd & Hms). cbn in Hm, Hd, Hms.
  unfold JsDate.setFullYear, JsDate.getFullYear.
  cbn [JsDate.year JsDate.month JsDate.date JsDate.msOfDay].
  destruct (Z.le_gt_cases d (JsDate.daysInMonth (y + 1) m)) as [Hfit|Hover].
  - rewrite makeDate_fits by lia. split.
    + unfold JsDate.valid. cbn. lia.
    + unfold JsDate.gtb. cbn. now rewrite (compare_later (y + 1) y) by lia.
  - (* only February differs from one year to the next *)
    assert (Hfeb : m = 1).
    { unfold JsDate.daysInMonth in Hd, Hover.
      destruct (Z.eqb_spec m 1); [assumption|]. lia. }
    subst m.
    pose proof (daysInMonth_bounds y 1) as B0.
    pose proof (daysInMonth_bounds (y + 1) 1) as B1.
    assert (E2 : JsDate.daysInMonth (y + 1) 2 = 31) by reflexivity.
    unfold JsDate.makeDate.
    change (1 / 12) with 0. change (1 mod 12) with 1. rewrite Z.add_0_r.
    destruct (Z.to_nat d) as [|[|k]] eqn:Ek; [lia|lia|].
    cbn [JsDate.rollDays].
    destruct (Z.leb_spec d (JsDate.daysInMonth (y + 1) 1)); [lia|].
    change (1 =? 11) with false. cbn iota.
    change (1 + 1) with 2.
    destruct (Z.leb_spec (d - JsDate.daysInMonth (y + 1) 1)
                         (JsDate.daysInMonth (y + 1) 2)) as [_|Hbad]; [|lia].
    split.
    + unfold JsDate.valid.
      cbn [JsDate.year JsDate.month JsDate.date JsDate.msOfDay]. rewrite E2. lia.
    + unfold JsDate.gtb. cbn. now rewrite (compare_later (y + 1) y) by lia.
Qed.

Lemma subscriptionExpiry_later planType now previous :
  isSubscriptionPlan planType = true ->
  JsDate.valid now ->
  exists expiry,
    subscriptionExpiry planType now previous = Some expiry /\
    JsDate.valid expiry /\ JsDate.gtb expiry now = true.
Proof.
  intros Hsub Hvalid. unfold isSubscriptionPlan in Hsub. cbn [existsb] in Hsub.
  unfold subscriptionExpiry.
  destruct (String.eqb_spec planType "starter_monthly") as [->|_].
  { eexists. split; [reflexivity|]. now apply setMonth_later. }
  destruct (String.eqb_spec planType "starter_annual") as [->|_].
  { eexists. split; [reflexivity|]. now apply setFullYear_later. }
  destruct (String.eqb_spec planType "professional_monthly") as [->|_].
  { eexists. split; [reflexivity|]. now apply setMonth_later. }
  destruct (String.eqb_spec planType "professional_annual") as [->|_].
  { eexists. split; [reflexivity|]. now apply setFullYear_later. }
  discriminate.
Qed.

(** X1.  The subscription block of the handlers leaves the account active
    at the time of the allocation, whatever it held before: the status is
    [active] and the expiry is a valid date later than [now], so that the
    test [hasActivePlan] of the matching endpoints passes at once.  This
    holds for the block of the webhook and sync-one and for the block that
    sync-all runs on the account of the request. *)
Theorem subscription_is_active_once_allocated
    (planType : string) (customer subscription : option string) (now : JsDate.t)
    (user : User.t) (payment : Payment.t) (s : Store) :
  isSubscriptionPlan planType = true ->
  JsDate.valid now ->
  Payment.planType payment = planType ->
  let allocated := fst (allocateSubscription planType customer subscription now user s) in
  let activated := activateOnAccount now payment s user in
  hasActivePlan now allocated = true /\
  hasActivePlan now activated = true /\
  exists expiry,
    User.subscriptionExpiresAt allocated = Some expiry /\
    User.subscriptionExpiresAt activated = Some expiry /\
    JsDate.valid expiry /\ JsDate.gtb expiry now = true.
Proof.
  intros Hsub Hvalid Hplan allocated activated.
  destruct (subscriptionExpiry_later planType now (User.subscriptionExpiresAt user)
              Hsub Hvalid) as (expiry & He & Hv & Hg).
  assert (Ha : User.subscriptionExpiresAt allocated = Some expiry) by exact He.
  assert (Hb : User.subscriptionExpiresAt activated = Some expiry).
  { unfold activated, activateOnAccount. rewrite Hplan.
    destruct (JsString.truthy (Payment.stripeCustomerId payment)); exact He. }
  assert (Sa : User.subscriptionStatus allocated = SubActive) by reflexivity.
  assert (Sb : User.subscriptionStatus activated = SubActive).
  { unfold activated, activateOnAccount.
    destruct (JsString.truthy (Payment.stripeCustomerId payment)); reflexivity. }
  repeat split.
  - unfold hasActivePlan. now rewrite Sa, Ha, Hg.
  - unfold hasActivePlan. now rewrite Sb, Hb, Hg.
  - exists expiry. auto.
Qed.

Lemma subscription_is_active_once_allocated_witness :
  isSubscriptionPlan "professional_monthly" = true /\
  JsDate.valid (JsDate.mk 2025 0 31 0) /\
  User.subscriptionExpiresAt
    (fst (allocateSubscription "professional_monthly" None None (JsDate.mk 2025 0 31 0)
            Sample.newcomer Sample.fresh)) = Some (JsDate.mk 2025 2 3 0) /\
  hasActivePlan (JsDate.mk 2025 0 31 0)
    (fst (allocateSubscription "professional_monthly" None None (JsDate.mk 2025 0 31 0)
            Sample.newcomer Sample.fresh)) = true.
Proof.
  assert (Hvalid : JsDate.valid (JsDate.mk 2025 0 31 0)).
  { unfold JsDate.valid. cbn. repeat split; discriminate. }
  split; [reflexivity|split; [exact Hvalid|split; [reflexivity|]]].
  exact (proj1 (subscription_is_active_once_allocated "professional_monthly" None None
                  (JsDate.mk 2025 0 31 0) Sample.newcomer Sample.subscriptionPayment
                  Sample.fresh eq_refl Hvalid eq_refl)).
Defined.

(** ** Plan types and the catalogue *)

Lemma beforeChar_suffixed base suffix :
  JsString.includesChar "_" base = false ->
  JsString.includesChar "_" (base ++ String "_" suffix) = true /\
  JsString.beforeChar "_" (base ++ String "_" suffix) = base.
Proof.
  induction base as [|c r IH];
    cbn [JsString.includesChar JsString.beforeChar append]; intros H.
  { rewrite Ascii.eqb_refl. split; reflexivity. }
  destruct (Ascii.eqb "_" c); [discriminate|].
  destruct (IH H) as [I B]. now rewrite I, B.
Qed.

Lemma dbPlanType_suffixed base suffix :
  JsString.includesChar "_" base = false ->
  dbPlanType (base ++ String "_" suffix) = base.
Proof.
  intros H. unfold dbPlanType. destruct (beforeChar_suffixed base suffix H) as [-> ->].
  reflexivity.
Qed.

(** Two names of the form [base_suffix] are equal when both parts are. *)
Lemma eqb_suffixed base suffix name other :
  JsString.includesChar "_" base = false ->
  JsString.includesChar "_" name = false ->
  String.eqb (base ++ String "_" suffix) (name ++ String "_" other) =
  andb (String.eqb base name) (String.eqb suffix other).
Proof.
  revert name. induction base as [|c r IH]; intros [|d n];
    cbn [JsString.includesChar append String.eqb andb]; intros Hb Hn.
  - now rewrite Ascii.eqb_refl.
  - destruct (Ascii.eqb "_" d) eqn:E; [discriminate|]. reflexivity.
  - destruct (Ascii.eqb "_" c) eqn:E; [discriminate|].
    rewrite Ascii.eqb_sym, E. reflexivity.
  - destruct (Ascii.eqb "_" c); [discriminate|].
    destruct (Ascii.eqb "_" d); [discriminate|].
    destruct (Ascii.eqb c d); [now apply IH|reflexivity].
Qed.

(** X2.  The entitlement of a plan does not depend on its billing period.
    For a plan name without an underscore, the monthly and the annual plan
    type are looked up in the catalogue under that name, so that both grant
    the same credits and the same roll-over, from the catalogue or, when it
    has no active plan of the name, from the built-in defaults. *)
Theorem plan_entitlement_ignores_billing_period (base : string) (s : Store) :
  JsString.includesChar "_" base = false ->
  findActivePlan (base ++ "_monthly") s =
    find (fun p => andb (String.eqb (Plan.planType p) base) (Plan.isActive p)) (plans s) /\
  findActivePlan (base ++ "_annual") s = findActivePlan (base ++ "_monthly") s /\
  getCreditsForPlan (base ++ "_annual") s = getCreditsForPlan (base ++ "_monthly") s /\
  getMaxRolloverCredits (base ++ "_annual") s =
    getMaxRolloverCredits (base ++ "_monthly") s.
Proof.
  intros H.
  assert (Fm : findActivePlan (base ++ "_monthly") s =
               find (fun p => andb (String.eqb (Plan.planType p) base) (Plan.isActive p))
                    (plans s)).
  { unfold findActivePlan. now rewrite (dbPlanType_suffixed base "monthly" H). }
  assert (Fa : findActivePlan (base ++ "_annual") s = findActivePlan (base ++ "_monthly") s).
  { rewrite Fm. unfold findActivePlan. now rewrite (dbPlanType_suffixed base "annual" H). }
  assert (E : forall suffix name other,
             JsString.includesChar "_" name = false ->
             String.eqb (base ++ String "_" suffix) (name ++ String "_" other) =
             andb (String.eqb base name) (String.eqb suffix other))
    by (intros; now apply eqb_suffixed).
  split; [exact Fm|split; [exact Fa|]].
  unfold getCreditsForPlan, getMaxRolloverCredits. rewrite Fa.
  destruct (findActivePlan (base ++ "_monthly") s); [split; reflexivity|].
  change "starter_monthly" with ("starter" ++ String "_" "monthly").
  change "starter_annual" with ("starter" ++ String "_" "annual").
  change "professional_monthly" with ("professional" ++ String "_" "monthly").
  change "professional_annual" with ("professional" ++ String "_" "annual").
  rewrite !E by reflexivity.
  cbn [String.eqb Ascii.eqb Bool.eqb andb orb].
  rewrite !andb_true_r, !andb_false_r, !orb_false_r. cbn [orb].
  split; reflexivity.
Qed.

Lemma plan_entitlement_ignores_billing_period_witness :
  JsString.includesChar "_" "professional" = false /\
  getCreditsForPlan "professional_annual" Sample.fresh = 15 /\
  getCreditsForPlan "professional_annual" Sample.fresh =
    getCreditsForPlan "professional_monthly" Sample.fresh.
Proof.
  split; [reflexivity|split; [reflexivity|]].
  exact (proj1 (proj2 (proj2 (plan_entitlement_ignores_billing_period
                                "professional" Sample.fresh eq_refl)))).
Defined.

(** ** The ledger under the handlers *)



(** Case analysis on the tests of a handler, innermost first. *)
Ltac split_inner :=
  repeat match goal with
         | |- context [match ?x with _ => _ end] =>
             lazymatch x with
             | context [match _ with _ => _ end] => fail
             | _ => destruct x eqn:?
             end;
             cbn [fst snd] in *
         end.























(** ** Unlocking with a credit *)

Lemma optEqb_refl o : JsString.optEqb o o = true.
Proof. destruct o; cbn; [apply String.eqb_refl|reflexivity]. Qed.

Lemma optDateEqb_refl o : optDateEqb o o = true.
Proof. destruct o; cbn; [now rewrite !Z.eqb_refl|reflexivity]. Qed.

Lemma SubscriptionStatus_eqb_refl x : SubscriptionStatus_eqb x x = true.
Proof. now destruct x. Qed.

(** Only the balance is written when only the balance was assigned. *)
Lemma writePaths_credits (user stored : User.t) (credits : Z) :
  credits <> User.matchCredits user ->
  writePaths (modifiedPaths user (User.set_matchCredits credits user))
             (User.set_matchCredits credits user) stored =
  User.set_matchCredits credits stored.
Proof.
  intros H. unfold modifiedPaths, writePaths.
  cbn [User.isVerified User.subscriptionStatus User.subscriptionPlan
       User.subscriptionExpiresAt User.stripeCustomerId User.stripeSubscriptionId
       User.matchCredits User.set_matchCredits User._id User.email
       m_isVerified m_subscriptionStatus m_subscriptionPlan m_subscriptionExpiresAt
       m_stripeCustomerId m_stripeSubscriptionId m_matchCredits].
  rewrite Bool.eqb_reflx, SubscriptionStatus_eqb_refl, !optEqb_refl, optDateEqb_refl.
  destruct (Z.eqb_spec (User.matchCredits user) credits); [congruence|].
  reflexivity.
Qed.

Lemma find_map_kept {A} (key : A -> bool) (f : A -> A) (l : list A) :
  (forall x, key (f x) = key x) ->
  find key (map f l) = option_map f (find key l).
Proof.
  intros H. induction l as [|x r IH]; cbn; [reflexivity|].
  rewrite H. destruct (key x); [reflexivity|exact IH].
Qed.

Lemma findUserById_saveUserPaths m current s stored :
  findUserById (User._id current) s = Some stored ->
  findUserById (User._id current) (saveUserPaths m current s) =
  Some (writePaths m current stored).
Proof.
  intros H. unfold findUserById, saveUserPaths in *. cbn [users].
  rewrite find_map_kept.
  - rewrite H. cbn [option_map].
    apply find_some in H. destruct H as [_ Hid].
    unfold sameUser. now rewrite Hid.
  - intros x. destruct (sameUser x current); reflexivity.
Qed.

(** The store and the answer of a successful unlock. *)
Lemma unlockRequest_success now id user s request report :
  find (fun b => andb (String.eqb (BuyerRequest._id b) id)
                      (String.eqb (BuyerRequest.email b) (User.email user)))
       (buyerRequests s) = Some request ->
  findReportByRequest id s = Some report ->
  MatchReport.status report <> ReportUnlocked ->
  1 <= User.matchCredits user ->
  let credits := User.matchCredits user in
  let charged := User.set_matchCredits (credits - 1) user in
  unlockRequest now id user s =
  (saveReport (MatchReport.set_unlockedAt (Some now)
                 (MatchReport.set_status ReportUnlocked report))
     (createTransaction
        (CreditTransaction.mk (User._id user) (Some id)
           (Some (MatchReport._id report)) (User.email user) 1 credits
           (credits - 1) Deducted UnlockRequest)
        (saveUserPaths (modifiedPaths user charged) charged s)),
   mkApi 200 true "Request unlocked successfully" None None (Some (credits - 1))).
Proof.
  intros Hreq Hrep Hst Hc credits charged.
  assert (Hno : ReportStatus_eqb (MatchReport.status report) ReportUnlocked = false).
  { destruct (MatchReport.status report); try reflexivity. contradiction. }
  assert (Hhas : orb (Z.eqb credits 0) (Z.ltb credits 1) = false).
  { apply orb_false_iff. split; [apply Z.eqb_neq|apply Z.ltb_ge]; unfold credits; lia. }
  unfold unlockRequest. rewrite Hreq, Hrep, Hno. fold credits. rewrite Hhas.
  reflexivity.
Qed.

(** X4.  Unlocking a report with a credit charges exactly once.  For a
    request of the user whose report is not unlocked yet and a balance of at
    least one, [unlockRequest] answers 200 with the remaining credits, writes
    one deducted/unlock_request entry, stores the balance of the user
    document of the call less one, and leaves the report [unlocked]; asked
    again for the same request it answers that the request is already
    unlocked and changes nothing. *)
Theorem unlock_with_credit_charges_exactly_once
    (now later : JsDate.t) (id : string) (user : User.t) (s : Store)
    (request : BuyerRequest.t) (report : MatchReport.t) :
  find (fun b => andb (String.eqb (BuyerRequest._id b) id)
                      (String.eqb (BuyerRequest.email b) (User.email user)))
       (buyerRequests s) = Some request ->
  findReportByRequest id s = Some report ->
  MatchReport.status report <> ReportUnlocked ->
  1 <= User.matchCredits user ->
  let credits := User.matchCredits user in
  let result := unlockRequest now id user s in
  let charged := User.set_matchCredits (credits - 1) user in
  snd result = mkApi 200 true "Request unlocked successfully" None None
                     (Some (credits - 1)) /\
  creditTransactions (fst result) =
    (creditTransactions s ++
     [CreditTransaction.mk (User._id user) (Some id) (Some (MatchReport._id report))
        (User.email user) 1 credits (credits - 1) Deducted UnlockRequest])%list /\
  (forall stored,
     findUserById (User._id user) s = Some stored ->
     findUserById (User._id user) (fst result) =
     Some (User.set_matchCredits (credits - 1) stored)) /\
  findReportByRequest id (fst result) =
    Some (MatchReport.set_unlockedAt (Some now)
            (MatchReport.set_status ReportUnlocked report)) /\
  unlockRequest later id charged (fst result) =
    (fst result, mkApi 200 true "Request already unlocked" None None None).
Proof.
  intros Hreq Hrep Hst Hc credits result charged.
  assert (Hrid : MatchReport.requestId report = id).
  { unfold findReportByRequest in Hrep. apply find_some in Hrep.
    now apply String.eqb_eq. }
  set (unlocked := MatchReport.set_unlockedAt (Some now)
                     (MatchReport.set_status ReportUnlocked report)).
  pose proof (unlockRequest_success now id user s request report Hreq Hrep Hst Hc) as R.
  cbv zeta in R. fold credits in R. fold charged in R. fold unlocked in R.
  fold result in R.
  rewrite R. cbn [fst snd].
  assert (Hfound : findReportByRequest id
                     (saveReport unlocked
                        (createTransaction
                           (CreditTransaction.mk (User._id user) (Some id)
                              (Some (MatchReport._id report)) (User.email user) 1 credits
                              (credits - 1) Deducted UnlockRequest)
                           (saveUserPaths (modifiedPaths user charged) charged s))) =
                   Some unlocked).
  { apply (findReportByRequest_saved id unlocked report); [exact Hrid|].
    left. split; [exact Hrep|reflexivity]. }
  split; [reflexivity|split; [reflexivity|split; [|split; [exact Hfound|]]]].
  - intros stored Hs.
    change (findUserById (User._id charged)
              (saveUserPaths (modifiedPaths user charged) charged s) =
            Some (User.set_matchCredits (credits - 1) stored)).
    rewrite (findUserById_saveUserPaths _ charged s stored Hs).
    unfold charged. rewrite writePaths_credits by (unfold credits; lia). reflexivity.
  - unfold unlockRequest at 1.
    cbn [buyerRequests saveReport createTransaction saveUserPaths].
    change (User.email charged) with (User.email user). rewrite Hreq, Hfound.
    reflexivity.
Qed.

Lemma unlock_with_credit_charges_exactly_once_witness :
  1 <= User.matchCredits Sample.newcomer /\
  snd (unlockRequest Sample.now Sample.requestId Sample.newcomer Sample.fresh) =
  mkApi 200 true "Request unlocked successfully" None None (Some 4).
Proof.
  assert (H : 1 <= User.matchCredits Sample.newcomer) by (cbn; discriminate).
  split; [exact H|].
  refine (proj1 (unlock_with_credit_charges_exactly_once Sample.now Sample.now
                   Sample.requestId Sample.newcomer Sample.fresh Sample.request
                   Sample.report eq_refl eq_refl _ H)).
  discriminate.
Defined.

(** ** Generating a match *)




(** The report of the request after "create or update match report". *)
Lemma writeReport_found now id request status generated s :
  let s' := writeReport now id request (findReportByRequest id s) status generated s in
  exists r,
    findReportByRequest id s' = Some r /\
    MatchReport.status r = status /\ MatchReport.content r = generated /\
    MatchReport.generatedAt r = Some now /\
    (forall r0, findReportByRequest id s = Some r0 ->
                r = MatchReport.set_content generated (Some now)
                      (MatchReport.set_status status r0)).
Proof.
  unfold writeReport. destruct (findReportByRequest id s) as [r0|] eqn:F.
  - exists (MatchReport.set_content generated (Some now)
              (MatchReport.set_status status r0)).
    split; [|split; [reflexivity|split; [reflexivity|split; [reflexivity|]]];
             intros r1 E; now injection E as <-].
    apply (findReportByRequest_saved id _ r0).
    + unfold findReportByRequest in F. apply find_some in F. now apply String.eqb_eq.
    + left. split; [exact F|reflexivity].
  - cbn [freshId].
    exists (MatchReport.mk (nextId s) id (Some (BuyerRequest.email request)) status
              generated (Some now) None None).
    split; [|split; [reflexivity|split; [reflexivity|split; [reflexivity|discriminate]]]].
    apply (findReportByRequest_saved id _ (MatchReport.mk 0 id None status generated None
                                             None None)); [reflexivity|].
    right. exact F.
Qed.

Lemma writeReport_rest now id request report status generated s :
  let s' := writeReport now id request report status generated s in
  users s' = users s /\ payments s' = payments s /\
  creditTransactions s' = creditTransactions s /\ buyerRequests s' = buyerRequests s.
Proof. unfold writeReport. destruct report; cbn; auto. Qed.



(** X6.  Without an active plan the matching endpoint never touches
    credits, and it puts the report back to [pending].  For a visitor or an
    account whose plan is not active, a rule-based match that succeeds is
    stored as the report of the request with status [pending], also when the
    report had been [unlocked] or [paid] before; accounts, payments, ledger
    and requests stay as they were. *)
Theorem fallback_match_leaves_report_pending
    (scoring : Scoring) (now : JsDate.t) (id : string) (reqUser : option nat)
    (s : Store) (request : BuyerRequest.t) (generated : ReportContent) :
  findRequestById id s = Some request ->
  (forall r, findReportByRequest id s = Some r ->
             MatchReport.status r <> ReportCompleted) ->
  (forall uid user, reqUser = Some uid -> findUserById uid s = Some user ->
                    hasActivePlan now user = false) ->
  ruleBased scoring request = Matched generated ->
  let result := processMatching scoring now id reqUser s in
  snd result = plain 200 true "Fallback match generated successfully" /\
  users (fst result) = users s /\ payments (fst result) = payments s /\
  creditTransactions (fst result) = creditTransactions s /\
  buyerRequests (fst result) = buyerRequests s /\
  exists r, findReportByRequest id (fst result) = Some r /\
            MatchReport.status r = ReportPending /\
            MatchReport.content r = generated /\
            (forall r0, findReportByRequest id s = Some r0 ->
                        r = MatchReport.set_content generated (Some now)
                              (MatchReport.set_status ReportPending r0)).
Proof.
  intros Hreq Hrep Hplan Hrule result.
  assert (Hnot : match findReportByRequest id s with
                 | Some r => ReportStatus_eqb (MatchReport.status r) ReportCompleted
                 | None => false
                 end = false).
  { destruct (findReportByRequest id s) as [r|] eqn:F; [|reflexivity].
    specialize (Hrep r eq_refl). destruct (MatchReport.status r); try reflexivity.
    contradiction. }
  assert (Hno : match match reqUser with
                      | Some uid => findUserById uid s
                      | None => None
                      end with
                | Some u => hasActivePlan now u
                | None => false
                end = false).
  { destruct reqUser as [uid|]; [|reflexivity].
    destruct (findUserById uid s) as [u|] eqn:F; [|reflexivity].
    exact (Hplan uid u eq_refl F). }
  assert (R : result =
              (writeReport now id request (findReportByRequest id s) ReportPending
                           generated s,
               plain 200 true "Fallback match generated successfully")).
  { unfold result, processMatching. rewrite Hreq, Hnot, Hno, Hrule. reflexivity. }
  rewrite R. cbn [fst snd].
  destruct (writeReport_rest now id request (findReportByRequest id s) ReportPending
              generated s) as (Wu & Wp & Wl & Wb).
  destruct (writeReport_found now id request ReportPending generated s)
    as (r & Hr & Hrs & Hrc & _ & Hprev).
  repeat split; auto. exists r. auto.
Qed.

Lemma fallback_match_leaves_report_pending_witness :
  findRequestById Sample.requestId Sample.settled = Some Sample.request /\
  map MatchReport.status (matchReports Sample.settled) = [ReportUnlocked] /\
  exists r,
    findReportByRequest Sample.requestId
      (fst (processMatching Sample.scoring Sample.now Sample.requestId None
              Sample.settled)) = Some r /\
    MatchReport.status r = ReportPending.
Proof.
  split; [reflexivity|split; [reflexivity|]].
  destruct (fallback_match_leaves_report_pending Sample.scoring Sample.now
              Sample.requestId None Sample.settled Sample.request Sample.generated
              eq_refl) as (_ & _ & _ & _ & _ & r & Hr & Hs & _).
  - intros r E. cbv in E. injection E as <-. discriminate.
  - discriminate.
  - reflexivity.
  - exists r. split; assumption.
Defined.

(** ** Tokens *)

Lemma requestId_accepted requestId :
  match requestId with
  | Some r => andb (JsString.truthy requestId)
                   (negb (TokenService.jsonEqb (Some (requestIdJson requestId)) r))
  | None => false
  end = false.
Proof.
  unfold requestIdJson. destruct requestId as [r|]; [|reflexivity].
  destruct (JsString.truthy (Some r)); [|reflexivity].
  cbn. now rewrite String.eqb_refl.
Qed.

Lemma requestId_refused requestId other :
  other <> EmptyString -> requestId <> Some other ->
  andb (JsString.truthy (Some other))
       (negb (TokenService.jsonEqb (Some (requestIdJson requestId)) other)) = true.
Proof.
  intros Hne Hdiff. unfold JsString.truthy. rewrite (eqb_empty_false other Hne).
  cbn [negb andb]. unfold requestIdJson.
  destruct requestId as [r|]; [|reflexivity].
  destruct (JsString.truthy (Some r)); [|reflexivity].
  cbn. destruct (String.eqb_spec r other); [congruence|reflexivity].
Qed.

(** X7.  A token opens only what it was issued for.  Presented with the
    e-mail it was issued to, a token of [generateToken] is refused with
    "Request ID mismatch" for every other request id that is expected, and
    with "Token type mismatch" for the request it was issued for under any
    other type; when no request id is expected, the request id of the token
    is not looked at. *)
Theorem token_is_bound_to_request_and_type
    (secret email : string) (requestId : option string) (type : string)
    (issued now : Z) :
  0 <= issued ->
  let token := TokenService.generateToken secret issued email requestId type in
  (forall other expectedType,
     other <> EmptyString -> requestId <> Some other ->
     TokenService.verifyToken secret now token email (Some other) expectedType =
     TokenService.Invalid "Request ID mismatch") /\
  (forall expectedType,
     expectedType <> type ->
     TokenService.verifyToken secret now token email requestId expectedType =
     TokenService.Invalid "Token type mismatch") /\
  (forall expectedType,
     TokenService.verifyToken secret now token email None expectedType =
     TokenService.verifyToken secret now token email requestId expectedType /\
     TokenService.verifyToken secret now token email (Some EmptyString) expectedType =
     TokenService.verifyToken secret now token email requestId expectedType).
Proof.
  intros Hissued token. unfold token.
  split; [|split].
  - intros other expectedType Hne Hdiff.
    rewrite verifyToken_generated by exact Hissued.
    rewrite normalise_idem, String.eqb_refl. cbn [negb].
    now rewrite (requestId_refused requestId other Hne Hdiff).
  - intros expectedType Hdiff.
    rewrite verifyToken_generated by exact Hissued.
    rewrite normalise_idem, String.eqb_refl, requestId_accepted. cbn [negb].
    destruct (String.eqb_spec type expectedType); [congruence|reflexivity].
  - intros expectedType.
    rewrite !verifyToken_generated by exact Hissued.
    rewrite requestId_accepted. split; reflexivity.
Qed.

Lemma token_is_bound_to_request_and_type_witness :
  0 <= SampleToken.issued /\
  TokenService.verifyToken SampleToken.secret (SampleToken.issued + 1000)
    (TokenService.generateToken SampleToken.secret SampleToken.issued "a@b.com"
                                (Some "R1") "verification")
    "a@b.com" (Some "R1") "payment" =
  TokenService.Invalid "Token type mismatch".
Proof.
  assert (H : 0 <= SampleToken.issued) by (unfold SampleToken.issued; discriminate).
  split; [exact H|].
  apply (proj1 (proj2 (token_is_bound_to_request_and_type SampleToken.secret "a@b.com"
                         (Some "R1") "verification" SampleToken.issued
                         (SampleToken.issued + 1000) H))).
  discriminate.
Defined.

(** X8.  Each type of token has its own lifetime.  A token verified for
    the e-mail, request and type it was issued for is valid up to and
    including the lifetime of its type and expired after it: thirty days for
    [payment], one day for [verification], seven days for [accountSetup], one
    hour for [passwordReset], and thirty days for a type that the table does
    not know.  A type named like a member of [Object.prototype] reads a
    function from the table, and its tokens never expire. *)
Theorem token_lifetime_depends_on_type
    (secret email : string) (requestId : option string) (type : string)
    (issued now : Z) :
  0 <= issued ->
  let verdict :=
    TokenService.verifyToken secret now
      (TokenService.generateToken secret issued email requestId type)
      email requestId type in
  let valid :=
    TokenService.Valid (Json.Str (JsString.trim (JsString.toLowerCase email)))
                       (Some (requestIdJson requestId)) (Json.Str type) in
  let lifetime :=
    if String.eqb type "verification" then 24 * 60 * 60 * 1000
    else if String.eqb type "accountSetup" then 7 * 24 * 60 * 60 * 1000
    else if String.eqb type "passwordReset" then 60 * 60 * 1000
    else thirtyDays in
  (existsb (String.eqb type) TokenService.inherited = false ->
   (now - issued <= lifetime -> verdict = valid) /\
   (lifetime < now - issued -> verdict = TokenService.Invalid "Token expired")) /\
  (existsb (String.eqb type) TokenService.inherited = true -> verdict = valid).
Proof.
  intros Hissued verdict valid lifetime.
  assert (V : verdict =
              if match TokenService.expiryTime type with
                 | TokenService.Millis expiry => Z.gtb (now - issued) expiry
                 | TokenService.NotANumber => false
                 end
              then TokenService.Invalid "Token expired" else valid).
  { unfold verdict. rewrite verifyToken_generated by exact Hissued.
    rewrite normalise_idem, !String.eqb_refl, requestId_accepted. reflexivity. }
  split.
  - intros Hown.
    assert (E : TokenService.expiryTime type = TokenService.Millis lifetime).
    { unfold TokenService.expiryTime, lifetime. rewrite Hown.
      destruct (String.eqb_spec type "payment") as [->|]; [reflexivity|].
      destruct (String.eqb_spec type "verification"); [reflexivity|].
      destruct (String.eqb_spec type "accountSetup"); [reflexivity|].
      destruct (String.eqb_spec type "passwordReset"); reflexivity. }
    rewrite V, E. split; intros H.
    + destruct (Z.gtb_spec (now - issued) lifetime); [lia|reflexivity].
    + destruct (Z.gtb_spec (now - issued) lifetime); [reflexivity|lia].
  - intros Hinh.
    assert (E : TokenService.expiryTime type = TokenService.NotANumber).
    { unfold TokenService.expiryTime. rewrite Hinh.
      unfold TokenService.inherited in Hinh. cbn [existsb] in Hinh.
      destruct (String.eqb_spec type "payment") as [->|]; [discriminate|].
      destruct (String.eqb_spec type "verification") as [->|]; [discriminate|].
      destruct (String.eqb_spec type "accountSetup") as [->|]; [discriminate|].
      destruct (String.eqb_spec type "passwordReset") as [->|]; [discriminate|].
      reflexivity. }
    now rewrite V, E.
Qed.

Lemma token_lifetime_depends_on_type_witness :
  0 <= SampleToken.issued /\
  TokenService.verifyToken SampleToken.secret (SampleToken.issued + 86400001)
    (TokenService.generateToken SampleToken.secret SampleToken.issued "a@b.com"
                                (Some "R1") "verification")
    "a@b.com" (Some "R1") "verification" =
  TokenService.Invalid "Token expired".
Proof.
  assert (H : 0 <= SampleToken.issued) by (unfold SampleToken.issued; discriminate).
  split; [exact H|].
  apply (proj1 (token_lifetime_depends_on_type SampleToken.secret "a@b.com" (Some "R1")
                  "verification" SampleToken.issued (SampleToken.issued + 86400001) H));
    [reflexivity|].
  unfold SampleToken.issued. reflexivity.
Defined.

(** X9.  Only the first two parts of a token are read.  A token without a
    dot, or with nothing before or after its first dot, is refused with
    "Invalid token format"; whatever follows a second dot is ignored, so
    that a token and the same token with more parts appended are answered
    alike. *)
Theorem token_parts_beyond_the_second_are_ignored
    (secret : string) (now : Z) (payloadPart signaturePart more expectedEmail : string)
    (expectedRequestId : option string) (type : string) :
  noDot payloadPart -> noDot signaturePart ->
  TokenService.verifyToken secret now
    (payloadPart ++ "." ++ signaturePart ++ "." ++ more)
    expectedEmail expectedRequestId type =
  TokenService.verifyToken secret now (payloadPart ++ "." ++ signaturePart)
    expectedEmail expectedRequestId type /\
  TokenService.verifyToken secret now payloadPart expectedEmail expectedRequestId type =
    TokenService.Invalid "Invalid token format" /\
  TokenService.verifyToken secret now (payloadPart ++ ".") expectedEmail
    expectedRequestId type = TokenService.Invalid "Invalid token format" /\
  TokenService.verifyToken secret now ("." ++ signaturePart) expectedEmail
    expectedRequestId type = TokenService.Invalid "Invalid token format".
Proof.
  intros Hp Hs. unfold TokenService.verifyToken. cbn [append].
  split; [|split; [|split]].
  - rewrite !(split_app payloadPart) by exact Hp.
    rewrite (split_app signaturePart more Hs), (split_noDot signaturePart Hs).
    reflexivity.
  - now rewrite (split_noDot payloadPart Hp).
  - rewrite (split_app payloadPart EmptyString Hp). cbn [TokenService.split nth_error].
    now rewrite String.eqb_refl, orb_true_r.
  - change (String "." signaturePart) with (EmptyString ++ String "." signaturePart).
    rewrite (split_app EmptyString signaturePart I), (split_noDot signaturePart Hs).
    reflexivity.
Qed.

Lemma token_parts_beyond_the_second_are_ignored_witness :
  noDot "abc" /\ noDot "def" /\
  TokenService.verifyToken "k" 0 "abc" "a@b.com" None "payment" =
  TokenService.Invalid "Invalid token format".
Proof.
  assert (Ha : noDot "abc") by (cbn; auto).
  assert (Hd : noDot "def") by (cbn; auto).
  split; [exact Ha|split; [exact Hd|]].
  exact (proj1 (proj2 (token_parts_beyond_the_second_are_ignored "k" 0 "abc" "def" "x"
                         "a@b.com" None "payment" Ha Hd))).
Defined.

(** ** The quantity of a top-up *)









(** ** Managed-service fees *)

Lemma upsert_fresh {A} (same : A -> A -> bool) (d : A) (l : list A) :
  Forall (fun x => same x d = false) l -> upsert same d l = (l ++ [d])%list.
Proof.
  induction 1 as [|x r Hx _ IH]; cbn; [reflexivity|]. now rewrite Hx, IH.
Qed.

Lemma savePayment_fresh p s :
  paymentIdsIssued s -> (nextId s <= Payment._id p)%nat ->
  payments (savePayment p s) = (payments s ++ [p])%list.
Proof.
  intros Hs Hp. unfold savePayment. cbn [payments]. apply upsert_fresh.
  unfold paymentIdsIssued in Hs. rewrite Forall_forall in *. intros x Hx.
  specialize (Hs x Hx). unfold samePayment. apply Nat.eqb_neq. lia.
Qed.

Lemma findManagedById_requestId i s ms :
  findManagedById i s = Some ms -> i = Some (ManagedService._id ms).
Proof.
  destruct i as [m|]; [|discriminate]. cbn. intros H. apply find_some in H.
  destruct H as [_ H]. apply String.eqb_eq in H. now subst.
Qed.

Lemma managed_found_after ms d s l :
  findManagedById (Some (ManagedService._id ms)) s = Some ms ->
  ManagedService._id d = ManagedService._id ms ->
  l = managedServices s ->
  find (fun x => String.eqb (ManagedService._id x) (ManagedService._id ms))
       (upsert sameManaged d l) = Some d.
Proof.
  intros H Hid ->. cbn in H. apply (find_upsert_found sameManaged _ d ms); auto.
  - unfold sameManaged. rewrite Hid. apply String.eqb_refl.
  - rewrite Hid. apply String.eqb_refl.
Qed.

Lemma upsert_issued p s l :
  paymentIdsIssued s -> l = payments s -> (nextId s <= Payment._id p)%nat ->
  upsert samePayment p l = (payments s ++ [p])%list.
Proof.
  intros Hs -> Hp. apply upsert_fresh.
  unfold paymentIdsIssued in Hs. rewrite Forall_forall in *. intros x Hx.
  specialize (Hs x Hx). unfold samePayment. apply Nat.eqb_neq. lia.
Qed.

Lemma issued_after p s s' :
  paymentIdsIssued s -> payments s' = (payments s ++ [p])%list ->
  (nextId s <= Payment._id p)%nat -> nextId s' = S (Payment._id p) ->
  paymentIdsIssued s'.
Proof.
  intros Hs Hp Hle Hn. unfold paymentIdsIssued in *. rewrite Hp, Hn.
  apply Forall_app. split.
  - rewrite Forall_forall in *. intros x Hx. specialize (Hs x Hx). lia.
  - constructor; [lia|constructor].
Qed.

(** The record that a delivery of a managed-service fee stores. *)
Lemma managed_fee_stored now session s ms :
  findManagedById (Session.requestId (Session.metadata session)) s = Some ms ->
  let s' := fst (handleManagedServiceFee now session s) in
  exists p ms',
    payments s' = upsert samePayment p (payments s) /\
    feeRecord "managed_service" (ManagedService._id ms) p /\
    (nextId s <= Payment._id p)%nat /\ nextId s' = S (Payment._id p) /\
    findManagedById (Session.requestId (Session.metadata session)) s' = Some ms' /\
    ManagedService._id ms' = ManagedService._id ms.
Proof.
  intros M s'. pose proof (findManagedById_requestId _ _ _ M) as Hrid.
  unfold s', handleManagedServiceFee. rewrite M. rewrite Hrid in *.
  set (e := JsString.trim _).
  destruct (findUserByEmail e s) as [u|]; cbn [freshId fst snd];
    (eexists; eexists; split; [reflexivity|]);
    (split; [repeat split|]); (split; [cbn; lia|]); (split; [reflexivity|]);
    (split;
     [ cbn;
       match goal with
       | |- context [upsert sameManaged ?d _] =>
           apply (managed_found_after ms d s); [exact M|reflexivity|reflexivity]
       end
     | reflexivity ]).
Qed.

Lemma savings_fee_stored now session s ms :
  findManagedById (Session.requestId (Session.metadata session)) s = Some ms ->
  let s' := fst (handleSavingsFee now session s) in
  exists p ms',
    payments s' = upsert samePayment p (payments s) /\
    feeRecord "managed_service_savings_fee" (ManagedService._id ms) p /\
    (nextId s <= Payment._id p)%nat /\ nextId s' = S (Payment._id p) /\
    findManagedById (Session.requestId (Session.metadata session)) s' = Some ms' /\
    ManagedService._id ms' = ManagedService._id ms.
Proof.
  intros M s'. pose proof (findManagedById_requestId _ _ _ M) as Hrid.
  unfold s', handleSavingsFee. rewrite M. rewrite Hrid in *.
  cbn [freshId fst snd].
  eexists; eexists; split; [reflexivity|].
  split; [repeat split|]. split; [cbn; lia|]. split; [reflexivity|].
  split;
    [ cbn;
      match goal with
      | |- context [upsert sameManaged ?d _] =>
          apply (managed_found_after ms d s); [exact M|reflexivity|reflexivity]
      end
    | reflexivity ].
Qed.

(** Two deliveries to either fee branch. *)
Lemma fee_recorded_twice
    (handler : JsDate.t -> Session.t -> Store -> Store * WebhookResponse)
    (planType : string) (now1 now2 : JsDate.t) (session : Session.t) (s : Store)
    (ms : ManagedService.t) :
  (handler = handleManagedServiceFee /\ planType = "managed_service" \/
   handler = handleSavingsFee /\ planType = "managed_service_savings_fee") ->
  findManagedById (Session.requestId (Session.metadata session)) s = Some ms ->
  paymentIdsIssued s ->
  let once := fst (handler now1 session s) in
  let twice := fst (handler now2 session once) in
  exists p1 p2,
    payments once = (payments s ++ [p1])%list /\
    payments twice = (payments s ++ [p1; p2])%list /\
    feeRecord planType (ManagedService._id ms) p1 /\
    feeRecord planType (ManagedService._id ms) p2 /\
    Payment._id p1 <> Payment._id p2.
Proof.
  intros Hh M Hs once twice.
  assert (Step : forall now s0 ms0,
             findManagedById (Session.requestId (Session.metadata session)) s0 =
               Some ms0 ->
             exists p ms',
               payments (fst (handler now session s0)) =
                 upsert samePayment p (payments s0) /\
               feeRecord planType (ManagedService._id ms0) p /\
               (nextId s0 <= Payment._id p)%nat /\
               nextId (fst (handler now session s0)) = S (Payment._id p) /\
               findManagedById (Session.requestId (Session.metadata session))
                 (fst (handler now session s0)) = Some ms' /\
               ManagedService._id ms' = ManagedService._id ms0).
  { intros now s0 ms0 M0. destruct Hh as [[-> ->]|[-> ->]].
    - apply managed_fee_stored; exact M0.
    - apply savings_fee_stored; exact M0. }
  destruct (Step now1 s ms M) as (p1 & ms1 & P1 & F1 & L1 & N1 & M1 & I1).
  fold once in P1, N1, M1.
  rewrite (upsert_issued p1 s _ Hs eq_refl L1) in P1.
  pose proof (issued_after p1 s once Hs P1 L1 N1) as Hs1.
  destruct (Step now2 once ms1 M1) as (p2 & ms2 & P2 & F2 & L2 & N2 & M2 & I2).
  fold twice in P2, N2, M2.
  rewrite (upsert_issued p2 once _ Hs1 eq_refl L2) in P2.
  exists p1, p2. split; [exact P1|split; [|split; [exact F1|split]]].
  - rewrite P2, P1, <- List.app_assoc. reflexivity.
  - rewrite <- I1. exact F2.
  - rewrite N1 in L2. lia.
Qed.

(** X11.  The fee branches of the webhook do not recognise a delivery they
    have seen.  For a managed service that exists, every delivery of the
    checkout event of its service fee, and likewise of its savings fee,
    appends one more succeeded payment record for the service: after two
    deliveries the store holds two such records, with different [_id]s. *)
Theorem fee_events_are_recorded_at_every_delivery
    (stripe1 stripe2 : option StripeApi) (matcher1 matcher2 : Matcher)
    (now1 now2 : JsDate.t) (session : Session.t) (s : Store) (ms : ManagedService.t) :
  isPurchaseSession session = false ->
  findManagedById (Session.requestId (Session.metadata session)) s = Some ms ->
  paymentIdsIssued s ->
  let event := Some (CheckoutSessionCompleted session) in
  let once := fst (handleWebhook stripe1 matcher1 now1 event s) in
  let twice := fst (handleWebhook stripe2 matcher2 now2 event once) in
  exists planType p1 p2,
    (planType = "managed_service" \/ planType = "managed_service_savings_fee") /\
    payments once = (payments s ++ [p1])%list /\
    payments twice = (payments s ++ [p1; p2])%list /\
    feeRecord planType (ManagedService._id ms) p1 /\
    feeRecord planType (ManagedService._id ms) p2 /\
    Payment._id p1 <> Payment._id p2.
Proof.
  intros Hfee M Hs event once twice.
  unfold twice, once, event, handleWebhook, handleCheckoutCompleted.
  unfold isPurchaseSession in Hfee. apply negb_false_iff in Hfee.
  destruct (JsString.optEqb (Session.type (Session.metadata session))
                            (Some "managed_service")).
  - exists "managed_service".
    destruct (fee_recorded_twice handleManagedServiceFee "managed_service" now1 now2
                session s ms (or_introl (conj eq_refl eq_refl)) M Hs)
      as (p1 & p2 & H).
    exists p1, p2. split; [now left|exact H].
  - cbn [orb] in Hfee. rewrite Hfee.
    exists "managed_service_savings_fee".
    destruct (fee_recorded_twice handleSavingsFee "managed_service_savings_fee" now1
                now2 session s ms (or_intror (conj eq_refl eq_refl)) M Hs)
      as (p1 & p2 & H).
    exists p1, p2. split; [now right|exact H].
Qed.

Lemma fee_events_are_recorded_at_every_delivery_witness :
  isPurchaseSession SampleFee.session = false /\
  paymentIdsIssued SampleFee.store /\
  exists planType p1 p2,
    payments (fst (handleWebhook None Sample.matcher Sample.now
                     (Some (CheckoutSessionCompleted SampleFee.session))
                     (fst (handleWebhook None Sample.matcher Sample.now
                             (Some (CheckoutSessionCompleted SampleFee.session))
                             SampleFee.store)))) = [p1; p2] /\
    feeRecord planType "65b2c0d4e5f6a1b2c3d4e5f7" p1 /\
    Payment._id p1 <> Payment._id p2.
Proof.
  assert (Hs : paymentIdsIssued SampleFee.store) by constructor.
  split; [reflexivity|split; [exact Hs|]].
  destruct (fee_events_are_recorded_at_every_delivery None None Sample.matcher
              Sample.matcher Sample.now Sample.now SampleFee.session SampleFee.store
              SampleFee.service eq_refl eq_refl Hs)
    as (planType & p1 & p2 & _ & _ & H2 & F1 & _ & Hd).
  exists planType, p1, p2. split; [exact H2|split; [exact F1|exact Hd]].
Defined.

(** ** What sync-all leaves alone *)

Lemma onlyPendingReplaced_refl e l : onlyPendingReplaced e l l.
Proof. induction l; constructor; auto. Qed.

Lemma same_id_same_payment (l : list Payment.t) a b :
  NoDup (map Payment._id l) -> In a l -> In b l ->
  Payment._id a = Payment._id b -> a = b.
Proof.
  induction l as [|x r IH]; cbn; intros Hn Ha Hb E; [contradiction|].
  inversion Hn as [|? ? Hx Hr]; subst.
  destruct Ha as [<-|Ha], Hb as [<-|Hb]; auto.
  - exfalso. apply Hx. rewrite E. now apply in_map.
  - exfalso. apply Hx. rewrite <- E. now apply in_map.
Qed.

Lemma onlyPendingReplaced_save e l l' p p' :
  NoDup (map Payment._id l) ->
  onlyPendingReplaced e l l' -> In p l -> pendingOf e p = true ->
  Payment._id p' = Payment._id p ->
  onlyPendingReplaced e l (upsert samePayment p' l').
Proof.
  intros Hn R. revert Hn. induction R as [|a b r r' [Hid Hab] R IH];
    intros Hn Hin Hp Hid'; [contradiction|].
  cbn [upsert]. unfold samePayment at 1.
  destruct (Nat.eqb_spec (Payment._id b) (Payment._id p')) as [E|E].
  - assert (a = p).
    { apply (same_id_same_payment (a :: r)); auto; [now left|congruence]. }
    subst a. constructor; [split; [congruence|now right]|exact R].
  - constructor; [split; assumption|].
    inversion Hn; subst. apply IH; auto.
    destruct Hin as [<-|Hin]; [congruence|exact Hin].
Qed.

Lemma onlyPendingReplaced_kept e l l' q :
  onlyPendingReplaced e l l' -> In q l -> pendingOf e q = false -> In q l'.
Proof.
  induction 1 as [|a b r r' [_ Hab] R IH]; cbn; intros Hin Hq; [contradiction|].
  destruct Hin as [<-|Hin]; [|right; now apply IH].
  destruct Hab as [->|Hp]; [now left|congruence].
Qed.

Lemma onlyPendingReplaced_ids e l l' :
  onlyPendingReplaced e l l' -> map Payment._id l' = map Payment._id l.
Proof. induction 1 as [|a b r r' [Hid _] R IH]; cbn; congruence. Qed.

Lemma unlockReportOf_payments now payment s :
  payments (unlockReportOf now payment s) = payments s.
Proof. unfold unlockReportOf, unlockIfLocked. split_inner; reflexivity. Qed.

Lemma addCreditsUnlogged_payments payment credits s :
  payments (addCreditsUnlogged payment credits s) = payments s.
Proof. unfold addCreditsUnlogged. split_inner; reflexivity. Qed.

Lemma activateFetched_payments now payment customer subscription st :
  payments (loop_store (activateFetched now payment customer subscription st)) =
  payments (loop_store st).
Proof. unfold activateFetched, allocateSubscription. split_inner; reflexivity. Qed.

(** A turn of the loop saves at most the payment it works on. *)
Lemma syncOne_payments api now st p :
  payments (loop_store (syncOne api now st p)) = payments (loop_store st) \/
  exists p', Payment._id p' = Payment._id p /\
             payments (loop_store (syncOne api now st p)) =
             upsert samePayment p' (payments (loop_store st)).
Proof.
  unfold syncOne.
  split_inner; cbn [loop_store];
    rewrite ?unlockReportOf_payments, ?activateFetched_payments;
    cbn [loop_store];
    rewrite ?addCreditsUnlogged_payments, ?addTopUpCredits_payments;
    first [ left; reflexivity
          | right; eexists; split; [|reflexivity]; reflexivity ].
Qed.

Lemma syncLoop_payments api now e l pending st :
  NoDup (map Payment._id l) ->
  (forall p, In p pending -> In p l /\ pendingOf e p = true) ->
  onlyPendingReplaced e l (payments (loop_store st)) ->
  onlyPendingReplaced e l
    (payments (loop_store (fold_left (syncOne api now) pending st))).
Proof.
  intros Hn. revert st. induction pending as [|p r IH]; intros st Hp R;
    cbn [fold_left]; [exact R|].
  apply IH; [intros x Hx; apply Hp; now right|].
  destruct (Hp p (or_introl eq_refl)) as [Hin Hpend].
  destruct (syncOne_payments api now st p) as [->|(p' & Hid & ->)]; [exact R|].
  now apply (onlyPendingReplaced_save e l _ p p').
Qed.

(** X12.  Sync-all works on the pending payments of the user and on no
    other payment.  With distinct [_id]s in the payment collection, every
    payment that is not pending, or that belongs to another address, is in
    the collection afterwards exactly as it was; no payment is added or
    removed, and the [_id]s keep their places. *)
Theorem sync_all_touches_only_pending_payments_of_the_user
    (stripe : option StripeApi) (now : JsDate.t) (userId : nat) (s : Store)
    (user : User.t) :
  findUserById userId s = Some user ->
  NoDup (map Payment._id (payments s)) ->
  let userEmail := JsString.trim (JsString.toLowerCase (User.email user)) in
  let after := payments (fst (syncUserPayments stripe now userId s)) in
  map Payment._id after = map Payment._id (payments s) /\
  (forall q, In q (payments s) ->
             Payment.status q <> Pending \/ emailMatches userEmail q = false ->
             In q after).
Proof.
  intros Hu Hn userEmail after.
  assert (R : onlyPendingReplaced userEmail (payments s) after).
  { unfold after, syncUserPayments. rewrite Hu.
    destruct stripe as [api|]; [|apply onlyPendingReplaced_refl].
    cbn [fst]. fold userEmail.
    set (st := fold_left _ _ _).
    assert (G : onlyPendingReplaced userEmail (payments s) (payments (loop_store st))).
    { unfold st. apply syncLoop_payments; [exact Hn| |apply onlyPendingReplaced_refl].
      intros p Hp. apply filter_In in Hp. exact Hp. }
    destruct (loop_updated st); exact G. }
  split; [now apply (onlyPendingReplaced_ids userEmail)|].
  intros q Hq Hnot. apply (onlyPendingReplaced_kept userEmail (payments s)); auto.
  unfold pendingOf. destruct Hnot as [Hst| ->]; [|reflexivity].
  destruct (Payment.status q); try contradiction; apply andb_false_r.
Qed.

Lemma sync_all_touches_only_pending_payments_of_the_user_witness :
  findUserById 1 Sample.settled = Some Sample.newcomer /\
  NoDup (map Payment._id (payments Sample.settled)) /\
  In Sample.paidPayment
     (payments (fst (syncUserPayments (Some Sample.stripe) Sample.now 1 Sample.settled))).
Proof.
  assert (Hn : NoDup (map Payment._id (payments Sample.settled))).
  { cbn. constructor; [intros []|constructor]. }
  split; [reflexivity|split; [exact Hn|]].
  apply (proj2 (sync_all_touches_only_pending_payments_of_the_user (Some Sample.stripe)
                  Sample.now 1 Sample.settled Sample.newcomer eq_refl Hn)).
  - now left.
  - left. discriminate.
Defined.

(** ** The mock unlock *)

(** X13.  The manual unlock is free and happens once.  It never touches
    accounts or ledger.  For a report that is not unlocked yet and has an
    address to record, it stores one succeeded one-time payment of 49
    dollars for the request and leaves the report [unlocked], tied to that
    payment; called again it answers that the report is already unlocked
    and changes nothing. *)
Theorem manual_unlock_is_free_and_happens_once
    (now later : JsDate.t) (requestId : string) (s : Store) (report : MatchReport.t) :
  findReportByRequest requestId s = Some report ->
  MatchReport.status report <> ReportUnlocked ->
  mockAddress report <> EmptyString ->
  paymentIdsIssued s ->
  let result := manualUnlock now requestId s in
  users (fst result) = users s /\
  creditTransactions (fst result) = creditTransactions s /\
  (exists p, payments (fst result) = (payments s ++ [p])%list /\
             Payment._id p = nextId s /\
             Payment.status p = Succeeded /\ Payment.planType p = "one-time" /\
             Payment.amount p = 4900 /\ Payment.requestId p = Some requestId) /\
  findReportByRequest requestId (fst result) = Some (unlockReport (nextId s) now report) /\
  snd result = plain 200 true "Report unlocked successfully (mock payment)" /\
  manualUnlock later requestId (fst result) =
    (fst result, plain 200 true "Report already unlocked").
Proof.
  intros Hrep Hst Haddr Hs result.
  assert (Hno : ReportStatus_eqb (MatchReport.status report) ReportUnlocked = false).
  { destruct (MatchReport.status report); try reflexivity. contradiction. }
  assert (Hrid : MatchReport.requestId report = requestId).
  { unfold findReportByRequest in Hrep. apply find_some in Hrep.
    now apply String.eqb_eq. }
  unfold result, manualUnlock.
  rewrite Hrep, Hno, (eqb_empty_false _ Haddr). cbn [freshId fst snd].
  set (p := Payment.mk _ _ _ _ _ _ _ _ _ _ _ _ _).
  set (s1 := savePayment p _).
  assert (Hfound : findReportByRequest requestId
                     (saveReport (unlockReport (Payment._id p) now report) s1) =
                   Some (unlockReport (nextId s) now report)).
  { apply (findReportByRequest_saved requestId _ report); [exact Hrid|].
    left. split; [exact Hrep|reflexivity]. }
  split; [reflexivity|split; [reflexivity|split; [|split; [exact Hfound|split]]]].
  - exists p. split; [|repeat split].
    cbn [saveReport payments s1 savePayment].
    apply (upsert_issued p s); [exact Hs|reflexivity|cbn; lia].
  - reflexivity.
  - rewrite Hfound. reflexivity.
Qed.

Lemma manual_unlock_is_free_and_happens_once_witness :
  findReportByRequest Sample.requestId Sample.fresh = Some Sample.report /\
  paymentIdsIssued Sample.fresh /\
  findReportByRequest Sample.requestId
    (fst (manualUnlock Sample.now Sample.requestId Sample.fresh)) =
  Some (unlockReport 100 Sample.now Sample.report).
Proof.
  assert (Hs : paymentIdsIssued Sample.fresh) by constructor.
  split; [reflexivity|split; [exact Hs|]].
  refine (proj1 (proj2 (proj2 (proj2 (manual_unlock_is_free_and_happens_once
            Sample.now Sample.now Sample.requestId Sample.fresh Sample.report
            eq_refl _ _ Hs))))).
  - discriminate.
  - vm_compute. discriminate.
Defined.

(** ** Generating the AI match of a paid report *)



(** X15.  A report unlocked with a credit cannot have its AI match
    generated through this endpoint.  After [unlockRequest] has unlocked the
    report of a request for which no succeeded payment is stored,
    [generateAIMatch] answers 403 "Payment required to generate AI match"
    and changes nothing: the unlock by credit stores no payment. *)
Theorem credit_unlock_does_not_open_ai_generation
    (scoring : Scoring) (now later : JsDate.t) (id : string) (user : User.t)
    (uid : nat) (s : Store) (request : BuyerRequest.t) (report : MatchReport.t) :
  find (fun b => andb (String.eqb (BuyerRequest._id b) id)
                      (String.eqb (BuyerRequest.email b) (User.email user)))
       (buyerRequests s) = Some request ->
  findReportByRequest id s = Some report ->
  MatchReport.status report <> ReportUnlocked ->
  1 <= User.matchCredits user ->
  findSucceededPayment id s = None ->
  let unlocked := fst (unlockRequest now id user s) in
  api_message (snd (unlockRequest now id user s)) = "Request unlocked successfully" /\
  generateAIMatch scoring later id (Some uid) unlocked =
    (unlocked, plain 403 false "Payment required to generate AI match").
Proof.
  intros Hreq Hrep Hst Hc Hpay unlocked.
  pose proof (unlockRequest_success now id user s request report Hreq Hrep Hst Hc) as R.
  cbv zeta in R. unfold unlocked. rewrite R. cbn [fst snd api_message].
  split; [reflexivity|].
  assert (Hrid : MatchReport.requestId report = id).
  { unfold findReportByRequest in Hrep. apply find_some in Hrep.
    now apply String.eqb_eq. }
  set (opened := MatchReport.set_unlockedAt (Some now)
                   (MatchReport.set_status ReportUnlocked report)).
  set (s1 := createTransaction _ _).
  assert (Hopened : findReportByRequest id (saveReport opened s1) = Some opened).
  { apply (findReportByRequest_saved id opened report); [exact Hrid|].
    left. split; [exact Hrep|reflexivity]. }
  assert (Hsome : exists r, findRequestById id (saveReport opened s1) = Some r).
  { unfold findRequestById. cbn [buyerRequests saveReport s1 createTransaction
                                   saveUserPaths].
    destruct (find (fun b => String.eqb (BuyerRequest._id b) id) (buyerRequests s))
      as [r|] eqn:F; [now exists r|].
    apply find_some in Hreq. destruct Hreq as [Hin Hb].
    apply andb_true_iff in Hb. destruct Hb as [Hb _].
    pose proof (find_none _ _ F request Hin) as Hn. cbn in Hn. congruence. }
  destruct Hsome as (r & Hr).
  unfold generateAIMatch. rewrite Hr, Hopened. cbn [ReportStatus_eqb negb].
  change (findSucceededPayment id (saveReport opened s1))
    with (findSucceededPayment id s).
  now rewrite Hpay.
Qed.

Lemma credit_unlock_does_not_open_ai_generation_witness :
  1 <= User.matchCredits Sample.newcomer /\
  findSucceededPayment Sample.requestId Sample.fresh = None /\
  api_status (snd (generateAIMatch Sample.scoring Sample.now Sample.requestId
                     (Some 1%nat)
                     (fst (unlockRequest Sample.now Sample.requestId Sample.newcomer
                             Sample.fresh)))) = 403%nat.
Proof.
  assert (H : 1 <= User.matchCredits Sample.newcomer) by (cbn; discriminate).
  split; [exact H|split; [reflexivity|]].
  assert (Hst : MatchReport.status Sample.report <> ReportUnlocked) by discriminate.
  rewrite (proj2 (credit_unlock_does_not_open_ai_generation Sample.scoring Sample.now
                    Sample.now Sample.requestId Sample.newcomer 1 Sample.fresh
                    Sample.request Sample.report eq_refl eq_refl Hst H eq_refl)).
  reflexivity.
Defined.

(** ** Reading the report *)

Lemma generateAIMatch_success scoring now id reqUser s :
  api_message (snd (generateAIMatch scoring now id reqUser s)) =
    "AI match generated successfully" ->
  exists request report generated,
    findRequestById id s = Some request /\
    findReportByRequest id s = Some report /\
    aiBased scoring request = Matched generated /\
    fst (generateAIMatch scoring now id reqUser s) =
      saveRequest (BuyerRequest.set_status "processing" request)
        (saveReport (MatchReport.set_content generated (Some now)
                       (MatchReport.set_status ReportCompleted report)) s).
Proof.
  unfold generateAIMatch.
  destruct reqUser as [uid|]; [|discriminate].
  destruct (findRequestById id s) as [request|]; [|discriminate].
  destruct (findReportByRequest id s) as [report|]; [|discriminate].
  destruct (MatchReport.status report); cbn [ReportStatus_eqb negb]; try discriminate.
  destruct (findSucceededPayment id s); [|discriminate].
  destruct (aiBased scoring request) as [| | |generated] eqn:G; try discriminate.
  intros _. now exists request, report, generated.
Qed.

Lemma report_requestId id s report :
  findReportByRequest id s = Some report -> MatchReport.requestId report = id.
Proof.
  unfold findReportByRequest. intros H. apply find_some in H. now apply String.eqb_eq.
Qed.

(** The owner's search finds the request with this id when that request
    carries the owner's address. *)
Lemma owner_finds_request id account l request :
  find (fun b => String.eqb (BuyerRequest._id b) id) l = Some request ->
  BuyerRequest.email request = account ->
  find (fun b => andb (String.eqb (BuyerRequest._id b) id)
                      (String.eqb (BuyerRequest.email b) account)) l = Some request.
Proof.
  intros Hf He. induction l as [|x r IH]; cbn in *; [discriminate|].
  destruct (String.eqb (BuyerRequest._id x) id); cbn [andb].
  - injection Hf as ->. now rewrite He, String.eqb_refl.
  - auto.
Qed.


(** X16.  What the full report is served on.  When [getFullReport] answers
    with the report, the report of the request is stored with status
    [unlocked], [paid] or [pending] (a [completed] report is never served),
    every supplier of the report still exists, and a token presented with an
    address has been verified as a payment token of this request.  In
    production a token and an address must have been presented; outside
    production a caller without them is served unchecked. *)
Theorem full_report_is_served_on_open_status_and_link
    {Supplier : Type} (secret : string) (production : bool)
    (lookup : nat -> option Supplier) (nowMs : Z) (id : string)
    (token email : option string) (s : Store)
    (report : MatchReport.t) (full : list (Supplier * Z)) :
  getFullReport secret production lookup nowMs id token email s = FullReport report full ->
  findReportByRequest id s = Some report /\
  (MatchReport.status report = ReportUnlocked \/
   MatchReport.status report = ReportPaid \/
   MatchReport.status report = ReportPending) /\
  populated lookup (suppliers (MatchReport.content report)) = Some full /\
  (forall t e, token = Some t -> email = Some e ->
     t <> EmptyString -> e <> EmptyString ->
     exists address request type,
       TokenService.verifyToken secret nowMs t e (Some id) "payment" =
       TokenService.Valid address request type) /\
  (production = true ->
     exists t e, token = Some t /\ email = Some e /\
                 t <> EmptyString /\ e <> EmptyString).
Proof.
  unfold getFullReport.
  destruct (findReportByRequest id s) as [stored|]; [|discriminate].
  destruct (MatchReport.status stored) eqn:Hst; cbn [ReportStatus_eqb negb andb];
    try discriminate.
  all: destruct token as [t|], email as [e|]; cbn [JsString.truthy andb].
  all: try (destruct production; [discriminate|]).
  all: try (destruct (populated lookup _) as [sup|] eqn:P; [|discriminate];
            intros H; injection H as <- <-;
            repeat split; auto; try discriminate; intros; discriminate).
  all: destruct (String.eqb_spec t EmptyString) as [Ht|Ht];
       destruct (String.eqb_spec e EmptyString) as [He|He]; cbn [negb andb].
  all: try (destruct production; [discriminate|]).
  all: try (destruct (TokenService.verifyToken secret nowMs t e (Some id) "payment")
              as [a r y|] eqn:V; [|discriminate]).
  all: destruct (populated lookup _) as [sup|] eqn:P; [|discriminate];
       intros H; injection H as <- <-.
  all: split; [reflexivity|split; [auto|split; [exact P|split]]].
  all: try (intros t0 e0 [= <-] [= <-] Ht0 He0; try contradiction;
            now exists a, r, y).
  all: try discriminate.
  all: intros _; now exists t, e.
Qed.

Lemma full_report_is_served_on_open_status_and_link_witness :
  getFullReport SampleToken.secret false (fun n : nat => Some n) 0 Sample.requestId
                None None Sample.settled =
    FullReport (unlockReport 20 Sample.now Sample.report) [] /\
  MatchReport.status (unlockReport 20 Sample.now Sample.report) = ReportUnlocked.
Proof.
  assert (H : getFullReport SampleToken.secret false (fun n : nat => Some n) 0
                Sample.requestId None None Sample.settled =
              FullReport (unlockReport 20 Sample.now Sample.report) [])
    by reflexivity.
  split; [exact H|].
  destruct (proj1 (proj2 (full_report_is_served_on_open_status_and_link
                            SampleToken.secret false (fun n : nat => Some n) 0
                            Sample.requestId None None Sample.settled _ _ H)))
    as [E|[E|E]]; [exact E|discriminate E|discriminate E].
Defined.

(** X17.  Once the AI match is generated, its suppliers are read from the
    dashboard and no longer through the report link.  After a call of
    [generateAIMatch] that answered "AI match generated successfully",
    [getFullReport] refuses every caller with 403 "Full report is locked",
    whatever token is presented, while [getRequestDetails] shows the owner
    of the request the generated suppliers, unlocked and [completed]. *)
Theorem generated_match_is_read_from_the_dashboard
    {Supplier : Type} (scoring : Scoring) (now : JsDate.t) (id : string)
    (reqUser : option nat) (s : Store) (secret : string) (production : bool)
    (lookup : nat -> option Supplier) (nowMs : Z) (token email : option string)
    (user : User.t) :
  api_message (snd (generateAIMatch scoring now id reqUser s)) =
    "AI match generated successfully" ->
  let after := fst (generateAIMatch scoring now id reqUser s) in
  getFullReport secret production lookup nowMs id token email after =
    ReportRefused 403 "Full report is locked. Please complete payment to unlock." /\
  (forall request,
     findRequestById id s = Some request ->
     BuyerRequest.email request = User.email user ->
     exists generated,
       aiBased scoring request = Matched generated /\
       match getRequestDetails lookup id user after with
       | DetailsFound data =>
           populated lookup (suppliers generated) = Some (details_suppliers data) /\
           details_isLocked data = false /\
           details_status data = "completed" /\
           details_generatedAt data = Some now
       | DetailsFailed => populated lookup (suppliers generated) = None
       | DetailsRefused _ _ => False
       end).
Proof.
  intros Hok after.
  destruct (generateAIMatch_success scoring now id reqUser s Hok)
    as (request & report & generated & Hreq & Hrep & Hgen & Hafter).
  unfold after. rewrite Hafter. clear after Hafter.
  set (done := MatchReport.set_content generated (Some now)
                 (MatchReport.set_status ReportCompleted report)).
  set (moved := BuyerRequest.set_status "processing" request).
  assert (Hdone : findReportByRequest id (saveRequest moved (saveReport done s)) =
                  Some done).
  { change (findReportByRequest id (saveReport done s) = Some done).
    apply (findReportByRequest_saved id done report).
    - exact (report_requestId id s report Hrep).
    - left. split; [exact Hrep|reflexivity]. }
  split.
  - unfold getFullReport. rewrite Hdone. reflexivity.
  - intros request0 Hreq0 Hmine.
    assert (request0 = request) as -> by congruence.
    exists generated. split; [exact Hgen|].
    assert (Hown : find (fun b => andb (String.eqb (BuyerRequest._id b) id)
                                       (String.eqb (BuyerRequest.email b) (User.email user)))
                        (buyerRequests (saveRequest moved (saveReport done s))) =
                   Some moved).
    { cbn [buyerRequests saveRequest saveReport].
      pose proof (owner_finds_request id (User.email user) _ request Hreq Hmine) as F.
      apply (find_upsert_found sameRequest _ moved request); [exact F| |].
      - unfold sameRequest. apply String.eqb_refl.
      - apply find_some in F. exact (proj2 F). }
    unfold getRequestDetails. rewrite Hown, Hdone.
    cbn [MatchReport.status MatchReport.content MatchReport.generatedAt done
         MatchReport.set_content MatchReport.set_status ReportStatus_eqb andb negb
         statusName].
    destruct (populated lookup (suppliers generated)) as [full|]; [|reflexivity].
    repeat split.
Qed.

Lemma generated_match_is_read_from_the_dashboard_witness :
  api_message (snd (generateAIMatch Sample.scoring Sample.now Sample.requestId
                      (Some 1%nat) Sample.settled)) =
    "AI match generated successfully" /\
  getFullReport SampleToken.secret false (fun n : nat => Some n) 0 Sample.requestId
    None None
    (fst (generateAIMatch Sample.scoring Sample.now Sample.requestId (Some 1%nat)
            Sample.settled)) =
  ReportRefused 403 "Full report is locked. Please complete payment to unlock.".
Proof.
  split; [reflexivity|].
  exact (proj1 (generated_match_is_read_from_the_dashboard Sample.scoring Sample.now
                  Sample.requestId (Some 1%nat) Sample.settled SampleToken.secret false
                  (fun n : nat => Some n) 0 None None Sample.newcomer eq_refl)).
Defined.



(** ** The request on the dashboard *)



(** X20.  A request unlocked with a credit shows as unlocked on the
    dashboard, still without suppliers.  After [unlockRequest] has charged a
    credit and unlocked the report, [getRequestDetails] answers the owner
    with status [unlocked], locked, and an empty supplier list, whatever the
    report holds and whatever payments are stored. *)
Theorem credit_unlock_shows_unlocked_without_suppliers
    {Supplier : Type} (lookup : nat -> option Supplier) (now : JsDate.t)
    (id : string) (user : User.t) (s : Store)
    (request : BuyerRequest.t) (report : MatchReport.t) :
  find (fun b => andb (String.eqb (BuyerRequest._id b) id)
                      (String.eqb (BuyerRequest.email b) (User.email user)))
       (buyerRequests s) = Some request ->
  findReportByRequest id s = Some report ->
  MatchReport.status report <> ReportUnlocked ->
  1 <= User.matchCredits user ->
  exists data,
    getRequestDetails lookup id user (fst (unlockRequest now id user s)) =
      DetailsFound data /\
    details_status data = "unlocked" /\
    details_matchReportStatus data = "unlocked" /\
    details_isLocked data = true /\
    details_suppliers data = [] /\
    view_id (details_request data) = id.
Proof.
  intros Hreq Hrep Hst Hc.
  pose proof (unlockRequest_success now id user s request report Hreq Hrep Hst Hc) as R.
  cbv zeta in R. rewrite R. cbn [fst].
  set (opened := MatchReport.set_unlockedAt (Some now)
                   (MatchReport.set_status ReportUnlocked report)).
  set (s1 := createTransaction _ _).
  assert (Hopened : findReportByRequest id (saveReport opened s1) = Some opened).
  { apply (findReportByRequest_saved id opened report).
    - unfold findReportByRequest in Hrep. apply find_some in Hrep.
      now apply String.eqb_eq.
    - left. split; [exact Hrep|reflexivity]. }
  assert (Hid : BuyerRequest._id request = id).
  { apply find_some in Hreq. destruct Hreq as [_ Hb].
    apply andb_true_iff in Hb. now apply String.eqb_eq. }
  unfold getRequestDetails.
  change (buyerRequests (saveReport opened s1)) with (buyerRequests s).
  rewrite Hreq, Hopened.
  cbn [MatchReport.status opened MatchReport.set_unlockedAt MatchReport.set_status
       ReportStatus_eqb andb negb].
  destruct (findOwnSucceededPayment user id (saveReport opened s1));
    cbn [andb negb]; eexists; (split; [reflexivity|]); repeat split; exact Hid.
Qed.

Lemma credit_unlock_shows_unlocked_without_suppliers_witness :
  1 <= User.matchCredits Sample.newcomer /\
  exists data,
    getRequestDetails (fun n : nat => Some n) Sample.requestId Sample.newcomer
      (fst (unlockRequest Sample.now Sample.requestId Sample.newcomer Sample.fresh)) =
      DetailsFound data /\
    details_suppliers data = [].
Proof.
  assert (H : 1 <= User.matchCredits Sample.newcomer) by (cbn; discriminate).
  split; [exact H|].
  assert (Hst : MatchReport.status Sample.report <> ReportUnlocked) by discriminate.
  destruct (credit_unlock_shows_unlocked_without_suppliers (fun n : nat => Some n)
              Sample.now Sample.requestId Sample.newcomer Sample.fresh Sample.request
              Sample.report eq_refl eq_refl Hst H)
    as (data & E & _ & _ & _ & Hs & _).
  now exists data.
Defined.
